(** * ShotLoader_v1: signal conditioning and calibration of magnetic diagnostics

    A shallow embedding of [ShotLoader_v1.py] (class [ShotData] and the module
    functions [IgorLoad], [CleanUp], [BdotNA], [main]) together with the
    properties of it that the specification states.

    Conventions of the embedding.
    - A Python float is an element of [fl]: an exact rational, or one of the
      IEEE specials (the two infinities and NaN).  The arithmetic returns its
      rationals in lowest terms, so that equal numbers are equal terms.
      Rounding and overflow are not modelled, and the sign of zero is not
      tracked.
    - A Python exception is a value of [exn]; code that may raise lives in the
      [result] monad, and the methods of [ShotData], which mutate the object
      and print, live in the state-and-exception monad [M].
    - A Python [dict] is an association list in insertion order ([dict]),
      a numpy array or a Python list is a [list]. *)

From Stdlib Require Import QArith Qreduction Qfield Lia Ascii String DecimalString.
From stdpp Require Import base numbers strings list.

Local Open Scope Q_scope.

(** ** Floats *)

Inductive fl : Type :=
| Fin (q : Q)
| PInf
| NInf
| NaN.

Definition Qltb (a b : Q) : bool := negb (Qle_bool b a).

Definition fl_zero : fl := Fin 0.

Definition fadd (x y : fl) : fl :=
  match x, y with
  | NaN, _ | _, NaN => NaN
  | Fin a, Fin b => Fin (Qred (a + b))
  | PInf, NInf | NInf, PInf => NaN
  | PInf, _ | _, PInf => PInf
  | NInf, _ | _, NInf => NInf
  end.

Definition fsub (x y : fl) : fl :=
  match x, y with
  | NaN, _ | _, NaN => NaN
  | Fin a, Fin b => Fin (Qred (a - b))
  | PInf, PInf | NInf, NInf => NaN
  | PInf, _ | _, NInf => PInf
  | NInf, _ | _, PInf => NInf
  end.

(** Sign of an infinite product or quotient: [pos] tells whether the result is
    [+inf]. *)
Definition inf_of (pos : bool) : fl := if pos then PInf else NInf.

Definition fmul (x y : fl) : fl :=
  match x, y with
  | NaN, _ | _, NaN => NaN
  | Fin a, Fin b => Fin (Qred (a * b))
  | Fin a, PInf | PInf, Fin a =>
      if Qeq_bool a 0 then NaN else inf_of (Qltb 0 a)
  | Fin a, NInf | NInf, Fin a =>
      if Qeq_bool a 0 then NaN else inf_of (Qltb a 0)
  | PInf, PInf | NInf, NInf => PInf
  | PInf, NInf | NInf, PInf => NInf
  end.

Definition fdiv (x y : fl) : fl :=
  match x, y with
  | NaN, _ | _, NaN => NaN
  | Fin a, Fin b =>
      if Qeq_bool b 0
      then (if Qeq_bool a 0 then NaN else inf_of (Qltb 0 a))
      else Fin (Qred (a / b))
  | Fin _, (PInf | NInf) => Fin 0
  | PInf, Fin b => inf_of (Qle_bool 0 b)
  | NInf, Fin b => inf_of (Qltb b 0)
  | (PInf | NInf), (PInf | NInf) => NaN
  end.

(** [x > y] and [x < y]; every comparison with NaN is false. *)
Definition fgt (x y : fl) : bool :=
  match x, y with
  | NaN, _ | _, NaN => false
  | Fin a, Fin b => Qltb b a
  | PInf, PInf | NInf, _ | _, PInf => false
  | PInf, _ | _, NInf => true
  end.

Definition flt (x y : fl) : bool := fgt y x.

(** [x == y] on floats: NaN differs from everything, itself included. *)
Definition feqb (x y : fl) : bool :=
  match x, y with
  | Fin a, Fin b => Qeq_bool a b
  | PInf, PInf | NInf, NInf => true
  | _, _ => false
  end.

Definition of_nat_fl (i : nat) : fl := Fin (inject_Z (Z.of_nat i)).

(** ** Exceptions *)

Inductive exn : Type :=
| TypeError
| KeyError (key : string)
| IndexError
| ValueError
| FileNotFoundError.

Inductive result (A : Type) : Type :=
| Ok (a : A)
| Raise (e : exn).
Arguments Ok {A} a.
Arguments Raise {A} e.

#[global] Instance result_ret : MRet result := @Ok.
#[global] Instance result_bind : MBind result :=
  λ A B f r, match r with Ok a => f a | Raise e => Raise e end.

(** ** Arrays *)

(** [a[i]] for [0 <= i]. *)
Definition getitem {A} (a : list A) (i : nat) : result A :=
  match a !! i with Some x => Ok x | None => Raise IndexError end.

(** [a[-1]]. *)
Definition getlast {A} (a : list A) : result A :=
  match last a with Some x => Ok x | None => Raise IndexError end.

(** [dx * np.arange(npts)]. *)
Definition arange_scaled (dx : fl) (npts : nat) : list fl :=
  map (λ i, fmul dx (of_nat_fl i)) (seq 0 npts).

(** [np.flatnonzero(mask)]: the indices at which [mask] holds. *)
Fixpoint flatnonzero_from (i : nat) (mask : list bool) : list nat :=
  match mask with
  | [] => []
  | b :: mask' => (if b then [i] else []) ++ flatnonzero_from (S i) mask'
  end.

Definition flatnonzero (mask : list bool) : list nat := flatnonzero_from 0 mask.

(** [a[idx]] with an index array. *)
Fixpoint fancy_index {A} (a : list A) (idx : list nat) : result (list A) :=
  match idx with
  | [] => Ok []
  | i :: idx' => x ← getitem a i; xs ← fancy_index a idx'; Ok (x :: xs)
  end.

Definition fsum (l : list fl) : fl := fold_left fadd l fl_zero.

(** [np.mean]: the sum over the count, NaN (0/0) on an empty array. *)
Definition np_mean (l : list fl) : fl := fdiv (fsum l) (of_nat_fl (length l)).

(** [np.diff]. *)
Definition np_diff (x : list fl) : list fl := zip_with fsub (tail x) x.

Fixpoint cumsum_from (acc : fl) (l : list fl) : list fl :=
  match l with
  | [] => []
  | x :: l' => let acc' := fadd acc x in acc' :: cumsum_from acc' l'
  end.

(** [np.cumsum]. *)
Definition np_cumsum (l : list fl) : list fl :=
  match l with
  | [] => []
  | x :: l' => x :: cumsum_from x l'
  end.

(** SciPy's [integrate.cumtrapz(y, x=x, initial=initial)] on one-dimensional
    arrays, after its documentation: the running sum of
    [diff(x) * (y[1:] + y[:-1]) / 2.0] behind the initial value; an empty [y]
    is rejected with ValueError. *)
Definition cumtrapz (y x : list fl) (initial : fl) : result (list fl) :=
  match y with
  | [] => Raise ValueError
  | _ =>
      let d := np_diff x in
      let terms :=
        zip_with (λ dj s, fdiv (fmul dj s) (Fin 2)) d (zip_with fadd (tail y) y) in
      Ok (initial :: np_cumsum terms)
  end.

(** ** Raw signals

    [IgorLoad] returns a dict with the keys ['deltaX'] and ['data'].  It has two
    return sites: a loaded wave (a float and a numpy array) and the stand-in for
    an absent file, in which both entries are the empty Python list. *)
Inductive signal : Type :=
| NoData
| Wave (deltaX : fl) (data : list fl).

(** ** CleanUp *)

Definition dStart : fl := Fin 0.
Definition dEnd : fl := Fin (1 # 1000).

(** [(sigTime > dStart) & (sigTime < dEnd)]. *)
Definition baseline_mask (sigTime : list fl) : list bool :=
  map (λ t, fgt t dStart && flt t dEnd) sigTime.

(** The body of the drift loop,
    [cleanSig[i] -= (offSig[-1] - offSig[0]) * sigTime[i] / (sigTime[-1] - sigTime[0])].
    [cleanSig] and [offSig] are two names of one array, [a]: every read sees
    the writes of the earlier iterations. *)
Definition drift_body (sigTime : list fl) (a : list fl) (i : nat)
  : result (list fl) :=
  ai ← getitem a i;
  aN ← getlast a;
  a0 ← getitem a 0;
  ti ← getitem sigTime i;
  tN ← getlast sigTime;
  t0 ← getitem sigTime 0;
  Ok (<[i := fsub ai (fdiv (fmul (fsub aN a0) ti) (fsub tN t0))]> a).

(** [for i in idx: a = body(a, i)]. *)
Fixpoint for_each (body : list fl → nat → result (list fl))
    (idx : list nat) (a : list fl) : result (list fl) :=
  match idx with
  | [] => Ok a
  | i :: idx' => a' ← body a i; for_each body idx' a'
  end.

(** [for i in range(0, len(offSig)): ...]. *)
Definition remove_drift (offSig sigTime : list fl) : result (list fl) :=
  for_each (drift_body sigTime) (seq 0 (length offSig)) offSig.

(** [CleanUp(signal, intFlag)].  On the stand-in for an absent file, [sig] is
    the Python list [[]] and [dRange] an (empty) index array, so [sig[dRange]]
    raises TypeError. *)
Definition CleanUp (signal : signal) (intFlag : bool)
  : result (list fl * list fl) :=
  match signal with
  | NoData => Raise TypeError
  | Wave dx sig =>
      let npts := length sig in
      let sigTime := arange_scaled dx npts in
      let dRange := flatnonzero (baseline_mask sigTime) in
      sel ← fancy_index sig dRange;
      let offSig := map (λ x, fsub x (np_mean sel)) sig in
      offSig ← (if intFlag then cumtrapz offSig sigTime (Fin 0) else Ok offSig);
      cleanSig ← remove_drift offSig sigTime;
      Ok (cleanSig, sigTime)
  end.

(** ** Strings *)

Local Open Scope string_scope.

(** [c.isspace()] on the code points below 256: the ASCII blanks, the
    separators 28 to 31, NEL (133) and the no-break space (160). *)
Definition isspace (c : ascii) : bool :=
  let n := nat_of_ascii c in
  ((9 <=? n)%nat && (n <=? 13)%nat) || ((28 <=? n)%nat && (n <=? 32)%nat)
  || (n =? 133)%nat || (n =? 160)%nat.

(** [s.split()]: the maximal runs of non-blank characters.  [cur] holds the
    characters of the current run, last one first. *)
Fixpoint split_go (cur : list ascii) (s : string) : list string :=
  let flush := match cur with
               | [] => []
               | _ => [string_of_list_ascii (rev cur)]
               end in
  match s with
  | EmptyString => flush
  | String c s' =>
      if isspace c then flush ++ split_go [] s' else split_go (c :: cur) s'
  end.

Definition py_split (s : string) : list string := split_go [] s.

Definition ascii_in (chars : string) (c : ascii) : bool :=
  existsb (Ascii.eqb c) (list_ascii_of_string chars).

Fixpoint lstrip_list (chars : string) (l : list ascii) : list ascii :=
  match l with
  | [] => []
  | c :: l' => if ascii_in chars c then lstrip_list chars l' else l
  end.

(** [s.strip(chars)]. *)
Definition py_strip (chars : string) (s : string) : string :=
  string_of_list_ascii
    (rev (lstrip_list chars (rev (lstrip_list chars (list_ascii_of_string s))))).

(** [str(n)] for an integer. *)
Definition py_str (n : Z) : string := NilZero.string_of_int (Z.to_int n).

(** *** [float(s)] on a token

    Accepted: an optional sign followed by [inf], [infinity] or [nan] in any
    case, or by a decimal numeral (digits with an optional point, at least one
    digit, and an optional exponent), in which single underscores may stand
    between digits.  A numeral too large for binary64 gives an infinity; the
    rounding of the others is not modelled. *)

Definition digit_of (c : ascii) : option Z :=
  let n := nat_of_ascii c in
  if ((48 <=? n)%nat && (n <=? 57)%nat) then Some (Z.of_nat (n - 48)) else None.

(** Reads a run of digits: its value behind [acc], the number of its digits,
    and the rest.  An underscore is passed over when it stands between two
    digits of the run. *)
Fixpoint read_digits (acc : Z) (len : nat) (l : list ascii)
  : Z * nat * list ascii :=
  match l with
  | c :: l' =>
      match digit_of c with
      | Some d => read_digits (10 * acc + d) (S len) l'
      | None =>
          if Ascii.eqb c "_" && (0 <? len)%nat
             && match l' with
                | c' :: _ => match digit_of c' with Some _ => true | None => false end
                | [] => false
                end
          then read_digits acc len l'
          else (acc, len, l)
      end
  | [] => (acc, len, l)
  end.

Definition lower (c : ascii) : ascii :=
  let n := nat_of_ascii c in
  if ((65 <=? n)%nat && (n <=? 90)%nat) then ascii_of_nat (n + 32) else c.

Definition read_sign (l : list ascii) : bool * list ascii :=
  match l with
  | "-"%char :: l' => (true, l')
  | "+"%char :: l' => (false, l')
  | _ => (false, l)
  end.

(** [m * 10^e] as a rational in lowest terms. *)
Definition scale10 (m e : Z) : Q :=
  if (0 <=? e)%Z then Qred (inject_Z (m * 10 ^ e))
  else Qred (Qmake m (Z.to_pos (10 ^ (- e)))).

Definition read_exponent (l : list ascii) : option Z :=
  match l with
  | [] => Some 0%Z
  | c :: l' =>
      if Ascii.eqb (lower c) "e" then
        let '(neg, l'') := read_sign l' in
        match read_digits 0 0 l'' with
        | (_, O, _) => None
        | (e, _, []) => Some (if neg then (- e)%Z else e)
        | _ => None
        end
      else None
  end.

Definition read_decimal (l : list ascii) : option Q :=
  let '(ip, n1, l1) := read_digits 0 0 l in
  let '(m, n2, l2) :=
    match l1 with
    | "."%char :: l1' => read_digits ip 0 l1'
    | _ => (ip, O, l1)
    end in
  match (n1 + n2)%nat with
  | O => None
  | _ => e ← read_exponent l2; Some (scale10 m (e - Z.of_nat n2))
  end.

(** The least magnitude that rounds to an infinity: halfway between the
    largest binary64 number and [2^1024]. *)
Definition float_overflow : Z := Eval vm_compute in (2 ^ 1024 - 2 ^ 970)%Z.

Definition py_float (s : string) : result fl :=
  let '(neg, l) := read_sign (list_ascii_of_string s) in
  let word := string_of_list_ascii (map lower l) in
  if String.eqb word "inf" || String.eqb word "infinity"
  then Ok (if neg then NInf else PInf)
  else if String.eqb word "nan" then Ok NaN
  else match read_decimal l with
       | Some q =>
           if Qle_bool (inject_Z float_overflow) q
           then Ok (if neg then NInf else PInf)
           else Ok (Fin (if neg then Qred (- q) else q))
       | None => Raise ValueError
       end.

(** ** Dictionaries *)

Definition dict (A : Type) : Type := list (string * A).

Fixpoint dict_get {A} (d : dict A) (k : string) : option A :=
  match d with
  | [] => None
  | (k', v) :: d' => if String.eqb k' k then Some v else dict_get d' k
  end.

(** [d[k] = v]: an existing key keeps its place, a new one goes last. *)
Fixpoint dict_set {A} (d : dict A) (k : string) (v : A) : dict A :=
  match d with
  | [] => [(k, v)]
  | (k', v') :: d' =>
      if String.eqb k' k then (k', v) :: d' else (k', v') :: dict_set d' k v
  end.

Definition keys {A} (d : dict A) : list string := map fst d.

(** [d[k]] as an expression. *)
Definition lookup_key {A} (d : dict A) (k : string) : result A :=
  match dict_get d k with Some v => Ok v | None => Raise (KeyError k) end.

(** [l[start::step]]; [wait] elements are skipped before the next pick. *)
Fixpoint stride_go {A} (wait step : nat) (l : list A) : list A :=
  match l with
  | [] => []
  | x :: l' =>
      match wait with
      | O => x :: stride_go (step - 1) step l'
      | S w => stride_go w step l'
      end
  end.

Definition slice_step {A} (start step : nat) (l : list A) : list A :=
  stride_go start step l.

(** ** The world around the program

    A path is the list of its components ([path.join] appends).  The archive is
    seen through two readers: text files as [readlines()] returns them, and
    Igor binary waves as [binarywave.load] returns them. *)

Definition path : Type := list string.

(** The part of a loaded wave that [IgorLoad] reads: the header entries
    ['bname'], ['hsA'] (absent in some file versions) and ['sfA'], and ['wData']. *)
Record ibw : Type := {
  bname : string;
  hsA : option fl;
  sfA : list fl;
  wData : list fl
}.

Inductive message : Type :=
| Text (s : string)
| PathLine (p : path)                      (* print(DataPath) *)
| LoadedLine (sig : string) (deltaX : fl)  (* sig + ' loaded  deltaX = ' + str(deltaX) *)
| Plot (x y : list fl).                    (* plot(plotx, ploty); show() *)

(** A calibrated channel, [{'data': ..., 'time': ...}]. *)
Record CalibratedChannel : Type := {
  data : list fl;
  time : list fl
}.

(** The channel written by the [except] branches: both entries are [[]]. *)
Definition empty_channel : CalibratedChannel := {| data := []; time := [] |}.

(** The attributes of a [ShotData] object. *)
Record ShotData : Type := {
  shotnum : Z;
  DataPath : path;
  sigs : dict (list string);
  raw : dict (dict signal);
  calData : dict (dict CalibratedChannel);
  calFile : dict (fl * string)
}.

Record World : Type := {
  machine : string;                            (* platform.system() *)
  text_files : path → option (list string);
  wave_files : path → option ibw;
  self : ShotData;
  stdout : list message
}.

(** ** The state-and-exception monad *)

Definition M (A : Type) : Type := World → result A * World.

#[global] Instance M_ret : MRet M := λ A a w, (Ok a, w).
#[global] Instance M_bind : MBind M :=
  λ A B f m w, match m w with
               | (Ok a, w') => f a w'
               | (Raise e, w') => (Raise e, w')
               end.

Definition lift {A} (r : result A) : M A := λ w, (r, w).
Definition ask {A} (f : World → A) : M A := λ w, (Ok (f w), w).
Definition get_self {A} (f : ShotData → A) : M A := λ w, (Ok (f (self w)), w).

Definition set_self (f : ShotData → ShotData) : M unit :=
  λ w, (Ok tt, {| machine := machine w; text_files := text_files w;
                  wave_files := wave_files w; self := f (self w);
                  stdout := stdout w |}).

Definition print (m : message) : M unit :=
  λ w, (Ok tt, {| machine := machine w; text_files := text_files w;
                  wave_files := wave_files w; self := self w;
                  stdout := (stdout w ++ [m])%list |}).

(** [try: body  except E: handler], for the exceptions [E] selected by
    [catches]. *)
Definition try_except {A} (body : M A) (catches : exn → bool) (handler : M A)
  : M A :=
  λ w, match body w with
       | (Raise e, w') => if catches e then handler w' else (Raise e, w')
       | r => r
       end.

Definition is_TypeError (e : exn) : bool :=
  match e with TypeError => true | _ => false end.

Definition is_FileNotFoundError (e : exn) : bool :=
  match e with FileNotFoundError => true | _ => false end.

(** [for x in l: body(x)]. *)
Fixpoint for_in {A} (l : list A) (body : A → M unit) : M unit :=
  match l with
  | [] => mret tt
  | x :: l' => _ ← body x; for_in l' body
  end.

(** ** ShotData *)

Definition FluxLoops : list string :=
  ["CFL01"; "CFL02"; "CFL03"; "CFL04"; "CFL05";
   "CFL06"; "CFL07"; "CFL08"; "CFL09"; "CFL10";
   "CFL11"; "CFL12"; "CFL13"; "CFL04"; "CFL05";
   "CTor1"; "CTor2"; "CTor3"; "CTor4"; "CTor5";
   "CTor6"; "DiamagA"; "DiamagB"; "DiamagC";
   "NCFL01"; "NCFL02"; "NCFL03"; "NCFL04";
   "NCFL05"; "NCFL06"; "NCFL07"; "NCFL08";
   "NCFL09"; "NCFL10"; "NCFL11"; "NCFL12";
   "NCFL13"; "NCFL14"; "NCFL15"; "NCFL16";
   "NCFL17"; "NCFL18"; "NCFL19"; "NCFL20";
   "WFL01"; "WFL02"; "WFL03"; "WFL04"; "WFL05"; "WFL06";
   "WFL07"; "WFL08"; "WFL09"; "WFL10"; "WFL11"; "WFL12";
   "WFL13"; "WFL14"; "WFL15"; "WFL16"].

Definition BDots : list string :=
  ["PDX01"; "PDX02"; "PDX03"; "PDX04"; "PDX05"; "PDX06";
   "PDX07"; "PDX08"; "PDX09"; "PDX10"; "PDX11"; "PDX12";
   "PDX13"; "OTor1"; "OTor2"; "OTor3"; "OTor4"; "OTor5";
   "OTor6"; "CTor1"; "CTor2"; "CTor3"; "CTor4"; "CTor5";
   "CTor6"; "CPA01"; "CPA02"; "CPA03"; "CPA04"; "CPA05";
   "CPA06"; "CPA07"; "CPA08"; "CPA09"; "CPA10"; "CPA11";
   "CPA12"; "CPA13"; "CPA14"; "CPA15"; "CPA16"; "CPA17";
   "CPA18"; "CPA19"; "CPA20"; "CPA21"].

Definition Currents : list string :=
  ["PlasmaRogA"; "PlasmaRogB"; "RT_DPWMi_EF123";
   "RT_DPWMi_EF45"; "RT_DPWMi_EF678"; "RT_DPWMi_TF"].

(** [ShotData(shotnum)]. *)
Definition init (shotnum : Z) : ShotData :=
  {| shotnum := shotnum;
     DataPath := [];
     sigs := [("FluxLoops", FluxLoops); ("BDots", BDots); ("Currents", Currents)];
     raw := [("FluxLoops", []); ("BDots", []); ("Currents", [])];
     calData := [("FluxLoops", []); ("BDots", []); ("Currents", [])];
     calFile := [] |}.

Definition set_DataPath (p : path) (o : ShotData) : ShotData :=
  {| shotnum := shotnum o; DataPath := p; sigs := sigs o; raw := raw o;
     calData := calData o; calFile := calFile o |}.

Definition set_raw (r : dict (dict signal)) (o : ShotData) : ShotData :=
  {| shotnum := shotnum o; DataPath := DataPath o; sigs := sigs o; raw := r;
     calData := calData o; calFile := calFile o |}.

Definition set_calData (c : dict (dict CalibratedChannel)) (o : ShotData)
  : ShotData :=
  {| shotnum := shotnum o; DataPath := DataPath o; sigs := sigs o; raw := raw o;
     calData := c; calFile := calFile o |}.

Definition set_calFile (c : dict (fl * string)) (o : ShotData) : ShotData :=
  {| shotnum := shotnum o; DataPath := DataPath o; sigs := sigs o; raw := raw o;
     calData := calData o; calFile := c |}.

(** *** getFolderPath *)

Definition PathDict : dict path :=
  [("Darwin", ["/Volumes"; "Pegasus_Data_Archive"; "p3data"]);
   ("Windows", ["P:"; "p3data"]);
   ("Linux", ["/mnt"; "Pegasus_Data_Archive"; "p3data"])].

(** The [if]/[elif]/[else] that chooses [shotstr]. *)
Definition shotstr_of (shotnum : Z) : string :=
  if (String.length (py_str shotnum) =? 4)%nat then "00" ++ py_str shotnum
  else if (String.length (py_str shotnum) =? 5)%nat then "0" ++ py_str shotnum
  else py_str shotnum.

(** [f1Str], [f2Str] and [fName]. *)
Definition folder_names (shotnum : Z) : list string :=
  let shotstr := shotstr_of shotnum in
  let f1Str := substring 0 2 shotstr ++ "0000" in
  let f2Str := substring 2 2 shotstr ++ "00" in
  let fName := "T" ++ shotstr in
  [f1Str; f2Str; fName].

Definition getFolderPath : M unit :=
  system ← ask machine;
  DataPathRoot ← lift (lookup_key PathDict system);
  shotnum ← get_self shotnum;
  let PathName := (DataPathRoot ++ folder_names shotnum)%list in
  set_self (set_DataPath PathName).

(** *** IgorLoad *)

(** [binarywave.load(p)]. *)
Definition binarywave_load (p : path) : M ibw :=
  λ w, (match wave_files w p with
        | Some d => Ok d
        | None => Raise FileNotFoundError
        end, w).

(** The inner [try]: ['hsA'] when the header has it, else [sfA[0]]. *)
Definition wave_deltaX (d : ibw) : result fl :=
  match hsA d with
  | Some x => Ok x
  | None => getitem (sfA d) 0
  end.

Definition IgorLoad (signame : string) (pathname : path) (quiet : bool)
  : M signal :=
  let sig := signame ++ ".ibw" in
  try_except
    (d ← binarywave_load (pathname ++ [sig])%list;
     deltaX ← lift (wave_deltaX d);
     _ ← (if quiet then mret tt else print (LoadedLine sig deltaX));
     mret (Wave deltaX (wData d)))
    is_FileNotFoundError
    (_ ← print (Text (sig ++ " not loaded - file not found"));
     mret NoData).

(** *** LoadRaw *)

(** [self.raw[group][sig] = v]. *)
Definition store_raw (group sig : string) (v : signal) : M unit :=
  r ← get_self raw;
  inner ← lift (lookup_key r group);
  set_self (set_raw (dict_set r group (dict_set inner sig v))).

Definition LoadRaw : M unit :=
  sGroups ← get_self (λ o, keys (sigs o));
  DataPath ← get_self DataPath;
  _ ← print (PathLine DataPath);
  for_in sGroups (λ group,
    names ← (s ← get_self sigs; lift (lookup_key s group));
    for_in names (λ sig,
      v ← IgorLoad sig DataPath true;
      store_raw group sig v)).

(** *** LoadCalData *)

(** [open(calFile, 'r', errors='replace')] followed by [f.readlines()]. *)
Definition readlines (p : path) : M (list string) :=
  λ w, (match text_files w p with
        | Some ls => Ok ls
        | None => Raise FileNotFoundError
        end, w).

(** The last element of [s.split()]. *)
Definition last_token (s : string) : result string := getlast (py_split s).

(** One pass of the loop over [range(len(DiagNames))]: the right-hand side is
    evaluated first, then the key. *)
Definition cal_entry (DiagNames CalVals CalUnits : list string) (i : nat)
  : result (string * (fl * string)) :=
  vline ← getitem CalVals i;
  vtok ← last_token vline;
  val ← py_float vtok;
  uline ← getitem CalUnits i;
  unit ← last_token uline;
  name ← getitem DiagNames i;
  Ok (py_strip "[]
" name, (val, unit)).

Definition LoadCalData : M unit :=
  DataPath ← get_self DataPath;
  let calFile_path := (DataPath ++ ["DAS.conf"])%list in
  lines ← readlines calFile_path;
  let DiagLines := drop 64 lines in
  let DiagNames := slice_step 0 7 DiagLines in
  let CalVals := slice_step 4 7 DiagLines in
  let CalUnits := slice_step 3 7 DiagLines in
  for_in (seq 0 (length DiagNames)) (λ i,
    e ← lift (cal_entry DiagNames CalVals CalUnits i);
    c ← get_self calFile;
    set_self (set_calFile (dict_set c (fst e) (snd e)))).

(** *** BdotNA *)

Definition BdotNA : dict fl :=
  [("PDX01", Fin 31.40986856); ("PDX02", Fin 30.61780031);
   ("PDX03", Fin 30.83447292); ("PDX04", Fin 30.18429813);
   ("PDX05", Fin 29.80654102); ("PDX06", Fin 31.5045286);
   ("PDX07", Fin 29.94459065); ("PDX08", Fin 30.03320686);
   ("PDX09", Fin 30.94971522); ("PDX10", Fin 31.56406303);
   ("PDX11", Fin 30.99254654); ("PDX12", Fin 29.48266806);
   ("PDX13", Fin 31.41396525); ("OTor1", Fin 51.43020212);
   ("OTor2", Fin 53.77402821); ("OTor3", Fin 53.68001112);
   ("OTor4", Fin 50.42248514); ("OTor5", Fin 52.05609586);
   ("OTor6", Fin 51.94900848); ("CTor1", Fin 176.3906218);
   ("CTor2", Fin 202.8254814); ("CTor3", Fin 183.3700253);
   ("CTor4", Fin 185.2652264); ("CTor5", Fin 187.4727088);
   ("CTor6", Fin 214.1072423);
   ("CPA01", Fin 179.71749); ("CPA02", Fin 198.80251);
   ("CPA03", Fin 197.43882); ("CPA04", Fin 185.42609);
   ("CPA05", Fin 186.73373); ("CPA06", Fin 190.3981965);
   ("CPA07", Fin 192.9140393); ("CPA08", Fin 198.2726724);
   ("CPA09", Fin 182.9567595); ("CPA10", Fin 193.7743813);
   ("CPA11", Fin 196.2893948); ("CPA12", Fin 185.3693143);
   ("CPA13", Fin 191.0163613); ("CPA14", Fin 192.7280717);
   ("CPA15", Fin 172.6144269); ("CPA16", Fin 171.9967657);
   ("CPA17", Fin 182.0353776); ("CPA18", Fin 209.1828164);
   ("CPA19", Fin 182.0272987); ("CPA20", Fin 184.948528);
   ("CPA21", Fin 174.5560926)].

(** *** CalcIp, ProcBdot, ProcFL *)

(** [self.calData[group][sig] = {}] and the two stores into it. *)
Definition store_cal (group sig : string) (calSig cleanSigTime : list fl)
  : M unit :=
  c ← get_self calData;
  inner ← lift (lookup_key c group);
  set_self (set_calData
    (dict_set c group
       (dict_set inner sig {| data := calSig; time := cleanSigTime |}))).

(** [self.raw[group]]. *)
Definition raw_group (group : string) : M (dict signal) :=
  r ← get_self raw; lift (lookup_key r group).

(** [float(self.calFile[sig][0])]. *)
Definition cal_factor (sig : string) : M fl :=
  c ← get_self calFile; e ← lift (lookup_key c sig); mret (fst e).

(** [k * a] for a float and an array. *)
Definition scale (k : fl) (a : list fl) : list fl := map (fmul k) a.

Definition CalcIp : M unit :=
  currents ← raw_group "Currents";
  PlasRogRaw ← lift (lookup_key currents "PlasmaRogB");
  clean ← lift (CleanUp PlasRogRaw true);
  k ← cal_factor "PlasmaRogB";
  let calSig := scale k (fst clean) in
  store_cal "Currents" "Ip" calSig (snd clean).

(** The body of the loop of [ProcBdot] for the channel [sig]. *)
Definition ProcBdot_channel (OneOverNA : dict fl) (BDots : dict signal)
    (sig : string) : M unit :=
  rawSig ← lift (lookup_key BDots sig);
  r ← try_except
         (clean ← lift (CleanUp rawSig true);
          na ← lift (lookup_key OneOverNA sig);
          k ← cal_factor sig;
          mret (scale (fmul na k) (fst clean), snd clean))
         is_TypeError
         (_ ← print (Text ("no data for " ++ sig));
          mret ([], []));
  store_cal "BDots" sig (fst r) (snd r).

Definition ProcBdot : M unit :=
  let OneOverNA := BdotNA in
  BDots ← raw_group "BDots";
  for_in (keys BDots) (ProcBdot_channel OneOverNA BDots).

(** The body of the loop of [ProcFL] for the channel [sig]. *)
Definition ProcFL_channel (FluxLoops : dict signal) (sig : string) : M unit :=
  rawSig ← lift (lookup_key FluxLoops sig);
  r ← try_except
         (clean ← lift (CleanUp rawSig true);
          k ← cal_factor sig;
          mret (scale k (fst clean), snd clean))
         is_TypeError
         (_ ← print (Text ("no data for " ++ sig));
          mret ([], []));
  store_cal "FluxLoops" sig (fst r) (snd r).

Definition ProcFL : M unit :=
  FluxLoops ← raw_group "FluxLoops";
  for_in (keys FluxLoops) (ProcFL_channel FluxLoops).

(** *** TestPlot, LoadProcData, main *)

Definition TestPlot : M unit :=
  c ← get_self calData;
  currents ← lift (lookup_key c "Currents");
  ip ← lift (lookup_key currents "Ip");
  print (Plot (time ip) (data ip)).

Definition LoadProcData : M (dict (dict CalibratedChannel)) := get_self calData.

Definition main : M unit :=
  _ ← getFolderPath;
  _ ← LoadRaw;
  _ ← LoadCalData;
  _ ← CalcIp;
  _ ← ProcFL;
  _ ← ProcBdot;
  TestPlot.

(** [main(shot)] run in a world whose object is the fresh [ShotData(shot)]. *)
Definition run_main (system : string) (texts : path → option (list string))
    (waves : path → option ibw) (shot : Z) : result unit * World :=
  main {| machine := system; text_files := texts; wave_files := waves;
          self := init shot; stdout := [] |}.

(** ** The drift removal without aliasing

    The reference the in-place loop is compared with:
    [cleaned[i] = offset[i] - (offset_last - offset_first) * time[i] / (time[-1] - time[0])],
    the two end values being those of the array before the loop. *)

Definition drift_line (slope_num span : fl) (x t : fl) : fl :=
  fsub x (fdiv (fmul slope_num t) span).

Definition drift_reference (offset time : list fl) : result (list fl) :=
  offset_last ← getlast offset;
  offset_first ← getitem offset 0;
  time_last ← getlast time;
  time_first ← getitem time 0;
  Ok (zip_with
        (drift_line (fsub offset_last offset_first) (fsub time_last time_first))
        offset time).

(** [CleanUp] with the loop replaced by the reference. *)
Definition CleanUp_reference (signal : signal) (intFlag : bool)
  : result (list fl * list fl) :=
  match signal with
  | NoData => Raise TypeError
  | Wave dx sig =>
      let npts := length sig in
      let sigTime := arange_scaled dx npts in
      let dRange := flatnonzero (baseline_mask sigTime) in
      sel ← fancy_index sig dRange;
      let offSig := map (λ x, fsub x (np_mean sel)) sig in
      offSig ← (if intFlag then cumtrapz offSig sigTime (Fin 0) else Ok offSig);
      cleanSig ← drift_reference offSig sigTime;
      Ok (cleanSig, sigTime)
  end.

(** The array that reaches the drift loop: [offSig] behind the baseline
    removal and the optional integration. *)
Definition offSig_of (signal : signal) (intFlag : bool) : result (list fl) :=
  match signal with
  | NoData => Raise TypeError
  | Wave dx sig =>
      let npts := length sig in
      let sigTime := arange_scaled dx npts in
      let dRange := flatnonzero (baseline_mask sigTime) in
      sel ← fancy_index sig dRange;
      let offSig := map (λ x, fsub x (np_mean sel)) sig in
      if intFlag then cumtrapz offSig sigTime (Fin 0) else Ok offSig
  end.

(** [offSig[-1] - offSig[0]], as the first pass of the loop reads it. *)
Definition end_difference (offSig : list fl) : result fl :=
  offset_last ← getlast offSig;
  offset_first ← getitem offSig 0;
  Ok (fsub offset_last offset_first).

(** ** Notions used in the statements *)

(** Neither infinity: a rational or NaN. *)
Definition noinf (x : fl) : Prop :=
  match x with Fin _ | NaN => True | PInf | NInf => False end.

Definition is_fin (x : fl) : Prop :=
  match x with Fin _ => True | _ => False end.

(** The time of sample [i] lies strictly inside the baseline window. *)
Definition in_window (dx : Q) (i : nat) : Prop :=
  (0 < dx * inject_Z (Z.of_nat i) ∧ dx * inject_Z (Z.of_nat i) < 1 # 1000)%Q.

(** The raw samples [s] with the line [m * t + c] added, [t] being the time of
    the sample. *)
Definition add_drift (m c dx : Q) (s : list Q) : list Q :=
  imap (λ i x, x + (m * (dx * inject_Z (Z.of_nat i)) + c))%Q s.

(** ** Worked inputs *)

(** The calibration file of the specification's example: a 64-line header and
    the one block, the lines as written there. *)
Definition das_conf_claimed : list string :=
  (replicate 64 "header"
   ++ ["[CFL01]"; "x"; "x"; "V 3.14"; "scale 2.5"; "x"; "x"])%list.

(** A calibration file with blocks for PlasmaRogB and CFL01, as [readlines]
    returns it. *)
Definition das_conf_sample : list string :=
  (replicate 64 "# header
"
   ++ ["[PlasmaRogB]
"; "gain 1
"; "offset 0
"; "unit A
"; "scale 1.5e6
"; "comment
"; "
";
       "[CFL01]
"; "gain 1
"; "offset 0
"; "unit Wb
"; "scale 0.25
"; "comment
"; "
"])%list.

Definition a_wave : ibw :=
  {| bname := "wave"; hsA := Some (Fin (2 # 10000)); sfA := [];
     wData := map Fin [5; 7; 5; 9; 5; 11]%Q |}.

(** An archive in which every wave file exists but one. *)
Definition waves_without (missing : string) (p : path) : option ibw :=
  match last p with
  | Some f => if String.eqb f missing then None else Some a_wave
  | None => None
  end.

(** A world around the object [o]. *)
Definition world_of (conf : list string) (waves : path → option ibw)
    (o : ShotData) : World :=
  {| machine := "Linux"; text_files := λ _, Some conf; wave_files := waves;
     self := o; stdout := [] |}.

(** An object after [LoadRaw] in which CFL01 and PDX01 have samples, CFL02 and
    PDX02 have none, and the calibration file had no entry at all. *)
Definition two_channels : ShotData :=
  set_raw [("FluxLoops", [("CFL01", Wave (Fin (2 # 10000)) (map Fin [5; 7; 5; 9; 5; 11]%Q));
                          ("CFL02", NoData)]);
           ("BDots", [("PDX01", Wave (Fin (2 # 10000)) (map Fin [5; 7; 5; 9; 5; 11]%Q));
                      ("PDX02", NoData)]);
           ("Currents", [])]
          (init 1234).

(** The world [main] is in when it reaches [CalcIp]. *)
Definition world_before_CalcIp (conf : list string) (waves : path → option ibw)
    (shot : Z) : World :=
  snd ((_ ← getFolderPath; _ ← LoadRaw; LoadCalData)
         (world_of conf waves (init shot))).

Definition get_or_empty {A} (d : dict (dict A)) (k : string) : dict A :=
  match dict_get d k with Some v => v | None => [] end.

(** A float as the arithmetic returns it: a rational in lowest terms, or a
    special. *)
Definition lowest (x : fl) : Prop :=
  match x with Fin q => Qred q = q | _ => True end.

(** ** What the processors leave behind *)

(** Everything of a world but the calibrated data and the output. *)
Definition inputs (w : World) :=
  (machine w, text_files w, wave_files w, shotnum (self w), DataPath (self w),
   sigs (self w), raw (self w), calFile (self w)).

(** The world [w] with other calibrated data and another output. *)
Definition with_output (c : dict (dict CalibratedChannel)) (out : list message)
    (w : World) : World :=
  {| machine := machine w; text_files := text_files w;
     wave_files := wave_files w; self := set_calData c (self w);
     stdout := out |}.

(** The channel a processor stores for the signal [s] under the factor [k]:
    the conditioned signal times [k], or the empty channel when [CleanUp] has
    no data to work on. *)
Definition calibrated (k : fl) (s : signal) : CalibratedChannel :=
  match CleanUp s true with
  | Ok (cleanSig, cleanSigTime) =>
      {| data := scale k cleanSig; time := cleanSigTime |}
  | Raise _ => empty_channel
  end.

(** The message a processor prints for the signal [s] of the channel [sig]. *)
Definition no_data_message (sig : string) (s : signal) : list message :=
  match s with
  | NoData => [Text ("no data for " ++ sig)]
  | Wave _ _ => []
  end.

(** A signal a processor gets through: no data at all, or samples. *)
Definition usable (s : signal) : Prop :=
  match s with
  | NoData => True
  | Wave _ samples => samples ≠ []
  end.

(** The raw signal and the calibration factor a processor finds for the
    channel [sig]. *)
Definition signal_of (grp : dict signal) (sig : string) : signal :=
  match dict_get grp sig with Some s => s | None => NoData end.

Definition factor_of (cal : dict (fl * string)) (sig : string) : fl :=
  match dict_get cal sig with Some e => fst e | None => NaN end.

Definition na_of (sig : string) : fl :=
  match dict_get BdotNA sig with Some na => na | None => NaN end.

(** ** The calibration file block by block *)

(** Block [i] of the lines behind the header: the lines [7 i] to [7 i + 6],
    fewer in a last block that is cut short. *)
Definition blocks_of (lines : list string) : list (list string) :=
  map (λ i, take 7 (drop (7 * i) lines)) (seq 0 ((length lines + 6) / 7)).

(** The entry of one block: the factor from line 4, the unit from line 3, the
    name from line 0, read in this order. *)
Definition block_entry (b : list string) : result (string * (fl * string)) :=
  vline ← getitem b 4;
  vtok ← last_token vline;
  val ← py_float vtok;
  uline ← getitem b 3;
  unit ← last_token uline;
  name ← getitem b 0;
  Ok (py_strip "[]
" name, (val, unit)).

Definition store_block (b : list string) : M unit :=
  e ← lift (block_entry b);
  c ← get_self calFile;
  set_self (set_calFile (dict_set c (fst e) (snd e))).

(** The entries of all blocks, up to the first block that has none. *)
Fixpoint block_entries (bs : list (list string))
  : result (list (string * (fl * string))) :=
  match bs with
  | [] => Ok []
  | b :: bs' => e ← block_entry b; es ← block_entries bs'; Ok (e :: es)
  end.

(** The world [w] with another calibration dictionary. *)
Definition with_calFile (c : dict (fl * string)) (w : World) : World :=
  {| machine := machine w; text_files := text_files w;
     wave_files := wave_files w; self := set_calFile c (self w);
     stdout := stdout w |}.

(** ** What LoadRaw leaves behind *)

(** Everything of a world but the raw data and the output. *)
Definition inputs_of_load (w : World) :=
  (machine w, text_files w, wave_files w, shotnum (self w), DataPath (self w),
   sigs (self w), calData (self w), calFile (self w)).

(** The world [w] with other raw data and another output. *)
Definition with_raw (r : dict (dict signal)) (out : list message) (w : World)
  : World :=
  {| machine := machine w; text_files := text_files w;
     wave_files := wave_files w; self := set_raw r (self w); stdout := out |}.

(** The signal [IgorLoad] makes of what the archive has under a file name. *)
Definition loaded (o : option ibw) : signal :=
  match o with
  | None => NoData
  | Some d =>
      match wave_deltaX d with
      | Ok deltaX => Wave deltaX (wData d)
      | Raise _ => NoData
      end
  end.

Definition not_loaded_message (sig : string) (o : option ibw) : list message :=
  match o with
  | None => [Text ((sig ++ ".ibw") ++ " not loaded - file not found")]
  | Some _ => []
  end.

(** The wave file of the channel [sig] in the data folder of [w]. *)
Definition wave_file_of (w : World) (sig : string) : option ibw :=
  wave_files w (DataPath (self w) ++ [(sig ++ ".ibw")%string])%list.

(** The channel names listed for the group [g]. *)
Definition names_of (s : dict (list string)) (g : string) : list string :=
  match dict_get s g with Some names => names | None => [] end.

(** Every wave file of the archive has a sample spacing in its header. *)
Definition headers_readable (w : World) : Prop :=
  ∀ p d, wave_files w p = Some d → ∃ deltaX, wave_deltaX d = Ok deltaX.

(** The raw data after the pass of [LoadRaw] over the group [g], and the
    messages of that pass. *)
Definition load_group (w0 : World) (r : dict (dict signal)) (g : string)
  : dict (dict signal) :=
  dict_set r g
    (fold_left (λ c sig, dict_set c sig (loaded (wave_file_of w0 sig)))
       (names_of (sigs (self w0)) g) (get_or_empty r g)).

Definition group_messages (w0 : World) (g : string) : list message :=
  concat (map (λ sig, not_loaded_message sig (wave_file_of w0 sig))
            (names_of (sigs (self w0)) g)).

(** ** A whole shot *)

(** The data folder of the shot under the archive root. *)
Definition data_folder (root : path) (shot : Z) : path :=
  (root ++ folder_names shot)%list.

(** What the archive has for the channel [sig] of the shot. *)
Definition file_in (waves : path → option ibw) (folder : path) (sig : string)
  : option ibw :=
  waves (folder ++ [(sig ++ ".ibw")%string])%list.


(** An archive that has the wave files of the channels [names] and no other. *)
Definition waves_only (names : list string) (p : path) : option ibw :=
  match last p with
  | Some f =>
      if bool_decide (f ∈ map (λ sig, (sig ++ ".ibw")%string) names)
      then Some a_wave else None
  | None => None
  end.

(** The entries of the blocks of [das_conf_sample]. *)
Definition sample_entries : dict (fl * string) :=
  match block_entries (blocks_of (drop 64 das_conf_sample)) with
  | Ok entries => entries
  | Raise _ => []
  end.


(** ** The lines of a calibration block *)

(** A string of blank characters only, and a non-empty string without any. *)
Definition blank (s : string) : Prop :=
  Forall (λ c, isspace c = true) (list_ascii_of_string s).

Definition token (s : string) : Prop :=
  s ≠ EmptyString ∧ Forall (λ c, isspace c = false) (list_ascii_of_string s).

(** * Properties *)

Local Open Scope list_scope.

(** ** Floats *)

Lemma Qeq_bool_false (a b : Q) : ¬ (a == b)%Q → Qeq_bool a b = false.
Proof.
  intros H. destruct (Qeq_bool a b) eqn:E; [|done].
  apply Qeq_bool_eq in E. contradiction.
Qed.

Lemma Qeq_bool_true (a b : Q) : (a == b)%Q → Qeq_bool a b = true.
Proof. apply Qeq_eq_bool. Qed.

Lemma Fin_Qred_eq (a b : Q) : (a == b)%Q → Fin (Qred a) = Fin (Qred b).
Proof. intros H. f_equal. by apply Qred_complete. Qed.

Lemma fdiv_Fin (a b : Q) : ¬ (b == 0)%Q → fdiv (Fin a) (Fin b) = Fin (Qred (a / b)).
Proof. intros H. unfold fdiv. by rewrite Qeq_bool_false. Qed.

Lemma noinf_fadd x y : noinf x → noinf y → noinf (fadd x y).
Proof. by destruct x, y. Qed.

Lemma noinf_fsub x y : noinf x → noinf y → noinf (fsub x y).
Proof. by destruct x, y. Qed.

Lemma noinf_fmul x y : noinf x → noinf y → noinf (fmul x y).
Proof. by destruct x, y. Qed.

Lemma noinf_fdiv x b : noinf x → ¬ (b == 0)%Q → noinf (fdiv x (Fin b)).
Proof. destruct x; try done. intros _ H. by rewrite fdiv_Fin. Qed.

Lemma is_fin_noinf x : is_fin x → noinf x.
Proof. by destruct x. Qed.

Lemma is_fin_fadd x y : is_fin x → is_fin y → is_fin (fadd x y).
Proof. by destruct x, y. Qed.

Lemma is_fin_fsub x y : is_fin x → is_fin y → is_fin (fsub x y).
Proof. by destruct x, y. Qed.

Lemma is_fin_fmul x y : is_fin x → is_fin y → is_fin (fmul x y).
Proof. by destruct x, y. Qed.

Lemma is_fin_fdiv x b : is_fin x → ¬ (b == 0)%Q → is_fin (fdiv x (Fin b)).
Proof. destruct x; try done. intros _ H. by rewrite fdiv_Fin. Qed.

(** ** Arrays *)

Lemma length_arange_scaled dx n : length (arange_scaled dx n) = n.
Proof. unfold arange_scaled. by rewrite length_map, length_seq. Qed.

Lemma lookup_arange_scaled dx n i :
  (i < n)%nat → arange_scaled dx n !! i = Some (fmul dx (of_nat_fl i)).
Proof.
  intros H. unfold arange_scaled.
  rewrite list_lookup_fmap, lookup_seq_lt by done. done.
Qed.

Lemma last_lookup_pred {A} (l : list A) : last l = l !! pred (length l).
Proof. apply last_lookup. Qed.

Lemma last_arange_scaled dx n :
  (0 < n)%nat → last (arange_scaled dx n) = Some (fmul dx (of_nat_fl (pred n))).
Proof.
  intros H. rewrite last_lookup_pred, length_arange_scaled.
  apply lookup_arange_scaled. lia.
Qed.

Lemma last_cons_Some {A} (x : A) l y : last l = Some y → last (x :: l) = Some y.
Proof. intros H. change (x :: l) with ([x] ++ l). by rewrite last_app, H. Qed.

Lemma getitem_Some {A} (a : list A) i x : a !! i = Some x → getitem a i = Ok x.
Proof. unfold getitem. by intros ->. Qed.

Lemma getlast_Some {A} (a : list A) x : last a = Some x → getlast a = Ok x.
Proof. unfold getlast. by intros ->. Qed.

(** ** The drift loop *)

Lemma drift_body_reads times a i ai aN a0 ti tN t0 :
  a !! i = Some ai → last a = Some aN → a !! 0%nat = Some a0 →
  times !! i = Some ti → last times = Some tN → times !! 0%nat = Some t0 →
  drift_body times a i
  = Ok (<[i := drift_line (fsub aN a0) (fsub tN t0) ai ti]> a).
Proof.
  intros Hi HN H0 Hti HtN Ht0. unfold drift_body.
  rewrite (getitem_Some _ _ _ Hi), (getlast_Some _ _ HN),
    (getitem_Some _ _ _ H0), (getitem_Some _ _ _ Hti),
    (getlast_Some _ _ HtN), (getitem_Some _ _ _ Ht0).
  done.
Qed.

Section DriftLoop.
Variables (times : list fl) (tN t0 D f : fl).
Hypothesis HtN : last times = Some tN.
Hypothesis Ht0 : times !! 0%nat = Some t0.

(** The loop from index [length done] on, once the first entry [f] of the
    array has been written: as long as the end values still differ by [D],
    every pass writes the value of the reference. *)
Lemma for_each_drift_suffix (todo done : list fl) :
  head done = Some f →
  (length done + length todo ≤ length times)%nat →
  (∀ aN, last todo = Some aN → fsub aN f = D) →
  for_each (drift_body times) (seq (length done) (length todo)) (done ++ todo)
  = Ok (done ++ zip_with (drift_line D (fsub tN t0)) todo
                  (drop (length done) times)).
Proof.
  revert done. induction todo as [|x todo IH]; intros done Hf Hlen HD.
  - simpl. by rewrite app_nil_r.
  - simpl in Hlen.
    destruct (lookup_lt_is_Some_2 times (length done)) as [t Ht]; [lia|].
    destruct (last (x :: todo)) as [aN|] eqn:HaN;
      [|by apply last_None in HaN].
    assert (H0 : (done ++ x :: todo) !! 0%nat = Some f).
    { destruct done; simplify_eq/=. done. }
    cbn [length seq for_each].
    rewrite (drift_body_reads times _ _ x aN f t tN t0); try done;
      [|by apply list_lookup_middle|by rewrite last_app_cons].
    cbn [mbind result_bind].
    rewrite (HD aN eq_refl).
    rewrite insert_app_r_alt, Nat.sub_diag by done. cbn [insert list_insert].
    rewrite (cons_middle _ done todo), app_assoc.
    replace (S (length done)) with (length (done ++ [drift_line D (fsub tN t0) x t]))
      by (rewrite length_app; simpl; lia).
    rewrite IH.
    + rewrite <- app_assoc. f_equal. simpl. rewrite length_app. simpl.
      rewrite Nat.add_1_r. by rewrite (drop_S _ _ _ Ht).
    + destruct done; simplify_eq/=. done.
    + rewrite length_app. simpl. lia.
    + intros aN' HaN'. apply HD. rewrite <- HaN. by apply last_cons_Some.
Qed.
End DriftLoop.

(** The pass at index 0 rewrites the first entry, which the later passes read
    back; between numbers other than the infinities the difference of the end
    values is the same after it. *)
Lemma first_write_keeps_diff (x0 aN : fl) (z T : Q) :
  noinf x0 → noinf aN → (z == 0)%Q → ¬ (T == 0)%Q →
  fsub aN (drift_line (fsub aN x0) (Fin T) x0 (Fin z)) = fsub aN x0.
Proof.
  intros H0 HN Hz HT. destruct x0 as [p| | |], aN as [r| | |]; try done.
  unfold drift_line. cbn [fsub fmul]. rewrite fdiv_Fin by done. cbn [fsub].
  apply Fin_Qred_eq. rewrite !Qred_correct, Hz. field. done.
Qed.

Lemma span_nonzero (zN z : Q) :
  (z == 0)%Q → ¬ (zN == 0)%Q → ¬ (Qred (zN - z) == 0)%Q.
Proof. intros Hz HN. rewrite Qred_correct, Hz. intros H. apply HN. rewrite <- H. ring. Qed.

(** On an array without infinities, with at least two entries, whose time axis
    starts at 0 and ends elsewhere, the in-place loop computes the reference. *)
Lemma remove_drift_is_reference (a times : list fl) (z zN : Q) :
  length a = length times → (2 ≤ length a)%nat → Forall noinf a →
  times !! 0%nat = Some (Fin z) → (z == 0)%Q →
  last times = Some (Fin zN) → ¬ (zN == 0)%Q →
  remove_drift a times = drift_reference a times.
Proof.
  intros Hlen Hn Ha Ht0 Hz HtN HzN.
  destruct a as [|x0 rest]; [simpl in Hn; lia|].
  destruct (last rest) as [aN|] eqn:HaN;
    [|apply last_None in HaN; subst; simpl in Hn; lia].
  assert (HN : last (x0 :: rest) = Some aN) by by apply last_cons_Some.
  destruct times as [|t times']; [done|]. simplify_eq/=.
  unfold remove_drift, drift_reference.
  rewrite (getlast_Some _ _ HN), (getlast_Some _ _ HtN). cbn [getitem lookup list_lookup mbind result_bind].
  cbn [length seq for_each].
  rewrite (drift_body_reads _ _ _ x0 aN x0 (Fin z) (Fin zN) (Fin z)) by done.
  cbn [mbind result_bind insert list_insert].
  set (v0 := drift_line (fsub aN x0) (fsub (Fin zN) (Fin z)) x0 (Fin z)).
  pose proof (for_each_drift_suffix (Fin z :: times') (Fin zN) (Fin z)
                (fsub aN x0) v0 HtN eq_refl rest [v0]) as Hloop.
  cbn [length app] in Hloop.
  rewrite Hloop; [done|done|simpl; lia|].
  intros aN' HaN'. simplify_eq. subst v0. cbn [fsub].
  apply first_write_keeps_diff; [| |done|by apply span_nonzero].
  - by inversion Ha.
  - inversion Ha as [|?? _ Hrest]; subst.
    rewrite Forall_forall in Hrest. apply Hrest.
    apply last_Some in HaN as [l' ->]. apply elem_of_app. right. by left.
Qed.

(** The same between any two end values whose difference is no infinity: a
    difference that is NaN stays NaN. *)
Lemma first_write_keeps_finite_diff (x0 aN : fl) (z T : Q) :
  noinf (fsub aN x0) → (z == 0)%Q → ¬ (T == 0)%Q →
  fsub aN (drift_line (fsub aN x0) (Fin T) x0 (Fin z)) = fsub aN x0.
Proof.
  intros Hd Hz HT. destruct x0 as [p| | |], aN as [r| | |]; try done.
  by apply first_write_keeps_diff.
Qed.

(** The in-place loop computes the reference on every array with at least two
    entries whose end values differ by a number or by NaN, on a time axis that
    starts at 0 and ends elsewhere. *)
Lemma remove_drift_is_reference_diff (a times : list fl) (z zN : Q) (aN a0 : fl) :
  length a = length times → (2 ≤ length a)%nat →
  last a = Some aN → a !! 0%nat = Some a0 → noinf (fsub aN a0) →
  times !! 0%nat = Some (Fin z) → (z == 0)%Q →
  last times = Some (Fin zN) → ¬ (zN == 0)%Q →
  remove_drift a times = drift_reference a times.
Proof.
  intros Hlen Hn HN H0 Hd Ht0 Hz HtN HzN.
  destruct a as [|x0 rest]; [done|]. injection H0 as ->.
  destruct (last rest) as [aN'|] eqn:HaN;
    [|apply last_None in HaN; subst; simpl in Hn; lia].
  assert (aN' = aN) as ->.
  { rewrite (last_cons_Some a0 rest aN' HaN) in HN. by injection HN. }
  destruct times as [|t times']; [done|]. simplify_eq/=.
  unfold remove_drift, drift_reference.
  rewrite (getlast_Some _ _ HN), (getlast_Some _ _ HtN).
  cbn [getitem lookup list_lookup mbind result_bind].
  cbn [length seq for_each].
  rewrite (drift_body_reads _ _ _ a0 aN a0 (Fin z) (Fin zN) (Fin z)) by done.
  cbn [mbind result_bind insert list_insert].
  set (v0 := drift_line (fsub aN a0) (fsub (Fin zN) (Fin z)) a0 (Fin z)).
  pose proof (for_each_drift_suffix (Fin z :: times') (Fin zN) (Fin z)
                (fsub aN a0) v0 HtN eq_refl rest [v0]) as Hloop.
  cbn [length app] in Hloop.
  rewrite Hloop; [done|done|simpl; lia|].
  intros aN' HaN'. simplify_eq. subst v0. cbn [fsub].
  apply first_write_keeps_finite_diff; [done|done|by apply span_nonzero].
Qed.

(** ** The time axis *)

Lemma time_axis_first (dx : Q) n :
  (0 < n)%nat →
  ∃ z, arange_scaled (Fin dx) n !! 0%nat = Some (Fin z) ∧ (z == 0)%Q.
Proof.
  intros Hn. exists (Qred (dx * inject_Z (Z.of_nat 0))). split.
  - by rewrite lookup_arange_scaled.
  - rewrite Qred_correct. simpl. ring.
Qed.

Lemma time_axis_last (dx : Q) n :
  (0 < n)%nat →
  ∃ zN, last (arange_scaled (Fin dx) n) = Some (Fin zN)
        ∧ (zN == dx * inject_Z (Z.of_nat (pred n)))%Q.
Proof.
  intros Hn. exists (Qred (dx * inject_Z (Z.of_nat (pred n)))). split.
  - by rewrite last_arange_scaled.
  - apply Qred_correct.
Qed.

Lemma inject_nat_pos (k : nat) : (0 < k)%nat → (0 < inject_Z (Z.of_nat k))%Q.
Proof.
  intros H. change 0%Q with (inject_Z 0). rewrite <- Zlt_Qlt. lia.
Qed.

Lemma time_axis_span (dx : Q) n zN :
  (0 < dx)%Q → (2 ≤ n)%nat →
  (zN == dx * inject_Z (Z.of_nat (pred n)))%Q → ¬ (zN == 0)%Q.
Proof.
  intros Hdx Hn HzN H. rewrite HzN in H.
  assert (0 < dx * inject_Z (Z.of_nat (pred n)))%Q as Hpos.
  { apply Qmult_lt_0_compat; [done|]. apply inject_nat_pos. lia. }
  rewrite H in Hpos. by apply Qlt_irrefl in Hpos.
Qed.

Lemma Forall_time_axis (dx : Q) n : Forall is_fin (arange_scaled (Fin dx) n).
Proof. unfold arange_scaled. apply Forall_map, Forall_forall. done. Qed.

(** ** Closure of the stages of CleanUp *)

Lemma Forall_zip_with_both {A B C} (P : A → Prop) (R : B → Prop) (S : C → Prop)
    (f : A → B → C) l k :
  (∀ x y, P x → R y → S (f x y)) →
  Forall P l → Forall R k → Forall S (zip_with f l k).
Proof.
  intros Hf Hl. revert k. induction Hl; intros k Hk; [constructor|].
  destruct Hk; simpl; constructor; auto.
Qed.

Lemma Forall_tail {A} (P : A → Prop) l : Forall P l → Forall P (tail l).
Proof. by destruct 1. Qed.

Lemma fancy_index_Forall {A} (P : A → Prop) (a : list A) idx sel :
  Forall P a → fancy_index a idx = Ok sel → Forall P sel.
Proof.
  intros Ha. revert sel. induction idx as [|i idx IH]; intros sel; simpl.
  - intros [= <-]. constructor.
  - unfold getitem. destruct (a !! i) as [x|] eqn:Hx; [|done]. simpl.
    destruct (fancy_index a idx) as [xs|]; [|done]. simpl. intros [= <-].
    constructor; [|by apply IH].
    rewrite Forall_forall in Ha. apply Ha. by eapply list_elem_of_lookup_2.
Qed.

Lemma fancy_index_length {A} (a : list A) idx sel :
  fancy_index a idx = Ok sel → length sel = length idx.
Proof.
  revert sel. induction idx as [|i idx IH]; intros sel; simpl.
  - by intros [= <-].
  - destruct (getitem a i); [|done]. simpl.
    destruct (fancy_index a idx) as [xs|]; [|done]. simpl. intros [= <-].
    simpl. f_equal. by apply IH.
Qed.

Section Closed.
(** A class of floats that holds the rationals and is closed under the
    arithmetic of [CleanUp]: instances are [is_fin] and [noinf]. *)
Variable P : fl → Prop.
Hypothesis P_fin : ∀ x, is_fin x → P x.
Hypothesis P_add : ∀ x y, P x → P y → P (fadd x y).
Hypothesis P_sub : ∀ x y, P x → P y → P (fsub x y).
Hypothesis P_mul : ∀ x y, P x → P y → P (fmul x y).
Hypothesis P_div : ∀ x b, P x → ¬ (b == 0)%Q → P (fdiv x (Fin b)).

Lemma closed_cumsum_from acc l :
  P acc → Forall P l → Forall P (cumsum_from acc l).
Proof.
  intros Hacc Hl. revert acc Hacc.
  induction Hl; intros acc Hacc; simpl; constructor; auto.
Qed.

Lemma closed_cumsum l : Forall P l → Forall P (np_cumsum l).
Proof.
  destruct 1; simpl; constructor; [done|]. by apply closed_cumsum_from.
Qed.

Lemma closed_cumtrapz y x out :
  Forall P y → Forall is_fin x →
  cumtrapz y x (Fin 0) = Ok out → Forall P out.
Proof.
  intros Hy Hx. unfold cumtrapz. destruct y as [|y0 y']; [done|].
  intros [= <-]. constructor; [by apply P_fin|].
  apply closed_cumsum.
  eapply Forall_zip_with_both; [| |apply Forall_zip_with_both
    with (P := P) (R := P); [apply P_add|exact (Forall_tail _ _ Hy)|done]].
  - intros dj s Hd Hs. apply P_div; [|done]. apply P_mul; [exact Hd|done].
  - unfold np_diff. eapply Forall_zip_with_both;
      [|apply Forall_tail, Hx|apply Hx].
    intros a b Ha Hb. apply P_fin. by apply is_fin_fsub.
Qed.

Lemma closed_offset (data : list Q) m :
  P m → Forall P (map (λ x, fsub x m) (map Fin data)).
Proof.
  intros Hm. rewrite map_map. apply Forall_map, Forall_forall.
  intros q _. apply P_sub; [by apply P_fin|done].
Qed.
End Closed.

Lemma closed_noinf_cumtrapz y x out :
  Forall noinf y → Forall is_fin x → cumtrapz y x (Fin 0) = Ok out →
  Forall noinf out.
Proof.
  apply closed_cumtrapz;
    auto using is_fin_noinf, noinf_fadd, noinf_fmul, noinf_fdiv.
Qed.

Lemma closed_fin_cumtrapz y x out :
  Forall is_fin y → Forall is_fin x → cumtrapz y x (Fin 0) = Ok out →
  Forall is_fin out.
Proof.
  apply closed_cumtrapz; auto using is_fin_fadd, is_fin_fmul, is_fin_fdiv.
Qed.

Lemma length_cumsum_from acc l : length (cumsum_from acc l) = length l.
Proof. revert acc. induction l; intros; simpl; auto. Qed.

Lemma length_np_cumsum l : length (np_cumsum l) = length l.
Proof. destruct l; simpl; [done|]. by rewrite length_cumsum_from. Qed.

Lemma length_tail {A} (l : list A) : length (tail l) = pred (length l).
Proof. by destruct l. Qed.

Lemma cumtrapz_length y x out :
  length y = length x → cumtrapz y x (Fin 0) = Ok out → length out = length y.
Proof.
  intros Hlen. unfold cumtrapz. destruct y as [|y0 y']; [done|].
  intros [= <-]. cbn [length]. rewrite length_np_cumsum.
  unfold np_diff. rewrite !length_zip_with, !length_tail, <- Hlen. simpl. lia.
Qed.

Lemma cumtrapz_total y x :
  y ≠ [] → ∃ out, cumtrapz y x (Fin 0) = Ok out.
Proof. destruct y; [done|]. intros _. unfold cumtrapz. eauto. Qed.

(** ** The baseline mean *)

Lemma fsum_from_fin l acc : Forall is_fin l → is_fin acc → is_fin (fold_left fadd l acc).
Proof.
  intros Hl. revert acc. induction Hl; intros acc Hacc; simpl; [done|].
  apply IHHl. by apply is_fin_fadd.
Qed.

Lemma np_mean_nil : np_mean [] = NaN.
Proof. reflexivity. Qed.

Lemma count_nonzero (k : nat) : (0 < k)%nat → ¬ (inject_Z (Z.of_nat k) == 0)%Q.
Proof.
  intros Hk H. apply inject_nat_pos in Hk. rewrite H in Hk.
  by apply Qlt_irrefl in Hk.
Qed.

Lemma np_mean_fin sel : Forall is_fin sel → sel ≠ [] → is_fin (np_mean sel).
Proof.
  intros Hsel Hne. unfold np_mean, of_nat_fl.
  apply is_fin_fdiv; [by apply fsum_from_fin|].
  apply count_nonzero. destruct sel; [done|simpl; lia].
Qed.

Lemma np_mean_noinf sel : Forall is_fin sel → noinf (np_mean sel).
Proof.
  intros Hsel. destruct sel as [|x sel]; [done|].
  by apply is_fin_noinf, np_mean_fin.
Qed.

(** ** C10 *)

(** C10 (amended). For every wave with at least two samples and a positive
    sample spacing, whatever the samples, and either value of the integration
    flag: when the difference [offSig[-1] - offSig[0]] of the end values that
    reach the drift loop is a number or NaN, [CleanUp] -- whose loop reads
    [offSig[0]] and [offSig[-1]] from the array it is writing -- returns what
    [CleanUp_reference] returns, in which the two end values are those before
    the loop. *)
Theorem CleanUp_in_place_drift_refines_reference (dx : Q) (data : list fl)
    (intFlag : bool) (offSig : list fl) (d : fl) :
  (0 < dx)%Q → (2 ≤ length data)%nat →
  offSig_of (Wave (Fin dx) data) intFlag = Ok offSig →
  end_difference offSig = Ok d → noinf d →
  CleanUp (Wave (Fin dx) data) intFlag
  = CleanUp_reference (Wave (Fin dx) data) intFlag.
Proof.
  intros Hdx Hn Hoff Hd Hnoinf. unfold CleanUp, CleanUp_reference, offSig_of in *.
  set (sigTime := arange_scaled (Fin dx) (length data)) in *.
  destruct (fancy_index data (flatnonzero (baseline_mask sigTime)))
    as [sel|e]; [|done].
  cbn [mbind result_bind] in *.
  set (off0 := map (λ x, fsub x (np_mean sel)) data) in *.
  assert (Hlen0 : length off0 = length sigTime).
  { unfold off0, sigTime. by rewrite length_map, length_arange_scaled. }
  assert (Hlt : length sigTime = length data) by apply length_arange_scaled.
  assert ((if intFlag then cumtrapz off0 sigTime (Fin 0) else Ok off0) = Ok offSig
          ∧ length offSig = length sigTime) as [-> Hlen].
  { split; [done|]. destruct intFlag; [|by injection Hoff as <-].
    by rewrite (cumtrapz_length _ _ _ Hlen0 Hoff). }
  cbn [mbind result_bind].
  destruct (time_axis_first dx (length data)) as (z & Ht0 & Hz); [lia|].
  destruct (time_axis_last dx (length data)) as (zN & HtN & HzN); [lia|].
  assert (HzN0 : ¬ (zN == 0)%Q) by (eapply time_axis_span; [done| |done]; lia).
  unfold end_difference, getlast, getitem in Hd.
  destruct (last offSig) as [aN|] eqn:HaN; [|done].
  destruct (offSig !! 0%nat) as [a0|] eqn:Ha0; [|done].
  injection Hd as <-.
  by rewrite (remove_drift_is_reference_diff offSig sigTime z zN aN a0) by (done || lia).
Qed.

(** A run of C10: six samples, spacing 0.2 ms, integration on. *)
Lemma CleanUp_in_place_drift_witness :
  CleanUp (Wave (Fin (2 # 10000)) (map Fin [5; 7; 5; 9; 5; 11]%Q)) true
  = CleanUp_reference (Wave (Fin (2 # 10000)) (map Fin [5; 7; 5; 9; 5; 11]%Q)) true.
Proof.
  eapply (CleanUp_in_place_drift_refines_reference (2 # 10000)
            (map Fin [5; 7; 5; 9; 5; 11]%Q) true).
  - reflexivity.
  - simpl. lia.
  - vm_compute. reflexivity.
  - vm_compute. reflexivity.
  - exact I.
Defined.

(** C10 as stated fails: with an infinite last sample behind the baseline
    window the end values differ by an infinity, the pass at index 0 turns
    [offSig[0]] into NaN (infinity times the time 0), and every later pass
    reads it back: the loop returns NaN throughout, where the reference has
    minus infinity between its ends. *)
Lemma CleanUp_in_place_drift_counterexample :
  CleanUp (Wave (Fin (4 # 10000)) [Fin 0; Fin 1; Fin 3; PInf]) false
  = Ok ([NaN; NaN; NaN; NaN], arange_scaled (Fin (4 # 10000)) 4)
  ∧ CleanUp_reference (Wave (Fin (4 # 10000)) [Fin 0; Fin 1; Fin 3; PInf]) false
    = Ok ([NaN; NInf; NInf; NaN], arange_scaled (Fin (4 # 10000)) 4)
  ∧ ¬ (∀ (dx : Q) (data : list fl) (intFlag : bool),
         (0 < dx)%Q → (2 ≤ length data)%nat →
         CleanUp (Wave (Fin dx) data) intFlag
         = CleanUp_reference (Wave (Fin dx) data) intFlag).
Proof.
  split; [vm_compute; reflexivity|]. split; [vm_compute; reflexivity|].
  intros H.
  specialize (H (4 # 10000) [Fin 0; Fin 1; Fin 3; PInf] false eq_refl).
  cbn [length] in H. specialize (H ltac:(lia)). vm_compute in H. discriminate H.
Qed.

(** The loop on its own.  On a time axis that starts elsewhere than at 0 the
    pass at index 0 moves [offSig[0]] and the later passes subtract another
    line than the reference; so they do when the last entry is infinite.
    Inside [CleanUp] the time axis always starts at 0. *)
Lemma drift_loop_aliasing_visible :
  remove_drift [Fin 3; Fin 1; Fin 7] [Fin 1; Fin 2; Fin 3]
  = Ok [Fin 1; Fin (-5); Fin (-2)]
  ∧ drift_reference [Fin 3; Fin 1; Fin 7] [Fin 1; Fin 2; Fin 3]
    = Ok [Fin 1; Fin (-3); Fin 1]
  ∧ remove_drift [Fin 0; Fin 1; PInf] (arange_scaled (Fin 1) 3)
    = Ok [NaN; NaN; NaN]
  ∧ drift_reference [Fin 0; Fin 1; PInf] (arange_scaled (Fin 1) 3)
    = Ok [NaN; NInf; NaN].
Proof. repeat split; vm_compute; reflexivity. Qed.

(** ** The baseline window *)

Lemma Qltb_lt (a b : Q) : Qltb a b = true ↔ (a < b)%Q.
Proof.
  unfold Qltb. rewrite negb_true_iff. split.
  - intros H. apply Qnot_le_lt. intros Hle. apply Qle_bool_iff in Hle. congruence.
  - intros H. destruct (Qle_bool b a) eqn:E; [|done].
    apply Qle_bool_iff in E. exfalso. by eapply Qlt_not_le.
Qed.

Lemma elem_of_flatnonzero_from (i : nat) (mask : list bool) (j : nat) :
  j ∈ flatnonzero_from i mask ↔ (i ≤ j)%nat ∧ mask !! (j - i)%nat = Some true.
Proof.
  revert i. induction mask as [|b mask IH]; intros i; simpl.
  - rewrite elem_of_nil. split; [done|]. by intros [_ ?].
  - rewrite elem_of_app, IH. split.
    + intros [Hj|[Hle Hj]].
      * destruct b; [|by apply elem_of_nil in Hj].
        apply list_elem_of_singleton in Hj as ->. by rewrite Nat.sub_diag.
      * split; [lia|]. by replace (j - i)%nat with (S (j - S i)) by lia.
    + intros [Hle Hj]. destruct (decide (j = i)) as [->|Hne].
      * rewrite Nat.sub_diag in Hj. simplify_eq/=. left. by left.
      * right. split; [lia|].
        by replace (j - i)%nat with (S (j - S i)) in Hj by lia.
Qed.

Lemma elem_of_flatnonzero (mask : list bool) (j : nat) :
  j ∈ flatnonzero mask ↔ mask !! j = Some true.
Proof.
  unfold flatnonzero. rewrite elem_of_flatnonzero_from, Nat.sub_0_r.
  split; [by intros [_ ?]|]. split; [lia|done].
Qed.

Lemma window_mask (dx : Q) (n i : nat) :
  (i < n)%nat →
  baseline_mask (arange_scaled (Fin dx) n) !! i = Some true ↔ in_window dx i.
Proof.
  intros Hi. unfold baseline_mask, in_window.
  rewrite list_lookup_fmap, lookup_arange_scaled by done.
  cbn [fmap option_fmap option_map fmul of_nat_fl fgt flt dStart dEnd].
  split.
  - intros [= H]. apply andb_true_iff in H as [H1 H2].
    apply Qltb_lt in H1, H2. by rewrite Qred_correct in H1, H2.
  - intros [H1 H2]. f_equal. apply andb_true_iff.
    split; apply Qltb_lt; by rewrite Qred_correct.
Qed.

(** The indices the baseline mean is taken over: exactly those whose time lies
    strictly between 0 and 1 ms. *)
Lemma dRange_window (dx : Q) (n i : nat) :
  i ∈ flatnonzero (baseline_mask (arange_scaled (Fin dx) n))
  ↔ (i < n)%nat ∧ in_window dx i.
Proof.
  rewrite elem_of_flatnonzero. split.
  - intros H. assert (Hi : (i < n)%nat).
    { apply lookup_lt_Some in H.
      unfold baseline_mask in H.
      by rewrite length_map, length_arange_scaled in H. }
    split; [done|]. by apply (window_mask dx n).
  - intros [Hi H]. by apply window_mask.
Qed.

Lemma fancy_index_total {A} (a : list A) (idx : list nat) :
  (∀ j, j ∈ idx → (j < length a)%nat) → ∃ sel, fancy_index a idx = Ok sel.
Proof.
  induction idx as [|i idx IH]; intros Hidx; simpl; [eauto|].
  destruct (lookup_lt_is_Some_2 a i) as [x Hx]; [apply Hidx; by left|].
  destruct IH as [xs Hxs]; [intros j Hj; apply Hidx; by right|].
  exists (x :: xs). by rewrite (getitem_Some _ _ _ Hx), Hxs.
Qed.

(** With a sample in the window, the baseline mean is taken over a non-empty
    selection and is a number. *)
Lemma baseline_selection (dx : Q) (data : list Q) (i : nat) :
  (i < length data)%nat → in_window dx i →
  ∃ sel,
    fancy_index (map Fin data)
      (flatnonzero (baseline_mask (arange_scaled (Fin dx) (length (map Fin data)))))
    = Ok sel ∧ is_fin (np_mean sel).
Proof.
  intros Hi Hw. rewrite length_map.
  destruct (fancy_index_total (map Fin data)
    (flatnonzero (baseline_mask (arange_scaled (Fin dx) (length data)))))
    as [sel Hsel].
  { intros j Hj. apply dRange_window in Hj as [Hj _]. by rewrite length_map. }
  exists sel. split; [done|]. apply np_mean_fin.
  - eapply fancy_index_Forall; [|exact Hsel].
    apply Forall_map, Forall_forall; done.
  - intros ->. apply fancy_index_length in Hsel.
    assert (Hin : i ∈ flatnonzero (baseline_mask (arange_scaled (Fin dx) (length data))))
      by by apply dRange_window.
    destruct (flatnonzero _); [by apply elem_of_nil in Hin|done].
Qed.

(** With no sample in the window the selection is empty. *)
Lemma empty_selection (dx : Q) (n : nat) :
  (∀ i, (i < n)%nat → ¬ in_window dx i) →
  flatnonzero (baseline_mask (arange_scaled (Fin dx) n)) = [].
Proof.
  intros H. destruct (flatnonzero _) as [|i idx] eqn:E; [done|].
  assert (Hin : i ∈ flatnonzero (baseline_mask (arange_scaled (Fin dx) n)))
    by (rewrite E; by left).
  apply dRange_window in Hin as [Hi Hw]. by destruct (H i Hi).
Qed.

(** ** C8 *)

(** After the reference drift removal of an array of numbers, the first and
    the last entry are one and the same number. *)
Lemma drift_reference_endpoints (a times : list fl) (z zN : Q) :
  Forall is_fin a → length a = length times → (1 ≤ length a)%nat →
  times !! 0%nat = Some (Fin z) → (z == 0)%Q →
  last times = Some (Fin zN) → ¬ (zN == 0)%Q →
  ∃ out q, drift_reference a times = Ok out
           ∧ out !! 0%nat = Some (Fin q) ∧ last out = Some (Fin q).
Proof.
  intros Ha Hlen Hn Ht0 Hz HtN HzN.
  destruct (lookup_lt_is_Some_2 a 0) as [x0 Hx0]; [lia|].
  destruct (lookup_lt_is_Some_2 a (pred (length a))) as [xN HxN]; [lia|].
  assert (Hf0 : is_fin x0).
  { rewrite Forall_forall in Ha. apply Ha. by eapply list_elem_of_lookup_2. }
  assert (HfN : is_fin xN).
  { rewrite Forall_forall in Ha. apply Ha. by eapply list_elem_of_lookup_2. }
  destruct x0 as [p| | |]; try done. destruct xN as [r| | |]; try done.
  unfold drift_reference.
  rewrite (getlast_Some a (Fin r)) by by rewrite last_lookup_pred.
  rewrite (getitem_Some _ _ _ Hx0), (getlast_Some _ _ HtN), (getitem_Some _ _ _ Ht0).
  cbn [mbind result_bind].
  eexists _, (Qred (p - Qred (Qred (Qred (r - p) * z) / Qred (zN - z)))).
  split; [done|]. pose proof (span_nonzero zN z Hz HzN) as Hspan.
  split.
  - rewrite lookup_zip_with, Hx0, Ht0. cbn [mbind option_bind].
    unfold drift_line. cbn [fsub fmul]. by rewrite fdiv_Fin.
  - rewrite last_lookup_pred, lookup_zip_with, length_zip_with.
    rewrite last_lookup_pred in HtN.
    rewrite Hlen in HxN |- *.
    rewrite Nat.min_id, HxN, HtN. cbn [mbind option_bind].
    unfold drift_line. cbn [fsub fmul]. rewrite fdiv_Fin by done. cbn [fsub].
    f_equal. apply Fin_Qred_eq. rewrite !Qred_correct, Hz. field.
    intros H. apply HzN. rewrite <- H. ring.
Qed.

Lemma in_window_pos (dx : Q) (i : nat) : in_window dx i → (1 ≤ i)%nat.
Proof.
  intros [H _]. destruct i; [|lia]. exfalso.
  assert (dx * inject_Z (Z.of_nat 0) == 0)%Q as E by (simpl; ring).
  rewrite E in H. by apply Qlt_irrefl in H.
Qed.

(** [CleanUp] on a wave with a sample inside the baseline window: every stage
    succeeds, the array that reaches the drift loop holds numbers only, and the
    loop returns what the reference does. *)
Lemma CleanUp_windowed (dx : Q) (data : list Q) (intFlag : bool) (i : nat) :
  (0 < dx)%Q → (i < length data)%nat → in_window dx i →
  let sigTime := arange_scaled (Fin dx) (length data) in
  ∃ sel offSig,
    fancy_index (map Fin data) (flatnonzero (baseline_mask sigTime)) = Ok sel
    ∧ is_fin (np_mean sel)
    ∧ (if intFlag
       then cumtrapz (map (λ x, fsub x (np_mean sel)) (map Fin data)) sigTime (Fin 0)
       else Ok (map (λ x, fsub x (np_mean sel)) (map Fin data))) = Ok offSig
    ∧ Forall is_fin offSig
    ∧ length offSig = length data
    ∧ CleanUp (Wave (Fin dx) (map Fin data)) intFlag
      = (cleanSig ← drift_reference offSig sigTime; Ok (cleanSig, sigTime)).
Proof.
  intros Hdx Hi Hw sigTime.
  pose proof (in_window_pos _ _ Hw) as Hi1.
  destruct (baseline_selection dx data i Hi Hw) as (sel & Hsel & Hmean).
  rewrite length_map in Hsel. fold sigTime in Hsel.
  set (off0 := map (λ x, fsub x (np_mean sel)) (map Fin data)).
  assert (Hoff0 : Forall is_fin off0).
  { apply closed_offset; auto using is_fin_fsub. }
  assert (Hlen0 : length off0 = length sigTime).
  { unfold off0, sigTime. by rewrite !length_map, length_arange_scaled. }
  assert (Hlent : length sigTime = length data) by apply length_arange_scaled.
  assert (∃ offSig,
    (if intFlag then cumtrapz off0 sigTime (Fin 0) else Ok off0) = Ok offSig
    ∧ Forall is_fin offSig ∧ length offSig = length data)
    as (offSig & Hstage & Hfin & Hlen).
  { destruct intFlag.
    - destruct (cumtrapz_total off0 sigTime) as [out Hout].
      { intros E. rewrite E in Hlen0. simpl in Hlen0. lia. }
      exists out. split; [done|]. split.
      + eapply closed_fin_cumtrapz; [exact Hoff0|apply Forall_time_axis|exact Hout].
      + rewrite (cumtrapz_length _ _ _ Hlen0 Hout). lia.
    - exists off0. split; [done|]. split; [done|lia]. }
  exists sel, offSig. repeat split; try done.
  unfold CleanUp. rewrite length_map. fold sigTime. rewrite Hsel.
  cbn [mbind result_bind]. fold off0. rewrite Hstage. cbn [mbind result_bind].
  destruct (time_axis_first dx (length data)) as (z & Ht0 & Hz); [lia|].
  destruct (time_axis_last dx (length data)) as (zN & HtN & HzN); [lia|].
  rewrite (remove_drift_is_reference offSig sigTime z zN); try done; try lia.
  - eapply Forall_impl; [exact Hfin|]. apply is_fin_noinf.
  - eapply time_axis_span; [exact Hdx| |exact HzN]. lia.
Qed.

(** C8 (amended). For every raw signal with at least two samples, a positive
    sample spacing and a sample strictly inside the baseline window, with any
    line [m * t + c] added and either value of the integration flag, [CleanUp]
    returns an array whose first and last entries are equal numbers. *)
Theorem drift_removal_endpoints_agree (s : list Q) (m c dx : Q)
    (intFlag : bool) (i : nat) :
  (0 < dx)%Q → (2 ≤ length s)%nat → (i < length s)%nat → in_window dx i →
  ∃ out times first lst,
    CleanUp (Wave (Fin dx) (map Fin (add_drift m c dx s))) intFlag = Ok (out, times)
    ∧ out !! 0%nat = Some first ∧ last out = Some lst
    ∧ feqb first lst = true.
Proof.
  intros Hdx Hn Hi Hw.
  assert (Hlen : length (add_drift m c dx s) = length s) by apply length_imap.
  destruct (CleanUp_windowed dx (add_drift m c dx s) intFlag i)
    as (sel & offSig & _ & _ & _ & Hfin & Hlo & Hclean); [done|lia|done|].
  rewrite Hlen in Hlo, Hclean.
  destruct (time_axis_first dx (length s)) as (z & Ht0 & Hz); [lia|].
  destruct (time_axis_last dx (length s)) as (zN & HtN & HzN); [lia|].
  destruct (drift_reference_endpoints offSig (arange_scaled (Fin dx) (length s)) z zN)
    as (out & q & Hout & H0 & HN); try done.
  - by rewrite length_arange_scaled.
  - lia.
  - eapply time_axis_span; [exact Hdx| |exact HzN]. lia.
  - exists out, (arange_scaled (Fin dx) (length s)), (Fin q), (Fin q).
    rewrite Hclean, Hout. repeat split; try done.
    apply Qeq_bool_true. reflexivity.
Qed.

(** A run of C8: the samples 3, 1, 4, 1, 5 at 0.2 ms spacing with the line
    [7 * t + 2] added, integration on. *)
Lemma drift_removal_endpoints_witness :
  ∃ out times first lst,
    CleanUp (Wave (Fin (2 # 10000)) (map Fin (add_drift 7 2 (2 # 10000) [3; 1; 4; 1; 5]%Q))) true
    = Ok (out, times)
    ∧ out !! 0%nat = Some first ∧ last out = Some lst
    ∧ feqb first lst = true.
Proof.
  apply (drift_removal_endpoints_agree [3; 1; 4; 1; 5]%Q 7 2 (2 # 10000) true 1).
  - reflexivity.
  - simpl. lia.
  - simpl. lia.
  - split; reflexivity.
Defined.

(** C8 as stated fails where no sample lies inside the window: at spacing 1 s
    the two samples of the line [t + 1] come back as NaN, and NaN equals
    nothing. *)
Lemma drift_removal_endpoints_counterexample :
  ¬ (∀ (s : list Q) (m c dx : Q) (intFlag : bool),
       (0 < dx)%Q → (2 ≤ length s)%nat →
       ∃ out times first lst,
         CleanUp (Wave (Fin dx) (map Fin (add_drift m c dx s))) intFlag = Ok (out, times)
         ∧ out !! 0%nat = Some first ∧ last out = Some lst
         ∧ feqb first lst = true).
Proof.
  intros H.
  destruct (H [0; 0]%Q 1 1 1 false) as (out & times & first & lst & Hc & H0 & HN & Heq).
  - reflexivity.
  - simpl. lia.
  - vm_compute in Hc. injection Hc as <- <-.
    vm_compute in H0, HN. injection H0 as <-. injection HN as <-.
    discriminate Heq.
Qed.

(** ** C2 *)

Lemma offset_by_nan (data : list Q) :
  map (λ x, fsub x NaN) (map Fin data) = replicate (length data) NaN.
Proof. induction data as [|q data IH]; simpl; [done|]. by rewrite IH. Qed.

Lemma cumsum_from_nan acc k :
  cumsum_from acc (replicate k NaN) = replicate k NaN.
Proof.
  revert acc. induction k as [|k IH]; intros acc; simpl; [done|].
  destruct acc; simpl; by rewrite IH.
Qed.

Lemma zip_with_nan_r (f : fl → fl → fl) (l : list fl) k :
  (∀ x, f x NaN = NaN) → (length l ≤ k)%nat →
  zip_with f l (replicate k NaN) = replicate (length l) NaN.
Proof.
  intros Hf. revert k. induction l as [|x l IH]; intros k Hk; simpl; [done|].
  destruct k as [|k]; simpl in *; [lia|]. rewrite Hf, IH; [done|lia].
Qed.

(** The integral of an all-NaN array: the initial 0, then NaN. *)
Lemma cumtrapz_nan (times : list fl) (k : nat) :
  length times = S k →
  cumtrapz (replicate (S k) NaN) times (Fin 0) = Ok (Fin 0 :: replicate k NaN).
Proof.
  intros Hlen. unfold cumtrapz. cbn [replicate tail]. do 2 f_equal.
  change (NaN :: replicate k NaN) with (replicate (S k) NaN).
  rewrite (zip_with_nan_r fadd (replicate k NaN) (S k));
    [|by intros []|rewrite length_replicate; lia].
  rewrite length_replicate.
  assert (Hd : length (np_diff times) = k).
  { unfold np_diff. rewrite length_zip_with, length_tail, Hlen. simpl. lia. }
  rewrite zip_with_nan_r; [|by intros []|lia]. rewrite Hd.
  destruct k; simpl; [done|]. by rewrite cumsum_from_nan.
Qed.

(** Once the array holds NaN only, every pass of the drift loop leaves it so. *)
Lemma drift_loop_nan (times : list fl) (n : nat) (idx : list nat) :
  length times = n → (∀ i, i ∈ idx → (i < n)%nat) →
  for_each (drift_body times) idx (replicate n NaN) = Ok (replicate n NaN).
Proof.
  intros Hlen. induction idx as [|i idx IH]; intros Hidx; simpl; [done|].
  assert (Hi : (i < n)%nat) by (apply Hidx; by left).
  destruct (lookup_lt_is_Some_2 times i) as [ti Hti]; [lia|].
  destruct (lookup_lt_is_Some_2 times 0) as [t0 Ht0]; [lia|].
  destruct (lookup_lt_is_Some_2 times (pred (length times))) as [tN HtN]; [lia|].
  rewrite <- last_lookup_pred in HtN.
  rewrite (drift_body_reads times _ i NaN NaN NaN ti tN t0); try done.
  - cbn [mbind result_bind]. unfold drift_line. cbn [fsub].
    rewrite list_insert_id by (by apply lookup_replicate).
    apply IH. intros j Hj. apply Hidx. by right.
  - by apply lookup_replicate.
  - rewrite last_lookup_pred, length_replicate. apply lookup_replicate. split; [done|lia].
  - apply lookup_replicate. split; [done|lia].
Qed.

Lemma seq_lt (j n i : nat) : i ∈ seq j n → (i < j + n)%nat.
Proof. intros H. apply list_elem_of_lookup in H as [k Hk]. apply lookup_seq in Hk. lia. Qed.

(** The drift loop on the integral of an all-NaN array. *)
Lemma drift_loop_integrated_nan (dx : Q) (k : nat) :
  remove_drift (Fin 0 :: replicate k NaN) (arange_scaled (Fin dx) (S k))
  = Ok (replicate (S k) NaN).
Proof.
  set (times := arange_scaled (Fin dx) (S k)).
  assert (Hlen : length times = S k) by apply length_arange_scaled.
  destruct (time_axis_first dx (S k)) as (z & Ht0 & Hz); [lia|].
  destruct (time_axis_last dx (S k)) as (zN & HtN & HzN); [lia|].
  fold times in Ht0, HtN.
  unfold remove_drift. cbn [length seq for_each]. rewrite length_replicate.
  assert (∃ aN, last (Fin 0 :: replicate k NaN) = Some aN
            ∧ drift_line (fsub aN (Fin 0)) (fsub (Fin zN) (Fin z)) (Fin 0) (Fin z) = NaN)
    as (aN & HaN & Hv).
  { destruct k as [|k].
    - exists (Fin 0). split; [done|].
      unfold times in HtN, Ht0. cbn in HtN, Ht0. simplify_eq.
      unfold drift_line. cbn [fsub fmul]. unfold fdiv.
      rewrite !Qeq_bool_true; [done| |]; rewrite !Qred_correct; ring.
    - exists NaN. split; [|done].
      rewrite last_lookup_pred. cbn [length pred]. rewrite length_replicate.
      change (Fin 0 :: replicate (S k) NaN) with ([Fin 0] ++ replicate (S k) NaN).
      rewrite lookup_app_r by (simpl; lia). apply lookup_replicate.
      split; [done|simpl; lia]. }
  rewrite (drift_body_reads times _ 0 (Fin 0) aN (Fin 0) (Fin z) (Fin zN) (Fin z));
    try done.
  cbn [mbind result_bind insert list_insert]. rewrite Hv.
  change (NaN :: replicate k NaN) with (replicate (S k) NaN).
  apply drift_loop_nan; [done|]. intros i Hi. apply seq_lt in Hi. lia.
Qed.

(** A record of zero duration has no sample inside the window. *)
Lemma zero_duration_no_window (dx : Q) (n : nat) :
  (dx * inject_Z (Z.of_nat (pred n)) == 0)%Q →
  ∀ i, (i < n)%nat → ¬ in_window dx i.
Proof.
  intros H i Hi [Hpos _].
  assert (dx * inject_Z (Z.of_nat i) == 0)%Q as E.
  { apply Qmult_integral in H as [H|H].
    - rewrite H. ring.
    - assert (pred n = 0)%nat as Hn.
      { destruct (pred n); [done|]. exfalso. by eapply count_nonzero; [|exact H]; lia. }
      assert (i = 0)%nat as -> by lia. simpl. ring. }
  rewrite E in Hpos. by apply Qlt_irrefl in Hpos.
Qed.

(** C2 (amended). [CleanUp] checks none of the degenerate inputs.  On the
    stand-in for an absent file it raises TypeError.  On a wave with at least
    one sample none of which lies strictly inside the baseline window -- every
    single-sample record and every record of zero duration is one -- it raises
    nothing and returns NaN for every sample, with either value of the
    integration flag. *)
Theorem CleanUp_degenerate_input (dx : Q) (data : list Q) (intFlag : bool) :
  data ≠ [] → (∀ i, (i < length data)%nat → ¬ in_window dx i) →
  CleanUp NoData intFlag = Raise TypeError
  ∧ CleanUp (Wave (Fin dx) (map Fin data)) intFlag
    = Ok (replicate (length data) NaN, arange_scaled (Fin dx) (length data)).
Proof.
  intros Hne Hwin. split; [done|].
  unfold CleanUp. rewrite length_map, empty_selection by done.
  cbn [fancy_index mbind result_bind]. rewrite np_mean_nil, offset_by_nan.
  destruct (length data) as [|k] eqn:Hk.
  { destruct data; [done|discriminate Hk]. }
  destruct intFlag.
  - rewrite cumtrapz_nan by apply length_arange_scaled.
    cbn [mbind result_bind]. by rewrite drift_loop_integrated_nan.
  - cbn [mbind result_bind]. unfold remove_drift. rewrite length_replicate.
    rewrite drift_loop_nan; [done|apply length_arange_scaled|].
    intros i Hi. apply seq_lt in Hi. lia.
Qed.

(** A run of C2: one sample. *)
Lemma CleanUp_degenerate_witness :
  CleanUp NoData true = Raise TypeError
  ∧ CleanUp (Wave (Fin (2 # 10000)) (map Fin [5]%Q)) true
    = Ok (replicate (length [5]%Q) NaN,
          arange_scaled (Fin (2 # 10000)) (length [5]%Q)).
Proof.
  apply (CleanUp_degenerate_input (2 # 10000) [5]%Q true).
  - discriminate.
  - apply (zero_duration_no_window (2 # 10000) 1). reflexivity.
Defined.

(** C2 as stated fails: a single-sample record, and a record sampled too slowly
    to have a sample inside the window, come back as NaN rather than as an
    error. *)
Lemma CleanUp_degenerate_counterexample :
  CleanUp (Wave (Fin (2 # 10000)) (map Fin [5]%Q)) false = Ok ([NaN], [Fin 0])
  ∧ CleanUp (Wave (Fin (2 # 10000)) (map Fin [5]%Q)) true = Ok ([NaN], [Fin 0])
  ∧ CleanUp (Wave (Fin 1) (map Fin [5; 6; 7]%Q)) false
    = Ok ([NaN; NaN; NaN], [Fin 0; Fin 1; Fin 2]).
Proof. repeat split; vm_compute; reflexivity. Qed.

(** ** C3 *)

(** C3 (amended). The baseline mean is taken over the samples whose time is
    strictly greater than 0 and strictly less than 1 ms, so the sample at
    time 0 is never among them, whatever the spacing.  For five samples of
    value 5 at 0.2 ms spacing the samples 1 to 4 are inside the window and
    [CleanUp] returns 0 for every sample, with the integration off and on. *)
Theorem CleanUp_constant_signal :
  (∀ (times : list fl) (i : nat),
     i ∈ flatnonzero (baseline_mask times)
     ↔ ∃ t, times !! i = Some t
            ∧ fgt t (Fin 0) = true ∧ flt t (Fin (1 # 1000)) = true)
  ∧ (∀ (dx : fl) (n : nat),
       0%nat ∉ flatnonzero (baseline_mask (arange_scaled dx n)))
  ∧ flatnonzero (baseline_mask (arange_scaled (Fin (2 # 10000)) 5))
    = [1; 2; 3; 4]%nat
  ∧ CleanUp (Wave (Fin (2 # 10000)) (map Fin [5; 5; 5; 5; 5]%Q)) false
    = Ok ([Fin 0; Fin 0; Fin 0; Fin 0; Fin 0], arange_scaled (Fin (2 # 10000)) 5)
  ∧ CleanUp (Wave (Fin (2 # 10000)) (map Fin [5; 5; 5; 5; 5]%Q)) true
    = Ok ([Fin 0; Fin 0; Fin 0; Fin 0; Fin 0], arange_scaled (Fin (2 # 10000)) 5).
Proof.
  assert (Hmask : ∀ (times : list fl) (i : nat),
            i ∈ flatnonzero (baseline_mask times)
            ↔ ∃ t, times !! i = Some t
                   ∧ fgt t (Fin 0) = true ∧ flt t (Fin (1 # 1000)) = true).
  { intros times i. rewrite elem_of_flatnonzero. unfold baseline_mask.
    rewrite list_lookup_fmap. fold dStart dEnd.
    destruct (times !! i) as [t|]; cbn [fmap option_fmap option_map]; split.
    - intros [= H]. apply andb_true_iff in H. by exists t.
    - intros (t' & [= <-] & H1 & H2). by rewrite H1, H2.
    - done.
    - by intros (t' & ? & _). }
  split; [exact Hmask|]. split; [|repeat split; vm_compute; reflexivity].
  intros dx n (t & Ht & Hpos & _)%Hmask.
  destruct n as [|n]; [done|].
  rewrite lookup_arange_scaled in Ht by lia. injection Ht as <-.
  destruct dx as [q| | |]; try done.
  cbn [fmul of_nat_fl fgt] in Hpos. apply Qltb_lt in Hpos.
  rewrite Qred_correct in Hpos. simpl (inject_Z (Z.of_nat 0)) in Hpos.
  assert (E : (q * 0 == 0)%Q) by ring. rewrite E in Hpos.
  by apply Qlt_irrefl in Hpos.
Qed.

(** C3 as stated fails: at spacing 1 s only the sample at time 0 is below 1 ms,
    and it is not inside the window; the mean is taken over nothing and every
    sample comes back as NaN, with the integration on or off. *)
Lemma CleanUp_constant_signal_counterexample :
  CleanUp (Wave (Fin 1) (map Fin [5; 5; 5; 5; 5]%Q)) false
  = Ok ([NaN; NaN; NaN; NaN; NaN], [Fin 0; Fin 1; Fin 2; Fin 3; Fin 4])
  ∧ CleanUp (Wave (Fin 1) (map Fin [5; 5; 5; 5; 5]%Q)) true
    = Ok ([NaN; NaN; NaN; NaN; NaN], [Fin 0; Fin 1; Fin 2; Fin 3; Fin 4])
  ∧ flatnonzero (baseline_mask (arange_scaled (Fin 1) 5)) = []
  ∧ (∀ intFlag times,
       CleanUp (Wave (Fin 1) (map Fin [5; 5; 5; 5; 5]%Q)) intFlag
       ≠ Ok ([Fin 0; Fin 0; Fin 0; Fin 0; Fin 0], times)).
Proof.
  split; [vm_compute; reflexivity|]. split; [vm_compute; reflexivity|].
  split; [vm_compute; reflexivity|].
  intros [] times; vm_compute; discriminate.
Qed.

(** ** Running the methods *)

(** Unfolds the plumbing of [M] in the goal, leaving the reads of the world. *)
Ltac run_M :=
  cbv [mbind M_bind mret M_ret lift ask get_self try_except].

(** ** C4 *)

(** C4 (amended). Behind a 64-line header, the single 7-line block whose line 0
    is [[CFL01]], whose line 4 is [scale 2.5] and whose line 3 has [unit] as its
    last blank-separated token makes [LoadCalData] store the factor 2.5 and that
    token under CFL01, whatever the header and the other four lines hold.  For
    the line [V 3.14] the token is [3.14]. *)
Theorem LoadCalData_single_block (w : World) (header : list string)
    (x1 x2 uline x5 x6 unit : string) :
  length header = 64%nat →
  text_files w (DataPath (self w) ++ ["DAS.conf"])
  = Some (header ++ ["[CFL01]
"; x1; x2; uline; "scale 2.5
"; x5; x6]) →
  last_token uline = Ok unit →
  LoadCalData w
  = set_self (set_calFile
               (dict_set (calFile (self w)) "CFL01" (Fin (5 # 2), unit))) w
  ∧ last_token "V 3.14
" = Ok "3.14".
Proof.
  intros Hlen Hfile Hunit. split; [|reflexivity].
  unfold LoadCalData, set_self, readlines. run_M. rewrite Hfile.
  rewrite (drop_app_length' header _ 64) by done.
  cbn [slice_step stride_go Nat.sub length seq for_in].
  run_M. unfold cal_entry, set_self.
  cbn [getitem lookup list_lookup mbind result_bind].
  rewrite Hunit.
  replace (last_token "scale 2.5
") with (Ok (A := string) "2.5") by reflexivity.
  cbn [result_bind].
  replace (py_float "2.5") with (Ok (Fin (5 # 2))) by reflexivity.
  cbn [result_bind].
  replace (py_strip "[]
" "[CFL01]
") with "CFL01" by reflexivity.
  reflexivity.
Qed.

(** The block of the specification's example, read by the code: the unit
    stored under CFL01 is [3.14], not [V]. *)
Lemma LoadCalData_single_block_counterexample :
  calFile (self (snd (LoadCalData (world_of das_conf_claimed (λ _, None) (init 1234)))))
  = [("CFL01", (Fin (5 # 2), "3.14"))]
  ∧ calFile (self (snd (LoadCalData (world_of das_conf_claimed (λ _, None) (init 1234)))))
    ≠ [("CFL01", (Fin (5 # 2), "V"))].
Proof. split; [vm_compute; reflexivity|vm_compute; discriminate]. Qed.

(** A run of C4, on the line [V 3.14] itself. *)
Lemma LoadCalData_single_block_witness :
  LoadCalData
    (world_of (replicate 64 "header" ++ ["[CFL01]
"; "x"; "x"; "V 3.14
"; "scale 2.5
"; "x"; "x"]) (λ _, None) (init 1234))
  = set_self (set_calFile (dict_set [] "CFL01" (Fin (5 # 2), "3.14")))
      (world_of (replicate 64 "header" ++ ["[CFL01]
"; "x"; "x"; "V 3.14
"; "scale 2.5
"; "x"; "x"]) (λ _, None) (init 1234))
  ∧ last_token "V 3.14
" = Ok "3.14".
Proof.
  apply (LoadCalData_single_block
           (world_of (replicate 64 "header" ++ ["[CFL01]
"; "x"; "x"; "V 3.14
"; "scale 2.5
"; "x"; "x"]) (λ _, None) (init 1234))
           (replicate 64 "header") "x" "x" "V 3.14
" "x" "x" "3.14").
  - reflexivity.
  - reflexivity.
  - reflexivity.
Defined.

(** ** C5 *)

(** The channel lists are not pairwise disjoint and free of repeats: CTor1 is a
    flux loop and a B-dot coil. *)
Lemma channel_groups_counterexample :
  ¬ (NoDup FluxLoops ∧ NoDup BDots ∧ NoDup Currents
     ∧ (∀ x, x ∈ FluxLoops → x ∉ BDots)
     ∧ (∀ x, x ∈ FluxLoops → x ∉ Currents)
     ∧ (∀ x, x ∈ BDots → x ∉ Currents)).
Proof.
  intros (_ & _ & _ & H & _). apply (H "CTor1").
  - by apply (bool_decide_unpack _).
  - by apply (bool_decide_unpack _).
Qed.

(** C5 (amended). The list of currents shares no name with the flux loops or
    with the B-dot coils; neither the B-dot list nor the list of currents
    repeats a name; the names that are both a flux loop and a B-dot coil are
    exactly CTor1 to CTor6. *)
Theorem channel_groups_overlap :
  Forall (λ x, (x ∉ FluxLoops) ∧ (x ∉ BDots)) Currents
  ∧ NoDup BDots ∧ NoDup Currents
  ∧ (∀ x, (x ∈ FluxLoops ∧ x ∈ BDots)
          ↔ x ∈ ["CTor1"; "CTor2"; "CTor3"; "CTor4"; "CTor5"; "CTor6"]).
Proof.
  split; [by apply (bool_decide_unpack _)|].
  split; [by apply (bool_decide_unpack _)|].
  split; [by apply (bool_decide_unpack _)|].
  intros x.
  assert (filter (λ x, x ∈ BDots) FluxLoops
          = ["CTor1"; "CTor2"; "CTor3"; "CTor4"; "CTor5"; "CTor6"]) as <-
    by (vm_compute; reflexivity).
  rewrite list_elem_of_filter. tauto.
Qed.

(** ** C7 *)

(** C7 fails at shot 123: only strings of length 4 and 5 are padded, so the
    string stays [123], of length 3, and the folders are [120000], [300] and
    [T123]. *)
Theorem getFolderPath_short_shot :
  shotstr_of 123 = "123"
  ∧ String.length (shotstr_of 123) = 3%nat
  ∧ folder_names 123 = ["120000"; "300"; "T123"]
  ∧ DataPath (self (snd (getFolderPath (world_of [] (λ _, None) (init 123)))))
    = ["/mnt"; "Pegasus_Data_Archive"; "p3data"; "120000"; "300"; "T123"].
Proof. repeat split; vm_compute; reflexivity. Qed.

(** Where the code does pad: four and five digits. *)
Lemma getFolderPath_padded_examples :
  folder_names 1234 = ["000000"; "1200"; "T001234"]
  ∧ folder_names 12345 = ["010000"; "2300"; "T012345"]
  ∧ folder_names 109756 = ["100000"; "9700"; "T109756"].
Proof. repeat split; vm_compute; reflexivity. Qed.

(** ** C9 *)

Lemma lookup_key_cases {A} (d : dict A) (k : string) :
  (∃ v, lookup_key d k = Ok v ∧ k ∈ keys d)
  ∨ (lookup_key d k = Raise (KeyError k) ∧ k ∉ keys d).
Proof.
  unfold lookup_key, keys. induction d as [|[k' v] d IH]; simpl.
  - right. split; [done|]. apply not_elem_of_nil.
  - destruct (String.eqb k' k) eqn:E.
    + apply String.eqb_eq in E as ->. left. exists v. split; [done|]. by left.
    + apply String.eqb_neq in E. destruct IH as [(v' & Hv & Hin)|[Hv Hin]].
      * left. exists v'. split; [done|]. by right.
      * right. split; [done|]. intros H. apply elem_of_cons in H as [H|H]; [|done].
        by subst.
Qed.

(** C9. Every name of the B-dot list has an entry in the table of [BdotNA];
    the lookup of any name either finds the entry of a name of the table or
    raises KeyError for a name outside it; and when the loop body of [ProcBdot]
    meets a channel with usable samples whose name is outside the table, that
    KeyError leaves it: no channel is stored and no factor is made up. *)
Theorem BdotNA_covers_BDots (w : World) (grp : dict signal) (sig : string)
    (dx : fl) (samples : list fl) (clean : list fl * list fl) :
  dict_get grp sig = Some (Wave dx samples) →
  CleanUp (Wave dx samples) true = Ok clean →
  sig ∉ keys BdotNA →
  Forall (λ s, ∃ v, lookup_key BdotNA s = Ok v) BDots
  ∧ (∀ s, (∃ v, lookup_key BdotNA s = Ok v ∧ s ∈ keys BdotNA)
          ∨ (lookup_key BdotNA s = Raise (KeyError s) ∧ s ∉ keys BdotNA))
  ∧ ProcBdot_channel BdotNA grp sig w = (Raise (KeyError sig), w).
Proof.
  intros Hsig Hclean Hout. split; [|split].
  - repeat (constructor; [eexists; reflexivity|]). constructor.
  - intros s. apply lookup_key_cases.
  - destruct (lookup_key_cases BdotNA sig) as [(v & _ & Hin)|[Hna _]]; [done|].
    unfold ProcBdot_channel. run_M. unfold lookup_key at 1. rewrite Hsig.
    by rewrite Hclean, Hna.
Qed.

(** A run of C9: a channel named PDX99 that has samples. *)
Lemma BdotNA_covers_BDots_witness :
  Forall (λ s, ∃ v, lookup_key BdotNA s = Ok v) BDots
  ∧ (∀ s, (∃ v, lookup_key BdotNA s = Ok v ∧ s ∈ keys BdotNA)
          ∨ (lookup_key BdotNA s = Raise (KeyError s) ∧ s ∉ keys BdotNA))
  ∧ ProcBdot_channel BdotNA [("PDX99", Wave (Fin (2 # 10000)) (map Fin [5; 7; 5; 9; 5; 11]%Q))]
      "PDX99" (world_of [] (λ _, None) (init 1234))
    = (Raise (KeyError "PDX99"), world_of [] (λ _, None) (init 1234)).
Proof.
  eapply (BdotNA_covers_BDots (world_of [] (λ _, None) (init 1234))
            [("PDX99", Wave (Fin (2 # 10000)) (map Fin [5; 7; 5; 9; 5; 11]%Q))] "PDX99").
  - reflexivity.
  - vm_compute. reflexivity.
  - apply (bool_decide_unpack _). vm_compute. exact I.
Defined.

(** ** C1 *)

(** The claim of C1, for the flux loops: whatever the object holds, a channel
    of the group without a calibration entry ends as the empty channel, the
    group being run to its end. *)
Lemma ProcFL_missing_calibration_counterexample :
  ¬ (∀ (w : World) (grp : dict signal) (sig : string),
       dict_get (raw (self w)) "FluxLoops" = Some grp →
       sig ∈ keys grp →
       dict_get (calFile (self w)) sig = None →
       ∃ w', ProcFL w = (Ok (), w')
             ∧ dict_get (get_or_empty (calData (self w')) "FluxLoops") sig
               = Some empty_channel).
Proof.
  intros H.
  destruct (H (world_of [] (λ _, None) two_channels)
              [("CFL01", Wave (Fin (2 # 10000)) (map Fin [5; 7; 5; 9; 5; 11]%Q)); ("CFL02", NoData)]
              "CFL01") as (w' & Hrun & _).
  - reflexivity.
  - by left.
  - reflexivity.
  - vm_compute in Hrun. discriminate Hrun.
Qed.

(** What the two loops do at such a channel, seen from outside: KeyError, and
    the object as it was -- nothing stored for CFL01 or PDX01, nothing printed,
    CFL02 and PDX02 never reached. *)
Lemma missing_calibration_aborts_example :
  ProcFL (world_of [] (λ _, None) two_channels)
  = (Raise (KeyError "CFL01"), world_of [] (λ _, None) two_channels)
  ∧ ProcBdot (world_of [] (λ _, None) two_channels)
    = (Raise (KeyError "PDX01"), world_of [] (λ _, None) two_channels).
Proof. split; vm_compute; reflexivity. Qed.

(** C1 (amended). In [ProcFL] and in [ProcBdot], a channel whose raw data is
    the stand-in for an absent file is answered by the message
    [no data for <name>] and the empty channel, whether or not it has a
    calibration entry, and the loop goes on with the channels behind it.  A
    missing calibration entry is not handled: at a channel with usable samples
    it raises KeyError, which the [except TypeError] lets through; the loop
    stops there with the object unchanged. *)
Theorem missing_data_skipped_missing_calibration_raises
    (w : World) (grp : dict signal) (sig : string) (s : signal)
    (rest : list string) :
  dict_get grp sig = Some s →
  (s = NoData →
     for_in (sig :: rest) (ProcFL_channel grp) w
     = (_ ← print (Text ("no data for " +:+ sig));
        _ ← store_cal "FluxLoops" sig [] [];
        for_in rest (ProcFL_channel grp)) w
     ∧ for_in (sig :: rest) (ProcBdot_channel BdotNA grp) w
       = (_ ← print (Text ("no data for " +:+ sig));
          _ ← store_cal "BDots" sig [] [];
          for_in rest (ProcBdot_channel BdotNA grp)) w)
  ∧ (∀ clean, CleanUp s true = Ok clean →
     dict_get (calFile (self w)) sig = None →
     for_in (sig :: rest) (ProcFL_channel grp) w = (Raise (KeyError sig), w)
     ∧ for_in (sig :: rest) (ProcBdot_channel BdotNA grp) w
       = (Raise (KeyError sig), w)).
Proof.
  intros Hs. split.
  - intros ->. split.
    + cbn [for_in]. unfold ProcFL_channel. run_M.
      unfold lookup_key at 1. rewrite Hs.
      cbn [CleanUp is_TypeError]. by destruct w.
    + cbn [for_in]. unfold ProcBdot_channel. run_M.
      unfold lookup_key at 1. rewrite Hs.
      cbn [CleanUp is_TypeError]. by destruct w.
  - intros clean Hclean Hcal. split.
    + cbn [for_in]. unfold ProcFL_channel, cal_factor. run_M.
      unfold lookup_key at 1.
      rewrite Hs, Hclean. unfold lookup_key. by rewrite Hcal.
    + cbn [for_in]. unfold ProcBdot_channel, cal_factor. run_M.
      unfold lookup_key at 1.
      rewrite Hs, Hclean.
      destruct (lookup_key_cases BdotNA sig) as [(v & -> & _)|[-> _]]; [|done].
      unfold lookup_key. by rewrite Hcal.
Qed.

(** A run of C1: CFL02, whose file was absent, in an object without any
    calibration entry. *)
Lemma missing_data_skipped_witness :
  (NoData = NoData →
     for_in ["CFL02"] (ProcFL_channel (get_or_empty (raw two_channels) "FluxLoops"))
       (world_of [] (λ _, None) two_channels)
     = (_ ← print (Text ("no data for " +:+ "CFL02"));
        _ ← store_cal "FluxLoops" "CFL02" [] [];
        for_in [] (ProcFL_channel (get_or_empty (raw two_channels) "FluxLoops")))
         (world_of [] (λ _, None) two_channels)
     ∧ for_in ["CFL02"]
         (ProcBdot_channel BdotNA (get_or_empty (raw two_channels) "FluxLoops"))
         (world_of [] (λ _, None) two_channels)
       = (_ ← print (Text ("no data for " +:+ "CFL02"));
          _ ← store_cal "BDots" "CFL02" [] [];
          for_in []
            (ProcBdot_channel BdotNA (get_or_empty (raw two_channels) "FluxLoops")))
           (world_of [] (λ _, None) two_channels))
  ∧ (∀ clean, CleanUp NoData true = Ok clean →
     dict_get (calFile (self (world_of [] (λ _, None) two_channels))) "CFL02" = None →
     for_in ["CFL02"] (ProcFL_channel (get_or_empty (raw two_channels) "FluxLoops"))
       (world_of [] (λ _, None) two_channels)
     = (Raise (KeyError "CFL02"), world_of [] (λ _, None) two_channels)
     ∧ for_in ["CFL02"]
         (ProcBdot_channel BdotNA (get_or_empty (raw two_channels) "FluxLoops"))
         (world_of [] (λ _, None) two_channels)
       = (Raise (KeyError "CFL02"), world_of [] (λ _, None) two_channels)).
Proof.
  apply (missing_data_skipped_missing_calibration_raises
           (world_of [] (λ _, None) two_channels)
           (get_or_empty (raw two_channels) "FluxLoops") "CFL02" NoData []).
  reflexivity.
Defined.

(** ** C6 *)

(** The loader itself keeps the promise: an absent file is answered by the
    stand-in and a message, never by an exception. *)
Lemma IgorLoad_absent_file (w : World) (signame : string) (pathname : path)
    (quiet : bool) :
  wave_files w (pathname ++ [signame +:+ ".ibw"]) = None →
  IgorLoad signame pathname quiet w
  = (_ ← print (Text ((signame +:+ ".ibw") +:+ " not loaded - file not found"));
     mret NoData) w.
Proof.
  intros H. unfold IgorLoad, binarywave_load. run_M. by rewrite H.
Qed.

(** C6 fails in [CalcIp]. When the file of PlasmaRogB was absent, so that the
    object holds the stand-in for it, [CleanUp] raises TypeError and [CalcIp]
    has no handler: what remains of [main] -- [CalcIp], [ProcFL], [ProcBdot],
    [TestPlot] -- ends there, with the object unchanged. *)
Theorem CalcIp_absent_file_aborts (w : World) (currents : dict signal) :
  dict_get (raw (self w)) "Currents" = Some currents →
  dict_get currents "PlasmaRogB" = Some NoData →
  CalcIp w = (Raise TypeError, w)
  ∧ (_ ← CalcIp; _ ← ProcFL; _ ← ProcBdot; TestPlot) w = (Raise TypeError, w).
Proof.
  intros Hraw Hsig.
  assert (Hcalc : CalcIp w = (Raise TypeError, w)).
  { unfold CalcIp, raw_group. run_M.
    unfold lookup_key. by rewrite Hraw, Hsig. }
  split; [done|]. run_M. by rewrite Hcalc.
Qed.

(** A run of C6: shot 12345 in an archive that has every wave file but
    PlasmaRogB.ibw, and a calibration file with an entry for PlasmaRogB. *)
Lemma CalcIp_absent_file_witness :
  CalcIp (world_before_CalcIp das_conf_sample (waves_without "PlasmaRogB.ibw") 12345)
  = (Raise TypeError,
     world_before_CalcIp das_conf_sample (waves_without "PlasmaRogB.ibw") 12345)
  ∧ (_ ← CalcIp; _ ← ProcFL; _ ← ProcBdot; TestPlot)
      (world_before_CalcIp das_conf_sample (waves_without "PlasmaRogB.ibw") 12345)
    = (Raise TypeError,
       world_before_CalcIp das_conf_sample (waves_without "PlasmaRogB.ibw") 12345).
Proof.
  apply (CalcIp_absent_file_aborts
           (world_before_CalcIp das_conf_sample (waves_without "PlasmaRogB.ibw") 12345)
           (get_or_empty
              (raw (self (world_before_CalcIp das_conf_sample
                            (waves_without "PlasmaRogB.ibw") 12345)))
              "Currents")).
  - vm_compute. reflexivity.
  - vm_compute. reflexivity.
Defined.

(** The whole of [main] on that archive: TypeError, nothing calibrated, and
    the loader's message for PlasmaRogB on the output. *)
Lemma main_absent_PlasmaRogB_example :
  fst (run_main "Linux" (λ _, Some das_conf_sample)
         (waves_without "PlasmaRogB.ibw") 12345)
  = Raise TypeError
  ∧ calData (self (snd (run_main "Linux" (λ _, Some das_conf_sample)
                         (waves_without "PlasmaRogB.ibw") 12345)))
    = [("FluxLoops", []); ("BDots", []); ("Currents", [])]
  ∧ Text "PlasmaRogB.ibw not loaded - file not found"
    ∈ stdout (snd (run_main "Linux" (λ _, Some das_conf_sample)
                     (waves_without "PlasmaRogB.ibw") 12345)).
Proof.
  split; [vm_compute; reflexivity|]. split; [vm_compute; reflexivity|].
  apply list_elem_of_In. vm_compute. tauto.
Qed.

(** With the file present, the same run gets through [CalcIp] and stops in
    [ProcFL] at the first flux loop without a calibration entry. *)
Lemma main_all_files_example :
  fst (run_main "Linux" (λ _, Some das_conf_sample) (λ _, Some a_wave) 12345)
  = Raise (KeyError "CFL02")
  ∧ keys (get_or_empty
            (calData (self (snd (run_main "Linux" (λ _, Some das_conf_sample)
                                   (λ _, Some a_wave) 12345)))) "Currents")
    = ["Ip"]
  ∧ keys (get_or_empty
            (calData (self (snd (run_main "Linux" (λ _, Some das_conf_sample)
                                   (λ _, Some a_wave) 12345)))) "FluxLoops")
    = ["CFL01"].
Proof. repeat split; vm_compute; reflexivity. Qed.

(** * Further properties *)

Lemma bind_run {A B} (m : M A) (f : A → M B) (w : World) :
  (m ≫= f) w = match m w with
               | (Ok a, w') => f a w'
               | (Raise e, w') => (Raise e, w')
               end.
Proof. reflexivity. Qed.

(** ** CleanUp never fails on samples *)

Lemma lowest_fsub (x y : fl) : lowest (fsub x y).
Proof.
  destruct x, y; simpl; try done. apply Qred_complete, Qred_correct.
Qed.

(** A pass of the drift loop inside the array: it succeeds and writes one
    entry. *)
Lemma drift_body_step (times a : list fl) (i : nat) :
  length a = length times → (i < length a)%nat →
  ∃ v, drift_body times a i = Ok (<[i := v]> a) ∧ lowest v.
Proof.
  intros Hlen Hi.
  destruct (lookup_lt_is_Some_2 a i) as [ai Hai]; [done|].
  destruct (lookup_lt_is_Some_2 a 0) as [a0 Ha0]; [lia|].
  destruct (lookup_lt_is_Some_2 a (pred (length a))) as [aN HaN]; [lia|].
  destruct (lookup_lt_is_Some_2 times i) as [ti Hti]; [lia|].
  destruct (lookup_lt_is_Some_2 times 0) as [t0 Ht0]; [lia|].
  destruct (lookup_lt_is_Some_2 times (pred (length times))) as [tN HtN]; [lia|].
  rewrite <- last_lookup_pred in HaN, HtN.
  eexists. split; [by apply drift_body_reads|]. apply lowest_fsub.
Qed.

Lemma for_each_drift_written (times todo done : list fl) :
  length (done ++ todo) = length times →
  ∃ new, for_each (drift_body times) (seq (length done) (length todo)) (done ++ todo)
         = Ok (done ++ new)
         ∧ length new = length todo ∧ Forall lowest new.
Proof.
  revert done. induction todo as [|x todo IH]; intros done Hlen.
  - exists []. by rewrite app_nil_r.
  - destruct (drift_body_step times (done ++ x :: todo) (length done))
      as (v & Hv & Hlow); [done|rewrite length_app; simpl; lia|].
    cbn [length seq for_each]. rewrite Hv. cbn [mbind result_bind].
    rewrite insert_app_r_alt, Nat.sub_diag by done. cbn [insert list_insert].
    rewrite (cons_middle v done todo), app_assoc.
    replace (S (length done)) with (length (done ++ [v]))
      by (rewrite length_app; simpl; lia).
    destruct (IH (done ++ [v])) as (new & Hnew & Hl & Hlo).
    { rewrite <- Hlen, !length_app. simpl. lia. }
    exists (v :: new). rewrite Hnew, <- app_assoc. simpl.
    split; [done|]. split; [by rewrite Hl|by constructor].
Qed.

(** The drift loop succeeds on every array as long as the time axis, and every
    entry of its result was written by it. *)
Lemma remove_drift_total (a times : list fl) :
  length a = length times →
  ∃ out, remove_drift a times = Ok out ∧ length out = length a ∧ Forall lowest out.
Proof.
  intros Hlen. destruct (for_each_drift_written times a []) as (new & H & Hl & Hlo);
    [done|]. exists new. split; [exact H|done].
Qed.

Lemma dRange_in_range (dx : fl) (sig : list fl) :
  ∃ sel,
    fancy_index sig (flatnonzero (baseline_mask (arange_scaled dx (length sig))))
    = Ok sel.
Proof.
  apply fancy_index_total. intros j Hj.
  apply elem_of_flatnonzero, lookup_lt_Some in Hj.
  unfold baseline_mask in Hj. by rewrite length_map, length_arange_scaled in Hj.
Qed.

(** Every stage of [CleanUp] on a wave that has samples. *)
Lemma CleanUp_nonempty (dx : fl) (data : list fl) (intFlag : bool) :
  data ≠ [] →
  ∃ out, CleanUp (Wave dx data) intFlag
         = Ok (out, arange_scaled dx (length data))
         ∧ length out = length data ∧ Forall lowest out.
Proof.
  intros Hne. unfold CleanUp.
  destruct (dRange_in_range dx data) as [sel ->]. cbn [mbind result_bind].
  set (off0 := map (λ x, fsub x (np_mean sel)) data).
  set (times := arange_scaled dx (length data)).
  assert (Hlen0 : length off0 = length times).
  { unfold off0, times. by rewrite length_map, length_arange_scaled. }
  assert (Hlt : length times = length data) by apply length_arange_scaled.
  assert (∃ offSig, (if intFlag then cumtrapz off0 times (Fin 0) else Ok off0)
                    = Ok offSig ∧ length offSig = length times)
    as (offSig & -> & Hlen).
  { destruct intFlag; [|by exists off0].
    destruct (cumtrapz_total off0 times) as [o Ho].
    { intros E. rewrite E, Hlt in Hlen0. by destruct data. }
    exists o. split; [done|]. by rewrite (cumtrapz_length _ _ _ Hlen0 Ho). }
  cbn [mbind result_bind].
  destruct (remove_drift_total offSig times Hlen) as (out & -> & Hl & Hlo).
  exists out. cbn [mbind result_bind]. split; [done|]. split; [lia|done].
Qed.

(** X1. On every wave that has at least one sample, whatever the samples
    (numbers, infinities or NaN), the sample spacing and the integration flag,
    [CleanUp] raises nothing: it returns as many values as there are samples,
    and the time axis [dx * i]. *)
Theorem CleanUp_total_on_samples (dx : fl) (data : list fl) (intFlag : bool) :
  data ≠ [] →
  ∃ out, CleanUp (Wave dx data) intFlag
         = Ok (out, arange_scaled dx (length data))
         ∧ length out = length data.
Proof.
  intros Hne. destruct (CleanUp_nonempty dx data intFlag Hne) as (out & H & Hl & _).
  by exists out.
Qed.

Lemma CleanUp_total_witness :
  ∃ out, CleanUp (Wave (Fin (-3)) [Fin 1; PInf]) true
         = Ok (out, arange_scaled (Fin (-3)) (length [Fin 1; PInf]))
         ∧ length out = length [Fin 1; PInf].
Proof. by apply (CleanUp_total_on_samples (Fin (-3)) [Fin 1; PInf] true). Defined.

(** ** Dictionaries *)

Lemma dict_get_set_eq {A} (d : dict A) (k : string) (v : A) :
  dict_get (dict_set d k v) k = Some v.
Proof.
  induction d as [|[k' v'] d IH]; simpl.
  - by rewrite String.eqb_refl.
  - destruct (String.eqb k' k) eqn:E; simpl; by rewrite E.
Qed.

Lemma dict_get_set_ne {A} (d : dict A) (k k' : string) (v : A) :
  k ≠ k' → dict_get (dict_set d k v) k' = dict_get d k'.
Proof.
  intros Hne. induction d as [|[k0 v0] d IH]; simpl.
  - by apply String.eqb_neq in Hne as ->.
  - destruct (String.eqb k0 k) eqn:E; simpl; [|by rewrite IH].
    apply String.eqb_eq in E as ->. by apply String.eqb_neq in Hne as ->.
Qed.

Lemma dict_set_set {A} (d : dict A) (k : string) (v v' : A) :
  dict_set (dict_set d k v) k v' = dict_set d k v'.
Proof.
  induction d as [|[k0 v0] d IH]; simpl.
  - by rewrite String.eqb_refl.
  - destruct (String.eqb k0 k) eqn:E; simpl; rewrite E; [done|by rewrite IH].
Qed.

Lemma dict_set_id {A} (d : dict A) (k : string) (v : A) :
  dict_get d k = Some v → dict_set d k v = d.
Proof.
  induction d as [|[k0 v0] d IH]; simpl; [done|].
  destruct (String.eqb k0 k) eqn:E; [by intros [= ->]|].
  intros H. by rewrite IH.
Qed.

Lemma dict_get_keys {A} (d : dict A) (k : string) :
  k ∈ keys d ↔ is_Some (dict_get d k).
Proof.
  destruct (lookup_key_cases d k) as [(v & Hv & Hin)|[Hv Hin]];
    unfold lookup_key in Hv; destruct (dict_get d k); simplify_eq.
  - split; [eauto|done].
  - split; [done|]. by intros [? [=]].
Qed.

(** Stores of values that depend on the key only: the last state of a key is
    its value. *)
Lemma dict_get_fold_set {A} (f : string → A) (l : list string) (d : dict A)
    (k : string) :
  dict_get (fold_left (λ c sig, dict_set c sig (f sig)) l d) k
  = if bool_decide (k ∈ l) then Some (f k) else dict_get d k.
Proof.
  revert d. induction l as [|x l IH]; intros d; simpl; [done|].
  rewrite IH. destruct (decide (k = x)) as [->|Hne].
  - rewrite dict_get_set_eq, (bool_decide_eq_true_2 (x ∈ x :: l)) by by left.
    by case_bool_decide.
  - rewrite dict_get_set_ne by done.
    case_bool_decide as H1; case_bool_decide as H2; try done.
    + exfalso. apply H2. by right.
    + exfalso. apply elem_of_cons in H2 as [?|?]; done.
Qed.

(** ** Loops over the channels of a group *)

Lemma store_cal_run (group sig : string) (d t : list fl) (w : World)
    (inner : dict CalibratedChannel) :
  dict_get (calData (self w)) group = Some inner →
  store_cal group sig d t w
  = (Ok (), with_output
              (dict_set (calData (self w)) group
                 (dict_set inner sig {| data := d; time := t |}))
              (stdout w) w).
Proof.
  intros H. unfold store_cal. run_M. unfold lookup_key. by rewrite H.
Qed.

(** A loop whose passes each print what [msg] says and store what [ch] says
    under [group]: the stores add up in one dictionary, the messages in
    order. *)
Lemma for_in_stores (group : string) (ch : string → CalibratedChannel)
    (msg : string → list message) (body : string → M unit) (w0 : World)
    (l : list string) :
  (∀ sig w inner, sig ∈ l → inputs w = inputs w0 →
     dict_get (calData (self w)) group = Some inner →
     body sig w
     = (Ok (), with_output
                 (dict_set (calData (self w)) group (dict_set inner sig (ch sig)))
                 (stdout w ++ msg sig) w)) →
  ∀ w inner, inputs w = inputs w0 →
    dict_get (calData (self w)) group = Some inner →
    for_in l body w
    = (Ok (), with_output
                (dict_set (calData (self w)) group
                   (fold_left (λ c sig, dict_set c sig (ch sig)) l inner))
                (stdout w ++ concat (map msg l)) w).
Proof.
  induction l as [|x l IH]; intros Hbody w inner Hin Hget.
  - cbn [for_in fold_left map concat]. rewrite app_nil_r, dict_set_id by done.
    by destruct w as [? ? ? [] ?].
  - cbn [for_in]. run_M.
    rewrite (Hbody x w inner) by (done || by left).
    rewrite (IH (λ sig w' i H, Hbody sig w' i (list_elem_of_further _ _ _ H))
                _ (dict_set inner x (ch x))).
    + cbn [with_output calData self set_calData stdout fold_left map concat].
      rewrite dict_set_set, <- app_assoc. done.
    + by rewrite <- Hin.
    + cbn. apply dict_get_set_eq.
Qed.

Lemma CleanUp_usable (s : signal) :
  usable s → s ≠ NoData → ∃ clean, CleanUp s true = Ok clean.
Proof.
  destruct s as [|dx samples]; [done|]. intros Hne _.
  destruct (CleanUp_nonempty dx samples true Hne) as (out & H & _). eauto.
Qed.

(** One pass of [ProcFL] at a channel it gets through. *)
Lemma ProcFL_channel_run (w : World) (grp : dict signal) (sig : string)
    (inner : dict CalibratedChannel) :
  sig ∈ keys grp → usable (signal_of grp sig) →
  (signal_of grp sig ≠ NoData → is_Some (dict_get (calFile (self w)) sig)) →
  dict_get (calData (self w)) "FluxLoops" = Some inner →
  ProcFL_channel grp sig w
  = (Ok (), with_output
              (dict_set (calData (self w)) "FluxLoops"
                 (dict_set inner sig
                    (calibrated (factor_of (calFile (self w)) sig) (signal_of grp sig))))
              (stdout w ++ no_data_message sig (signal_of grp sig)) w).
Proof.
  intros Hin Hus Hcal Hget. apply dict_get_keys in Hin as [s Hs].
  unfold signal_of, factor_of, calibrated in *. rewrite Hs in *.
  unfold ProcFL_channel, cal_factor, store_cal, print. run_M.
  unfold lookup_key at 1. rewrite Hs.
  destruct s as [|dx samples].
  - cbn [CleanUp is_TypeError self calData]. unfold lookup_key. rewrite Hget.
    cbn [no_data_message fst snd]. by destruct w as [? ? ? [] ?].
  - destruct (CleanUp_usable (Wave dx samples)) as [[out times] Hc]; [done..|].
    destruct Hcal as [[k u] Hk]; [done|].
    rewrite Hc. unfold lookup_key. rewrite Hk, Hget.
    cbn [no_data_message fst snd]. rewrite app_nil_r.
    by destruct w as [? ? ? [] ?].
Qed.

(** [ProcFL] on an object it gets through, in full. *)
Lemma ProcFL_exact (w : World) (grp : dict signal)
    (inner : dict CalibratedChannel) :
  dict_get (raw (self w)) "FluxLoops" = Some grp →
  dict_get (calData (self w)) "FluxLoops" = Some inner →
  (∀ sig, sig ∈ keys grp →
     usable (signal_of grp sig)
     ∧ (signal_of grp sig ≠ NoData → is_Some (dict_get (calFile (self w)) sig))) →
  ProcFL w
  = (Ok (), with_output
              (dict_set (calData (self w)) "FluxLoops"
                 (fold_left
                    (λ c sig, dict_set c sig
                       (calibrated (factor_of (calFile (self w)) sig) (signal_of grp sig)))
                    (keys grp) inner))
              (stdout w ++ concat (map (λ sig, no_data_message sig (signal_of grp sig))
                                     (keys grp))) w).
Proof.
  intros Hraw Hget Hall.
  unfold ProcFL, raw_group. run_M. unfold lookup_key. rewrite Hraw.
  apply (for_in_stores "FluxLoops"
           (λ sig, calibrated (factor_of (calFile (self w)) sig) (signal_of grp sig))
           (λ sig, no_data_message sig (signal_of grp sig)) _ w);
    [|done|exact Hget].
  intros sig w1 inner1 Hin Hinp Hget1.
  assert (Hc : calFile (self w1) = calFile (self w)) by by injection Hinp.
  destruct (Hall sig Hin) as [Hus Hcal].
  rewrite <- Hc. apply ProcFL_channel_run; try done. by rewrite Hc.
Qed.

(** X5. When every flux loop of the object is either without data or has
    samples and a calibration entry, [ProcFL] raises nothing and changes only
    the calibrated data and the output: every flux loop ends with the
    conditioned signal times its factor (the empty channel when it had no
    data), the other groups are left alone, and one [no data for] message per
    loop without data is printed, in the order of the loops. *)
Theorem ProcFL_complete (w : World) (grp : dict signal)
    (inner : dict CalibratedChannel) :
  dict_get (raw (self w)) "FluxLoops" = Some grp →
  dict_get (calData (self w)) "FluxLoops" = Some inner →
  (∀ sig, sig ∈ keys grp →
     usable (signal_of grp sig)
     ∧ (signal_of grp sig ≠ NoData → is_Some (dict_get (calFile (self w)) sig))) →
  ∃ w',
    ProcFL w = (Ok (), w')
    ∧ inputs w' = inputs w
    ∧ stdout w'
      = stdout w ++ concat (map (λ sig, no_data_message sig (signal_of grp sig))
                              (keys grp))
    ∧ (∀ sig, sig ∈ keys grp →
         dict_get (get_or_empty (calData (self w')) "FluxLoops") sig
         = Some (calibrated (factor_of (calFile (self w)) sig) (signal_of grp sig)))
    ∧ (∀ g, g ≠ "FluxLoops" →
         dict_get (calData (self w')) g = dict_get (calData (self w)) g).
Proof.
  intros Hraw Hget Hall. eexists. split; [by apply (ProcFL_exact w grp inner)|].
  split; [done|]. split; [done|]. split.
  - intros sig Hin. cbn [with_output self set_calData calData].
    unfold get_or_empty. rewrite dict_get_set_eq, dict_get_fold_set.
    by rewrite bool_decide_eq_true_2.
  - intros g Hg. cbn [with_output self set_calData calData].
    by rewrite dict_get_set_ne.
Qed.

Lemma ProcFL_complete_witness :
  ∃ w',
    ProcFL (world_of das_conf_sample (λ _, None)
              (set_calFile [("CFL01", (Fin 2, "Wb"))] two_channels))
    = (Ok (), w')
    ∧ inputs w'
      = inputs (world_of das_conf_sample (λ _, None)
                  (set_calFile [("CFL01", (Fin 2, "Wb"))] two_channels))
    ∧ stdout w'
      = [] ++ concat (map (λ sig, no_data_message sig
                                    (signal_of (get_or_empty (raw two_channels) "FluxLoops") sig))
                        (keys (get_or_empty (raw two_channels) "FluxLoops")))
    ∧ (∀ sig, sig ∈ keys (get_or_empty (raw two_channels) "FluxLoops") →
         dict_get (get_or_empty (calData (self w')) "FluxLoops") sig
         = Some (calibrated (factor_of [("CFL01", (Fin 2, "Wb"))] sig)
                   (signal_of (get_or_empty (raw two_channels) "FluxLoops") sig)))
    ∧ (∀ g, g ≠ "FluxLoops" →
         dict_get (calData (self w')) g
         = dict_get (calData (set_calFile [("CFL01", (Fin 2, "Wb"))] two_channels)) g).
Proof.
  apply (ProcFL_complete
           (world_of das_conf_sample (λ _, None)
              (set_calFile [("CFL01", (Fin 2, "Wb"))] two_channels))
           (get_or_empty (raw two_channels) "FluxLoops") []).
  - reflexivity.
  - reflexivity.
  - intros sig Hin. apply list_elem_of_In in Hin. simpl in Hin.
    destruct Hin as [<-|[<-|[]]].
    + split; [discriminate|]. intros _. by eexists.
    + split; [exact I|]. intros H. by destruct H.
Defined.

(** One pass of [ProcBdot] at a channel it gets through. *)
Lemma ProcBdot_channel_run (w : World) (grp : dict signal) (sig : string)
    (inner : dict CalibratedChannel) :
  sig ∈ keys grp → usable (signal_of grp sig) →
  (signal_of grp sig ≠ NoData →
     sig ∈ keys BdotNA ∧ is_Some (dict_get (calFile (self w)) sig)) →
  dict_get (calData (self w)) "BDots" = Some inner →
  ProcBdot_channel BdotNA grp sig w
  = (Ok (), with_output
              (dict_set (calData (self w)) "BDots"
                 (dict_set inner sig
                    (calibrated (fmul (na_of sig) (factor_of (calFile (self w)) sig))
                       (signal_of grp sig))))
              (stdout w ++ no_data_message sig (signal_of grp sig)) w).
Proof.
  intros Hin Hus Hcal Hget. apply dict_get_keys in Hin as [s Hs].
  unfold signal_of, factor_of, na_of, calibrated in *. rewrite Hs in *.
  unfold ProcBdot_channel, cal_factor, store_cal, print. run_M.
  unfold lookup_key at 1. rewrite Hs.
  destruct s as [|dx samples].
  - cbn [CleanUp is_TypeError self calData]. unfold lookup_key. rewrite Hget.
    cbn [no_data_message fst snd]. by destruct w as [? ? ? [] ?].
  - destruct (CleanUp_usable (Wave dx samples)) as [[out times] Hc]; [done..|].
    destruct Hcal as [Hna [[k u] Hk]]; [done|].
    apply dict_get_keys in Hna as [na Hna].
    rewrite Hc. unfold lookup_key. rewrite Hna, Hk, Hget.
    cbn [no_data_message fst snd]. rewrite app_nil_r.
    by destruct w as [? ? ? [] ?].
Qed.

(** [ProcBdot] on an object it gets through, in full. *)
Lemma ProcBdot_exact (w : World) (grp : dict signal)
    (inner : dict CalibratedChannel) :
  dict_get (raw (self w)) "BDots" = Some grp →
  dict_get (calData (self w)) "BDots" = Some inner →
  (∀ sig, sig ∈ keys grp →
     usable (signal_of grp sig)
     ∧ (signal_of grp sig ≠ NoData →
          sig ∈ keys BdotNA ∧ is_Some (dict_get (calFile (self w)) sig))) →
  ProcBdot w
  = (Ok (), with_output
              (dict_set (calData (self w)) "BDots"
                 (fold_left
                    (λ c sig, dict_set c sig
                       (calibrated (fmul (na_of sig) (factor_of (calFile (self w)) sig))
                          (signal_of grp sig)))
                    (keys grp) inner))
              (stdout w ++ concat (map (λ sig, no_data_message sig (signal_of grp sig))
                                     (keys grp))) w).
Proof.
  intros Hraw Hget Hall.
  unfold ProcBdot, raw_group. run_M. unfold lookup_key. rewrite Hraw.
  apply (for_in_stores "BDots"
           (λ sig, calibrated (fmul (na_of sig) (factor_of (calFile (self w)) sig))
                     (signal_of grp sig))
           (λ sig, no_data_message sig (signal_of grp sig)) _ w);
    [|done|exact Hget].
  intros sig w1 inner1 Hin Hinp Hget1.
  assert (Hc : calFile (self w1) = calFile (self w)) by by injection Hinp.
  destruct (Hall sig Hin) as [Hus Hcal].
  rewrite <- Hc. apply ProcBdot_channel_run; try done. by rewrite Hc.
Qed.

(** X6. When every B-dot coil of the object is either without data or has
    samples, an entry in the table of [BdotNA] and a calibration entry,
    [ProcBdot] raises nothing and changes only the calibrated data and the
    output: every coil ends with the conditioned signal times the product of
    its table value and its factor (the empty channel when it had no data),
    the other groups are left alone, and one [no data for] message per coil
    without data is printed, in the order of the coils. *)
Theorem ProcBdot_complete (w : World) (grp : dict signal)
    (inner : dict CalibratedChannel) :
  dict_get (raw (self w)) "BDots" = Some grp →
  dict_get (calData (self w)) "BDots" = Some inner →
  (∀ sig, sig ∈ keys grp →
     usable (signal_of grp sig)
     ∧ (signal_of grp sig ≠ NoData →
          sig ∈ keys BdotNA ∧ is_Some (dict_get (calFile (self w)) sig))) →
  ∃ w',
    ProcBdot w = (Ok (), w')
    ∧ inputs w' = inputs w
    ∧ stdout w'
      = stdout w ++ concat (map (λ sig, no_data_message sig (signal_of grp sig))
                              (keys grp))
    ∧ (∀ sig, sig ∈ keys grp →
         dict_get (get_or_empty (calData (self w')) "BDots") sig
         = Some (calibrated (fmul (na_of sig) (factor_of (calFile (self w)) sig))
                   (signal_of grp sig)))
    ∧ (∀ g, g ≠ "BDots" →
         dict_get (calData (self w')) g = dict_get (calData (self w)) g).
Proof.
  intros Hraw Hget Hall. eexists. split; [by apply (ProcBdot_exact w grp inner)|].
  split; [done|]. split; [done|]. split.
  - intros sig Hin. cbn [with_output self set_calData calData].
    unfold get_or_empty. rewrite dict_get_set_eq, dict_get_fold_set.
    by rewrite bool_decide_eq_true_2.
  - intros g Hg. cbn [with_output self set_calData calData].
    by rewrite dict_get_set_ne.
Qed.

Lemma ProcBdot_complete_witness :
  ∃ w',
    ProcBdot (world_of das_conf_sample (λ _, None)
                (set_calFile [("PDX01", (Fin 2, "T"))] two_channels))
    = (Ok (), w')
    ∧ inputs w'
      = inputs (world_of das_conf_sample (λ _, None)
                  (set_calFile [("PDX01", (Fin 2, "T"))] two_channels))
    ∧ stdout w'
      = [] ++ concat (map (λ sig, no_data_message sig
                                    (signal_of (get_or_empty (raw two_channels) "BDots") sig))
                        (keys (get_or_empty (raw two_channels) "BDots")))
    ∧ (∀ sig, sig ∈ keys (get_or_empty (raw two_channels) "BDots") →
         dict_get (get_or_empty (calData (self w')) "BDots") sig
         = Some (calibrated (fmul (na_of sig) (factor_of [("PDX01", (Fin 2, "T"))] sig))
                   (signal_of (get_or_empty (raw two_channels) "BDots") sig)))
    ∧ (∀ g, g ≠ "BDots" →
         dict_get (calData (self w')) g
         = dict_get (calData (set_calFile [("PDX01", (Fin 2, "T"))] two_channels)) g).
Proof.
  apply (ProcBdot_complete
           (world_of das_conf_sample (λ _, None)
              (set_calFile [("PDX01", (Fin 2, "T"))] two_channels))
           (get_or_empty (raw two_channels) "BDots") []).
  - reflexivity.
  - reflexivity.
  - intros sig Hin. apply list_elem_of_In in Hin. simpl in Hin.
    destruct Hin as [<-|[<-|[]]].
    + split; [discriminate|]. intros _. split; [|by eexists].
      apply dict_get_keys. by eexists.
    + split; [exact I|]. intros H. by destruct H.
Defined.

(** ** CalcIp and TestPlot *)

Lemma CalcIp_run (w : World) (currents : dict signal) (s : signal)
    (out times : list fl) (k : fl) (unit : string)
    (inner : dict CalibratedChannel) :
  dict_get (raw (self w)) "Currents" = Some currents →
  dict_get currents "PlasmaRogB" = Some s →
  CleanUp s true = Ok (out, times) →
  dict_get (calFile (self w)) "PlasmaRogB" = Some (k, unit) →
  dict_get (calData (self w)) "Currents" = Some inner →
  CalcIp w
  = (Ok (), with_output
              (dict_set (calData (self w)) "Currents"
                 (dict_set inner "Ip" {| data := scale k out; time := times |}))
              (stdout w) w).
Proof.
  intros Hraw Hsig Hc Hk Hget.
  unfold CalcIp, raw_group, cal_factor, store_cal. run_M.
  unfold lookup_key. by rewrite Hraw, Hsig, Hc, Hk, Hget.
Qed.

Lemma TestPlot_run (w : World) (currents : dict CalibratedChannel)
    (ip : CalibratedChannel) :
  dict_get (calData (self w)) "Currents" = Some currents →
  dict_get currents "Ip" = Some ip →
  TestPlot w
  = (Ok (), with_output (calData (self w)) (stdout w ++ [Plot (time ip) (data ip)]) w).
Proof.
  intros Hc Hip. unfold TestPlot, print. run_M. unfold lookup_key.
  rewrite Hc, Hip. by destruct w as [? ? ? [] ?].
Qed.

(** X7. When the object holds samples for PlasmaRogB and a calibration entry
    for it, [CalcIp] raises nothing and stores under Currents/Ip the
    conditioned, integrated signal times the factor, changing nothing else;
    [TestPlot] run after it plots exactly that channel, time against data. *)
Theorem CalcIp_then_TestPlot (w : World) (currents : dict signal)
    (dx : fl) (samples : list fl) (k : fl) (unit : string)
    (inner : dict CalibratedChannel) :
  dict_get (raw (self w)) "Currents" = Some currents →
  dict_get currents "PlasmaRogB" = Some (Wave dx samples) →
  samples ≠ [] →
  dict_get (calFile (self w)) "PlasmaRogB" = Some (k, unit) →
  dict_get (calData (self w)) "Currents" = Some inner →
  ∃ out,
    CleanUp (Wave dx samples) true
    = Ok (out, arange_scaled dx (length samples))
    ∧ CalcIp w
      = (Ok (), with_output
                  (dict_set (calData (self w)) "Currents"
                     (dict_set inner "Ip"
                        {| data := scale k out;
                           time := arange_scaled dx (length samples) |}))
                  (stdout w) w)
    ∧ (_ ← CalcIp; TestPlot) w
      = (Ok (), with_output
                  (dict_set (calData (self w)) "Currents"
                     (dict_set inner "Ip"
                        {| data := scale k out;
                           time := arange_scaled dx (length samples) |}))
                  (stdout w ++ [Plot (arange_scaled dx (length samples))
                                     (scale k out)]) w).
Proof.
  intros Hraw Hsig Hne Hk Hget.
  destruct (CleanUp_nonempty dx samples true Hne) as (out & Hc & _).
  exists out. split; [done|].
  pose proof (CalcIp_run w currents _ _ _ k unit inner Hraw Hsig Hc Hk Hget) as Hcalc.
  split; [done|]. rewrite bind_run, Hcalc.
  rewrite (TestPlot_run _
             (dict_set inner "Ip"
                {| data := scale k out;
                   time := arange_scaled dx (length samples) |})
             {| data := scale k out;
                time := arange_scaled dx (length samples) |}).
  - done.
  - cbn [with_output self set_calData calData]. apply dict_get_set_eq.
  - apply dict_get_set_eq.
Qed.

Lemma CalcIp_then_TestPlot_witness :
  ∃ out,
    CleanUp (Wave (Fin (2 # 10000)) (map Fin [5; 7; 5; 9; 5; 11]%Q)) true
    = Ok (out, arange_scaled (Fin (2 # 10000)) (length (map Fin [5; 7; 5; 9; 5; 11]%Q)))
    ∧ CalcIp (world_before_CalcIp das_conf_sample (λ _, Some a_wave) 12345)
      = (Ok (), with_output
                  (dict_set
                     (calData (self (world_before_CalcIp das_conf_sample
                                       (λ _, Some a_wave) 12345)))
                     "Currents"
                     (dict_set [] "Ip"
                        {| data := scale (Fin 1500000) out;
                           time := arange_scaled (Fin (2 # 10000))
                                     (length (map Fin [5; 7; 5; 9; 5; 11]%Q)) |}))
                  (stdout (world_before_CalcIp das_conf_sample (λ _, Some a_wave) 12345))
                  (world_before_CalcIp das_conf_sample (λ _, Some a_wave) 12345))
    ∧ (_ ← CalcIp; TestPlot)
        (world_before_CalcIp das_conf_sample (λ _, Some a_wave) 12345)
      = (Ok (), with_output
                  (dict_set
                     (calData (self (world_before_CalcIp das_conf_sample
                                       (λ _, Some a_wave) 12345)))
                     "Currents"
                     (dict_set [] "Ip"
                        {| data := scale (Fin 1500000) out;
                           time := arange_scaled (Fin (2 # 10000))
                                     (length (map Fin [5; 7; 5; 9; 5; 11]%Q)) |}))
                  (stdout (world_before_CalcIp das_conf_sample (λ _, Some a_wave) 12345)
                   ++ [Plot (arange_scaled (Fin (2 # 10000))
                               (length (map Fin [5; 7; 5; 9; 5; 11]%Q)))
                            (scale (Fin 1500000) out)])
                  (world_before_CalcIp das_conf_sample (λ _, Some a_wave) 12345)).
Proof.
  apply (CalcIp_then_TestPlot
           (world_before_CalcIp das_conf_sample (λ _, Some a_wave) 12345)
           (get_or_empty
              (raw (self (world_before_CalcIp das_conf_sample (λ _, Some a_wave) 12345)))
              "Currents")
           (Fin (2 # 10000)) (map Fin [5; 7; 5; 9; 5; 11]%Q) (Fin 1500000) "A" []).
  - vm_compute. reflexivity.
  - vm_compute. reflexivity.
  - discriminate.
  - vm_compute. reflexivity.
  - vm_compute. reflexivity.
Defined.

(** ** A factor of one *)

Lemma scale_one (a : list fl) : Forall lowest a → scale (Fin 1) a = a.
Proof.
  induction 1 as [|x a Hx _ IH]; [done|]. cbn [scale map]. fold (scale (Fin 1) a).
  rewrite IH. f_equal. destruct x as [q| | |]; try done.
  cbn [fmul]. simpl in Hx. rewrite <- Hx at 2. f_equal. apply Qred_complete. ring.
Qed.

Lemma CleanUp_lowest (s : signal) (intFlag : bool) (out times : list fl) :
  CleanUp s intFlag = Ok (out, times) → Forall lowest out.
Proof.
  destruct s as [|dx samples]; [done|]. destruct samples as [|x samples].
  - destruct intFlag; [done|]. by intros [= <- <-].
  - destruct (CleanUp_nonempty dx (x :: samples) intFlag) as (o & Ho & _ & Hlo);
      [done|]. rewrite Ho. by intros [= <- <-].
Qed.

(** X8. A flux loop whose calibration factor is 1 is stored exactly as
    [CleanUp] returns it: values and time axis unchanged. *)
Theorem ProcFL_unit_factor (w : World) (grp : dict signal) (sig : string)
    (s : signal) (out times : list fl) (unit : string) :
  dict_get grp sig = Some s →
  CleanUp s true = Ok (out, times) →
  dict_get (calFile (self w)) sig = Some (Fin 1, unit) →
  ProcFL_channel grp sig w = store_cal "FluxLoops" sig out times w.
Proof.
  intros Hs Hc Hk. unfold ProcFL_channel, cal_factor. run_M.
  unfold lookup_key at 1. rewrite Hs, Hc. unfold lookup_key at 1. rewrite Hk.
  cbn [fst snd]. by rewrite (scale_one out (CleanUp_lowest _ _ _ _ Hc)).
Qed.

Lemma ProcFL_unit_factor_witness :
  ProcFL_channel (get_or_empty (raw two_channels) "FluxLoops") "CFL01"
    (world_of [] (λ _, None) (set_calFile [("CFL01", (Fin 1, "Wb"))] two_channels))
  = store_cal "FluxLoops" "CFL01"
      [Fin 0; Fin (-1 # 6250); Fin (-1 # 3125); Fin (-7 # 25000); Fin (-3 # 12500); Fin 0]
      [Fin 0; Fin (1 # 5000); Fin (1 # 2500); Fin (3 # 5000); Fin (1 # 1250); Fin (1 # 1000)]
      (world_of [] (λ _, None) (set_calFile [("CFL01", (Fin 1, "Wb"))] two_channels)).
Proof.
  apply (ProcFL_unit_factor _ (get_or_empty (raw two_channels) "FluxLoops") "CFL01"
           (Wave (Fin (2 # 10000)) (map Fin [5; 7; 5; 9; 5; 11]%Q)) _ _ "Wb").
  - reflexivity.
  - vm_compute. reflexivity.
  - reflexivity.
Defined.

(** ** LoadCalData block by block *)

Lemma for_in_ext {A} (l : list A) (f g : A → M unit) (w : World) :
  (∀ x w', x ∈ l → f x w' = g x w') → for_in l f w = for_in l g w.
Proof.
  revert w. induction l as [|x l IH]; intros w H; [done|].
  cbn [for_in]. run_M. rewrite (H x w) by by left.
  destruct (g x w) as [[[]|e] w']; [|done].
  apply IH. intros y w'' Hy. apply H. by right.
Qed.

Lemma for_in_map {A B} (h : A → B) (l : list A) (body : B → M unit) (w : World) :
  for_in (map h l) body w = for_in l (λ x, body (h x)) w.
Proof.
  revert w. induction l as [|x l IH]; intros w; [done|].
  cbn [map for_in]. run_M. destruct (body (h x) w) as [[[]|e] w']; [|done].
  apply IH.
Qed.

(** [l[start::step]] entry by entry. *)
Lemma lookup_stride_go {A} (l : list A) (wait p i : nat) :
  stride_go wait (S p) l !! i = l !! (wait + S p * i)%nat.
Proof.
  revert wait i. induction l as [|x l IH]; intros wait i; [done|].
  destruct wait as [|wait]; cbn [stride_go].
  - destruct i as [|i]; [by rewrite Nat.mul_0_r|].
    replace (S p - 1)%nat with p by lia. cbn [lookup list_lookup]. rewrite IH.
    replace (0 + S p * S i)%nat with (S (p + S p * i)) by lia. done.
  - rewrite IH. done.
Qed.

Lemma lookup_slice_step {A} (l : list A) (start i : nat) :
  slice_step start 7 l !! i = l !! (7 * i + start)%nat.
Proof. unfold slice_step. rewrite lookup_stride_go. f_equal. lia. Qed.

Lemma length_slice_step_0 {A} (l : list A) :
  length (slice_step 0 7 l) = ((length l + 6) / 7)%nat.
Proof.
  assert (H : ∀ i, (i < length (slice_step 0 7 l))%nat ↔ (7 * i < length l)%nat).
  { intros i. rewrite <- !lookup_lt_is_Some, lookup_slice_step.
    by rewrite Nat.add_0_r. }
  pose proof (H (length (slice_step 0 7 l))) as H1.
  pose proof (H ((length l + 6) / 7)%nat) as H2.
  pose proof (H (pred (length (slice_step 0 7 l)))) as H3.
  pose proof (Nat.div_mod_eq (length l + 6) 7) as Hd.
  pose proof (Nat.mod_upper_bound (length l + 6) 7) as Hm.
  lia.
Qed.

Lemma getitem_block {A} (l : list A) (i k : nat) :
  (k < 7)%nat → getitem (take 7 (drop (7 * i) l)) k = getitem l (7 * i + k).
Proof. intros Hk. unfold getitem. by rewrite lookup_take_lt, lookup_drop. Qed.

Lemma getitem_slice_step {A} (l : list A) (start i : nat) :
  getitem (slice_step start 7 l) i = getitem l (7 * i + start).
Proof. unfold getitem. by rewrite lookup_slice_step. Qed.

Lemma LoadCalData_blocks (w : World) :
  LoadCalData w
  = (DataPath ← get_self DataPath;
     lines ← readlines (DataPath ++ ["DAS.conf"]);
     for_in (blocks_of (drop 64 lines)) store_block) w.
Proof.
  unfold LoadCalData. run_M. destruct (readlines _ w) as [[lines|e] w']; [|done].
  unfold blocks_of. rewrite for_in_map, length_slice_step_0.
  apply for_in_ext. intros i w1 _. unfold store_block. run_M.
  unfold cal_entry, block_entry.
  by rewrite !getitem_slice_step, !getitem_block, Nat.add_0_r by lia.
Qed.

(** X9. [LoadCalData] reads the lines behind the 64-line header as consecutive
    blocks of 7 lines: its three strided slices stay aligned, so that pass [i]
    of its loop takes name, unit and factor from block [i] alone, and the load
    is the blocks' entries stored one after the other, up to the first block
    that has no entry. *)
Theorem LoadCalData_by_blocks (w : World) :
  LoadCalData w
  = (DataPath ← get_self DataPath;
     lines ← readlines (DataPath ++ ["DAS.conf"]);
     for_in (blocks_of (drop 64 lines)) store_block) w.
Proof.
  unfold LoadCalData. run_M. destruct (readlines _ w) as [[lines|e] w']; [|done].
  unfold blocks_of. rewrite for_in_map, length_slice_step_0.
  apply for_in_ext. intros i w1 _. unfold store_block. run_M.
  unfold cal_entry, block_entry.
  by rewrite !getitem_slice_step, !getitem_block, Nat.add_0_r by lia.
Qed.

Lemma store_block_run (b : list string) (w : World) :
  store_block b w
  = match block_entry b with
    | Ok e => (Ok (), with_calFile (dict_set (calFile (self w)) (fst e) (snd e)) w)
    | Raise e => (Raise e, w)
    end.
Proof. unfold store_block. run_M. by destruct (block_entry b). Qed.

Lemma for_in_store_blocks (bs : list (list string)) (w : World) :
  match block_entries bs with
  | Ok entries =>
      for_in bs store_block w
      = (Ok (), with_calFile
                  (fold_left (λ c e, dict_set c (fst e) (snd e)) entries
                     (calFile (self w))) w)
  | Raise e => fst (for_in bs store_block w) = Raise e
  end.
Proof.
  revert w. induction bs as [|b bs IH]; intros w.
  - cbn. by destruct w as [? ? ? [] ?].
  - cbn [block_entries for_in]. run_M. rewrite store_block_run.
    destruct (block_entry b) as [e|err]; [|done]. cbn [mbind result_bind].
    specialize (IH (with_calFile (dict_set (calFile (self w)) (fst e) (snd e)) w)).
    destruct (block_entries bs) as [es|err]; [|done].
    cbn [mbind result_bind fold_left]. by rewrite IH.
Qed.

(** The dictionary after a run of stores: a key holds the value of its last
    store. *)
Lemma dict_get_fold_entries {A} (entries : dict A) (d : dict A) (k : string) :
  dict_get (fold_left (λ c e, dict_set c (fst e) (snd e)) entries d) k
  = match dict_get (rev entries) k with
    | Some v => Some v
    | None => dict_get d k
    end.
Proof.
  induction entries as [|[k' v] entries IH] using rev_ind; [done|].
  rewrite fold_left_app, rev_unit. cbn [fold_left fst snd dict_get].
  destruct (String.eqb k' k) eqn:E.
  - apply String.eqb_eq in E as ->. apply dict_get_set_eq.
  - apply String.eqb_neq in E. by rewrite dict_get_set_ne.
Qed.

Lemma LoadCalData_outcome (w : World) (lines : list string) :
  text_files w (DataPath (self w) ++ ["DAS.conf"]) = Some lines →
  match block_entries (blocks_of (drop 64 lines)) with
  | Ok entries =>
      ∃ c, LoadCalData w = (Ok (), with_calFile c w)
           ∧ ∀ name, dict_get c name
                     = match dict_get (rev entries) name with
                       | Some e => Some e
                       | None => dict_get (calFile (self w)) name
                       end
  | Raise e => fst (LoadCalData w) = Raise e
  end.
Proof.
  intros Hfile. rewrite LoadCalData_blocks. unfold readlines. run_M.
  rewrite Hfile.
  pose proof (for_in_store_blocks (blocks_of (drop 64 lines)) w) as H.
  destruct (block_entries _) as [entries|e]; [|done].
  eexists. split; [exact H|]. intros name. apply dict_get_fold_entries.
Qed.

(** X10. On a calibration file, [LoadCalData] succeeds exactly when every
    block behind the header has an entry. It then changes the calibration
    dictionary only, in which a name ends with the factor and unit of the last
    block that carries it and every other name keeps what it had; otherwise it
    raises what the first failing block raises. *)
Theorem LoadCalData_entries (w : World) (lines : list string) :
  text_files w (DataPath (self w) ++ ["DAS.conf"]) = Some lines →
  match block_entries (blocks_of (drop 64 lines)) with
  | Ok entries =>
      ∃ c, LoadCalData w = (Ok (), with_calFile c w)
           ∧ ∀ name, dict_get c name
                     = match dict_get (rev entries) name with
                       | Some e => Some e
                       | None => dict_get (calFile (self w)) name
                       end
  | Raise e => fst (LoadCalData w) = Raise e
  end.
Proof.
  intros Hfile. rewrite LoadCalData_blocks. unfold readlines. run_M.
  rewrite Hfile.
  pose proof (for_in_store_blocks (blocks_of (drop 64 lines)) w) as H.
  destruct (block_entries _) as [entries|e]; [|done].
  eexists. split; [exact H|]. intros name. apply dict_get_fold_entries.
Qed.

Lemma LoadCalData_entries_witness :
  match block_entries (blocks_of (drop 64 das_conf_sample)) with
  | Ok entries =>
      ∃ c, LoadCalData (world_of das_conf_sample (λ _, None) (init 12345))
           = (Ok (), with_calFile c (world_of das_conf_sample (λ _, None) (init 12345)))
           ∧ ∀ name, dict_get c name
                     = match dict_get (rev entries) name with
                       | Some e => Some e
                       | None => dict_get (calFile (init 12345)) name
                       end
  | Raise e =>
      fst (LoadCalData (world_of das_conf_sample (λ _, None) (init 12345))) = Raise e
  end.
Proof.
  apply (LoadCalData_entries (world_of das_conf_sample (λ _, None) (init 12345))
           das_conf_sample).
  reflexivity.
Defined.

Lemma block_entries_raises (bs : list (list string)) (b : list string) (e : exn) :
  b ∈ bs → block_entry b = Raise e → ∃ e', block_entries bs = Raise e'.
Proof.
  intros Hin Hb. induction bs as [|b' bs IH]; [by apply elem_of_nil in Hin|].
  cbn [block_entries]. destruct (block_entry b') as [e0|e0] eqn:E0; [|by eexists].
  apply elem_of_cons in Hin as [->|Hin]; [congruence|].
  destruct (IH Hin) as [e' ->]. by eexists.
Qed.

Lemma block_entry_short (b : list string) :
  (length b ≤ 4)%nat → block_entry b = Raise IndexError.
Proof.
  intros H. pose proof (lookup_ge_None_2 b 4 H) as H4.
  unfold block_entry, getitem. by rewrite H4.
Qed.

(** X11. The edges of [LoadCalData]. Without the file it raises
    FileNotFoundError; on a file of at most 64 lines it stores nothing and
    raises nothing; in both cases the object is as it was. On a file whose
    last block has only 1 to 4 lines it raises: the load fails rather than
    storing a block without its factor line. *)
Theorem LoadCalData_edges (w : World) :
  (text_files w (DataPath (self w) ++ ["DAS.conf"]) = None →
     LoadCalData w = (Raise FileNotFoundError, w))
  ∧ (∀ lines, text_files w (DataPath (self w) ++ ["DAS.conf"]) = Some lines →
       (length lines ≤ 64)%nat → LoadCalData w = (Ok (), w))
  ∧ (∀ lines, text_files w (DataPath (self w) ++ ["DAS.conf"]) = Some lines →
       (1 ≤ (length lines - 64) mod 7 ≤ 4)%nat →
       ∃ e, fst (LoadCalData w) = Raise e).
Proof.
  split; [|split].
  - intros H. unfold LoadCalData, readlines. run_M. by rewrite H.
  - intros lines H Hlen. rewrite LoadCalData_blocks. unfold readlines. run_M.
    rewrite H, drop_ge by done. done.
  - intros lines H Hr. pose proof (LoadCalData_outcome w lines H) as Hload.
    set (l := drop 64 lines) in *.
    assert (Hl : length l = (length lines - 64)%nat) by apply length_drop.
    rewrite <- Hl in Hr.
    set (N := ((length l + 6) / 7)%nat).
    pose proof (Nat.div_mod_eq (length l + 6) 7) as Hd.
    pose proof (Nat.mod_upper_bound (length l + 6) 7) as Hm.
    pose proof (Nat.div_mod_eq (length l) 7) as Hd'.
    assert (HN : (7 * (N - 1) + (length l) mod 7 = length l ∧ 1 ≤ N)%nat)
      by (unfold N; lia).
    destruct (block_entries_raises (blocks_of l)
                (take 7 (drop (7 * (N - 1)) l)) IndexError) as [e He].
    + unfold blocks_of. apply list_elem_of_fmap. exists (N - 1)%nat.
      split; [done|]. apply list_elem_of_lookup. exists (N - 1)%nat.
      apply lookup_seq. fold N. lia.
    + apply block_entry_short. rewrite length_take, length_drop. lia.
    + exists e. by rewrite He in Hload.
Qed.

(** ** getFolderPath *)

Lemma length_append (s1 s2 : string) :
  String.length (s1 +:+ s2) = (String.length s1 + String.length s2)%nat.
Proof. induction s1 as [|c s1 IH]; simpl; [done|]. by rewrite IH. Qed.

Lemma length_substring (n m : nat) (s : string) :
  String.length (substring n m s) = Nat.min m (String.length s - n).
Proof.
  revert n m. induction s as [|c s IH]; intros n m.
  - destruct n, m; simpl; lia.
  - destruct n as [|n]; [destruct m as [|m]|]; simpl; [done| |].
    + rewrite IH. lia.
    + by rewrite IH.
Qed.

Lemma getFolderPath_run (w : World) (root : path) :
  dict_get PathDict (machine w) = Some root →
  getFolderPath w
  = set_self (set_DataPath (root ++ folder_names (shotnum (self w)))) w.
Proof. intros Hroot. unfold getFolderPath. run_M. unfold lookup_key. by rewrite Hroot. Qed.

(** X12. On one of the three known platforms, for a shot number whose decimal
    string has 4 to 6 characters, [getFolderPath] raises nothing and sets
    DataPath to the platform's root followed by three folders: the string,
    left-padded with zeros to 6 characters, gives its first two characters
    followed by [0000], its next two followed by [00], and [T] followed by
    the whole of it -- names of 6, 4 and 7 characters. *)
Theorem getFolderPath_folders (w : World) (root : path) :
  dict_get PathDict (machine w) = Some root →
  (4 ≤ String.length (py_str (shotnum (self w))) ≤ 6)%nat →
  ∃ shotstr pad,
    shotstr = pad +:+ py_str (shotnum (self w))
    ∧ pad ∈ ["00"; "0"; ""]
    ∧ String.length shotstr = 6%nat
    ∧ getFolderPath w
      = set_self (set_DataPath
                    (root ++ [substring 0 2 shotstr +:+ "0000";
                              substring 2 2 shotstr +:+ "00";
                              "T" +:+ shotstr])) w
    ∧ String.length (substring 0 2 shotstr +:+ "0000") = 6%nat
    ∧ String.length (substring 2 2 shotstr +:+ "00") = 4%nat
    ∧ String.length ("T" +:+ shotstr) = 7%nat.
Proof.
  intros Hroot Hlen.
  pose proof (getFolderPath_run w root Hroot) as Hrun.
  assert (∃ pad, shotstr_of (shotnum (self w)) = pad +:+ py_str (shotnum (self w))
                 ∧ pad ∈ ["00"; "0"; ""]
                 ∧ String.length (shotstr_of (shotnum (self w))) = 6%nat)
    as (pad & Hpad & Hin & Hsix).
  { unfold shotstr_of.
    destruct (String.length (py_str (shotnum (self w))) =? 4)%nat eqn:E4;
      [|destruct (String.length (py_str (shotnum (self w))) =? 5)%nat eqn:E5].
    - apply Nat.eqb_eq in E4. exists "00". split; [done|].
      split; [by left|]. rewrite length_append, E4. done.
    - apply Nat.eqb_eq in E5. exists "0". split; [done|].
      split; [right; by left|]. rewrite length_append, E5. done.
    - apply Nat.eqb_neq in E4, E5. exists "". split; [done|].
      split; [right; right; by left|]. lia. }
  exists (shotstr_of (shotnum (self w))), pad.
  split; [done|]. split; [done|]. split; [done|]. split; [exact Hrun|].
  rewrite !length_append, !length_substring, Hsix. done.
Qed.

Lemma getFolderPath_folders_witness :
  ∃ shotstr pad,
    shotstr = pad +:+ py_str 1234
    ∧ pad ∈ ["00"; "0"; ""]
    ∧ String.length shotstr = 6%nat
    ∧ getFolderPath (world_of [] (λ _, None) (init 1234))
      = set_self (set_DataPath
                    (["/mnt"; "Pegasus_Data_Archive"; "p3data"]
                     ++ [substring 0 2 shotstr +:+ "0000";
                         substring 2 2 shotstr +:+ "00";
                         "T" +:+ shotstr]))
          (world_of [] (λ _, None) (init 1234))
    ∧ String.length (substring 0 2 shotstr +:+ "0000") = 6%nat
    ∧ String.length (substring 2 2 shotstr +:+ "00") = 4%nat
    ∧ String.length ("T" +:+ shotstr) = 7%nat.
Proof.
  apply (getFolderPath_folders (world_of [] (λ _, None) (init 1234))
           ["/mnt"; "Pegasus_Data_Archive"; "p3data"]).
  - reflexivity.
  - vm_compute. lia.
Defined.

(** ** LoadRaw *)

Lemma IgorLoad_quiet_run (w : World) (sig : string) :
  headers_readable w →
  IgorLoad sig (DataPath (self w)) true w
  = (Ok (loaded (wave_file_of w sig)),
     with_raw (raw (self w)) (stdout w ++ not_loaded_message sig (wave_file_of w sig)) w).
Proof.
  intros Hh. unfold IgorLoad, binarywave_load, print, wave_file_of, loaded. run_M.
  destruct (wave_files w _) as [d|] eqn:E.
  - destruct (Hh _ _ E) as [x ->]. cbn [not_loaded_message]. rewrite app_nil_r.
    by destruct w as [? ? ? [] ?].
  - cbn [is_FileNotFoundError not_loaded_message]. by destruct w as [? ? ? [] ?].
Qed.

Lemma store_raw_run (group sig : string) (v : signal) (w : World)
    (inner : dict signal) :
  dict_get (raw (self w)) group = Some inner →
  store_raw group sig v w
  = (Ok (), with_raw (dict_set (raw (self w)) group (dict_set inner sig v))
              (stdout w) w).
Proof.
  intros H. unfold store_raw. run_M. unfold lookup_key. by rewrite H.
Qed.

(** The loop of [LoadRaw] over the names of one group. *)
Lemma LoadRaw_group (w0 : World) (group : string) (names : list string) :
  headers_readable w0 →
  ∀ w inner, inputs_of_load w = inputs_of_load w0 →
    dict_get (raw (self w)) group = Some inner →
    for_in names (λ sig, v ← IgorLoad sig (DataPath (self w0)) true;
                         store_raw group sig v) w
    = (Ok (), with_raw
                (dict_set (raw (self w)) group
                   (fold_left (λ c sig, dict_set c sig (loaded (wave_file_of w0 sig)))
                      names inner))
                (stdout w ++ concat (map (λ sig, not_loaded_message sig (wave_file_of w0 sig))
                                       names)) w).
Proof.
  intros Hh. induction names as [|x names IH]; intros w inner Hin Hget.
  - cbn [for_in fold_left map concat]. rewrite app_nil_r, dict_set_id by done.
    by destruct w as [? ? ? [] ?].
  - assert (Hw : wave_files w = wave_files w0 ∧ DataPath (self w) = DataPath (self w0))
      by (by injection Hin).
    destruct Hw as [Hwf Hdp].
    assert (Hfile : wave_file_of w x = wave_file_of w0 x)
      by (unfold wave_file_of; by rewrite Hwf, Hdp).
    cbn [for_in]. run_M. rewrite <- Hdp at 1.
    rewrite IgorLoad_quiet_run.
    2:{ intros p d Hp. rewrite Hwf in Hp. by apply (Hh p d). }
    rewrite (store_raw_run group x _ _ inner) by done.
    rewrite (IH _ (dict_set inner x (loaded (wave_file_of w x)))).
    + cbn [with_raw raw self set_raw stdout fold_left map concat].
      rewrite dict_set_set, <- !app_assoc, Hfile. done.
    + by rewrite <- Hin.
    + cbn. apply dict_get_set_eq.
Qed.

Lemma get_or_empty_set_eq {A} (d : dict (dict A)) (g : string) (v : dict A) :
  get_or_empty (dict_set d g v) g = v.
Proof. unfold get_or_empty. by rewrite dict_get_set_eq. Qed.

Lemma get_or_empty_set_ne {A} (d : dict (dict A)) (g g' : string) (v : dict A) :
  g ≠ g' → get_or_empty (dict_set d g v) g' = get_or_empty d g'.
Proof. intros H. unfold get_or_empty. by rewrite dict_get_set_ne. Qed.

Lemma keys_dict_set {A} (d : dict A) (k k' : string) (v : A) :
  k' ∈ keys (dict_set d k v) ↔ k' = k ∨ k' ∈ keys d.
Proof.
  rewrite !dict_get_keys. destruct (decide (k = k')) as [->|Hne].
  - rewrite dict_get_set_eq. split; [by left|by eexists].
  - rewrite dict_get_set_ne by done. split; [by right|]. by intros [->|].
Qed.

Lemma names_run (w : World) (group : string) (names : list string) :
  dict_get (sigs (self w)) group = Some names →
  (s ← get_self sigs; lift (lookup_key s group)) w = (Ok names, w).
Proof. intros H. run_M. unfold lookup_key. by rewrite H. Qed.

Lemma LoadRaw_groups (w0 : World) (groups : list string) :
  headers_readable w0 →
  ∀ w, inputs_of_load w = inputs_of_load w0 →
    (∀ g, g ∈ groups → g ∈ keys (sigs (self w0)) ∧ g ∈ keys (raw (self w))) →
    for_in groups
      (λ group, names ← (s ← get_self sigs; lift (lookup_key s group));
                for_in names (λ sig, v ← IgorLoad sig (DataPath (self w0)) true;
                                     store_raw group sig v)) w
    = (Ok (), with_raw (fold_left (load_group w0) groups (raw (self w)))
                (stdout w ++ concat (map (group_messages w0) groups)) w).
Proof.
  intros Hh. induction groups as [|g groups IH]; intros w Hin Hkeys.
  - cbn [for_in fold_left map concat]. rewrite app_nil_r.
    by destruct w as [? ? ? [] ?].
  - destruct (Hkeys g) as [Hg Hr]; [by left|].
    apply dict_get_keys in Hg as [names Hnames].
    apply dict_get_keys in Hr as [inner Hinner].
    assert (Hs : sigs (self w) = sigs (self w0)) by (by injection Hin).
    cbn [for_in]. do 2 rewrite bind_run.
    rewrite (names_run w g names) by by rewrite Hs.
    rewrite (LoadRaw_group w0 g names Hh w inner Hin Hinner).
    rewrite IH.
    + cbn [with_raw raw self set_raw stdout fold_left map concat].
      assert (load_group w0 (raw (self w)) g
              = dict_set (raw (self w)) g
                  (fold_left (λ c sig, dict_set c sig (loaded (wave_file_of w0 sig)))
                     names inner)) as ->
        by (unfold load_group, names_of, get_or_empty; by rewrite Hnames, Hinner).
      assert (group_messages w0 g
              = concat (map (λ sig, not_loaded_message sig (wave_file_of w0 sig)) names))
        as -> by (unfold group_messages, names_of; by rewrite Hnames).
      by rewrite <- app_assoc.
    + by rewrite <- Hin.
    + intros g' Hg'. destruct (Hkeys g') as [H1 H2]; [by right|].
      split; [done|]. cbn [with_raw raw self set_raw].
      apply keys_dict_set. by right.
Qed.

(** After the passes over [groups], a name listed for one of them holds the
    signal that was loaded for it. *)
Lemma loaded_after (w0 : World) (g sig : string) (groups : list string)
    (r : dict (dict signal)) :
  sig ∈ names_of (sigs (self w0)) g →
  g ∈ groups
  ∨ dict_get (get_or_empty r g) sig = Some (loaded (wave_file_of w0 sig)) →
  dict_get (get_or_empty (fold_left (load_group w0) groups r) g) sig
  = Some (loaded (wave_file_of w0 sig)).
Proof.
  intros Hsig. revert r. induction groups as [|g' groups IH]; intros r H.
  - destruct H as [H|H]; [by apply elem_of_nil in H|done].
  - cbn [fold_left]. apply IH. destruct (decide (g' = g)) as [->|Hne].
    + right. unfold load_group. rewrite get_or_empty_set_eq, dict_get_fold_set.
      by rewrite bool_decide_eq_true_2.
    + destruct H as [H|H].
      * apply elem_of_cons in H as [->|H]; [done|by left].
      * right. unfold load_group. by rewrite get_or_empty_set_ne.
Qed.

(** The passes add no name that is not listed. *)
Lemma keys_after (w0 : World) (g sig : string) (groups : list string)
    (r : dict (dict signal)) :
  sig ∈ keys (get_or_empty (fold_left (load_group w0) groups r) g) →
  sig ∈ keys (get_or_empty r g) ∨ sig ∈ names_of (sigs (self w0)) g.
Proof.
  revert r. induction groups as [|g' groups IH]; intros r H; [by left|].
  cbn [fold_left] in H. apply IH in H as [H|H]; [|by right].
  unfold load_group in H. destruct (decide (g' = g)) as [->|Hne].
  - rewrite get_or_empty_set_eq in H. apply dict_get_keys in H.
    rewrite dict_get_fold_set in H. case_bool_decide; [by right|].
    left. by apply dict_get_keys.
  - left. by rewrite get_or_empty_set_ne in H.
Qed.

(** [LoadRaw] in full. *)
Lemma LoadRaw_exact (w : World) :
  (∀ g, g ∈ keys (sigs (self w)) → g ∈ keys (raw (self w))) →
  headers_readable w →
  LoadRaw w
  = (Ok (), with_raw (fold_left (load_group w) (keys (sigs (self w))) (raw (self w)))
              ((stdout w ++ [PathLine (DataPath (self w))])
               ++ concat (map (group_messages w) (keys (sigs (self w))))) w).
Proof.
  intros Hkeys Hh. unfold LoadRaw, print. run_M.
  set (w1 := {| machine := machine w; text_files := text_files w;
                wave_files := wave_files w; self := self w;
                stdout := stdout w ++ [PathLine (DataPath (self w))] |}).
  apply (LoadRaw_groups w (keys (sigs (self w))) Hh w1); [done|].
  intros g Hg. split; [done|]. by apply Hkeys.
Qed.

(** X13. When the raw-data dictionary has the groups of the channel lists and
    every wave file of the archive has a sample spacing in its header,
    [LoadRaw] raises nothing and changes only the raw data and the output:
    every listed channel ends with the samples and spacing of its file, or
    with the empty stand-in when the file is absent; no other name is added;
    and the output gains the data folder and then, group by group in list
    order, one [not loaded] message for each listed occurrence of a channel
    whose file is absent -- a name listed twice, in one group or in two, is
    loaded twice and reported twice. *)
Theorem LoadRaw_loads (w : World) :
  (∀ g, g ∈ keys (sigs (self w)) → g ∈ keys (raw (self w))) →
  headers_readable w →
  ∃ w',
    LoadRaw w = (Ok (), w')
    ∧ inputs_of_load w' = inputs_of_load w
    ∧ stdout w'
      = stdout w ++ PathLine (DataPath (self w))
                    :: concat (map (group_messages w) (keys (sigs (self w))))
    ∧ (∀ g sig, g ∈ keys (sigs (self w)) → sig ∈ names_of (sigs (self w)) g →
         dict_get (get_or_empty (raw (self w')) g) sig
         = Some (loaded (wave_file_of w sig)))
    ∧ (∀ g sig, sig ∈ keys (get_or_empty (raw (self w')) g) →
         sig ∈ keys (get_or_empty (raw (self w)) g)
         ∨ sig ∈ names_of (sigs (self w)) g).
Proof.
  intros Hkeys Hh. eexists. split; [by apply LoadRaw_exact|].
  cbn [with_raw inputs_of_load self set_raw machine text_files wave_files
           shotnum DataPath sigs calData calFile stdout raw].
    split; [done|]. split; [by rewrite <- app_assoc|]. split.
    + intros g sig Hg Hsig. apply loaded_after; [done|by left].
    + intros g sig. apply keys_after.
Qed.

Lemma LoadRaw_loads_witness :
  ∃ w',
    LoadRaw (world_of [] (waves_without "PlasmaRogB.ibw") (init 12345)) = (Ok (), w')
    ∧ inputs_of_load w'
      = inputs_of_load (world_of [] (waves_without "PlasmaRogB.ibw") (init 12345))
    ∧ stdout w'
      = [] ++ PathLine []
              :: concat (map (group_messages
                                (world_of [] (waves_without "PlasmaRogB.ibw") (init 12345)))
                           (keys (sigs (init 12345))))
    ∧ (∀ g sig, g ∈ keys (sigs (init 12345)) →
         sig ∈ names_of (sigs (init 12345)) g →
         dict_get (get_or_empty (raw (self w')) g) sig
         = Some (loaded (wave_file_of
                           (world_of [] (waves_without "PlasmaRogB.ibw") (init 12345)) sig)))
    ∧ (∀ g sig, sig ∈ keys (get_or_empty (raw (self w')) g) →
         sig ∈ keys (get_or_empty (raw (init 12345)) g)
         ∨ sig ∈ names_of (sigs (init 12345)) g).
Proof.
  apply (LoadRaw_loads (world_of [] (waves_without "PlasmaRogB.ibw") (init 12345))).
  - intros g Hg. apply list_elem_of_In in Hg. apply list_elem_of_In.
    simpl in *. tauto.
  - intros p d Hp. unfold world_of, waves_without in Hp. cbn in Hp.
    destruct (last p) as [f|]; [|done].
    destruct (String.eqb f "PlasmaRogB.ibw"); [done|].
    injection Hp as <-. by eexists.
Defined.

(** ** A whole shot *)

Lemma group_present (w0 : World) (g : string) (groups : list string)
    (r : dict (dict signal)) :
  g ∈ keys r → g ∈ keys (fold_left (load_group w0) groups r).
Proof.
  revert r. induction groups as [|g' groups IH]; intros r H; [done|].
  cbn [fold_left]. apply IH. unfold load_group. apply keys_dict_set. by right.
Qed.

Lemma get_or_empty_Some {A} (d : dict (dict A)) (g : string) :
  g ∈ keys d → dict_get d g = Some (get_or_empty d g).
Proof.
  intros H. apply dict_get_keys in H as [v Hv]. unfold get_or_empty. by rewrite Hv.
Qed.

Lemma keys_rev {A} (d : dict A) (k : string) : k ∈ keys (rev d) ↔ k ∈ keys d.
Proof. unfold keys. rewrite map_rev, !list_elem_of_In. symmetry. apply in_rev. Qed.

Lemma BDots_in_table (sig : string) : sig ∈ BDots → sig ∈ keys BdotNA.
Proof.
  revert sig. apply Forall_forall. by apply (bool_decide_unpack _).
Qed.

(** What [IgorLoad] makes of a file that has a header and samples. *)
Lemma loaded_usable (o : option ibw) :
  (∀ d, o = Some d → (∃ x, wave_deltaX d = Ok x) ∧ wData d ≠ []) →
  usable (loaded o) ∧ (loaded o ≠ NoData → is_Some o).
Proof.
  intros H. destruct o as [d|]; [|done].
  destruct (H d eq_refl) as [[x Hx] Hne]. unfold loaded. rewrite Hx.
  split; [done|]. by eexists.
Qed.


(** X14. [main]: on a known platform, with a calibration file whose blocks all
    parse, wave files that all have a header with a sample spacing and at
    least one sample, the file of [PlasmaRogB] present, and a calibration
    entry for every channel of the three processors whose file is present,
    the whole run completes.  Afterwards the plasma current and every flux
    loop and B-dot channel hold the conditioned signal of their file times the
    factor of the calibration file (times the area [BdotNA] for a B-dot); a
    channel without a file holds the empty channel. *)
Theorem main_completes (system : string) (root : path)
    (texts : path → option (list string)) (waves : path → option ibw)
    (shot : Z) (lines : list string) (entries : dict (fl * string)) :
  dict_get PathDict system = Some root →
  texts (data_folder root shot ++ ["DAS.conf"]) = Some lines →
  block_entries (blocks_of (drop 64 lines)) = Ok entries →
  (∀ p d, waves p = Some d → (∃ x, wave_deltaX d = Ok x) ∧ wData d ≠ []) →
  is_Some (file_in waves (data_folder root shot) "PlasmaRogB") →
  (∀ sig, sig ∈ "PlasmaRogB" :: FluxLoops ++ BDots →
     is_Some (file_in waves (data_folder root shot) sig) → sig ∈ keys entries) →
  ∃ w', run_main system texts waves shot = (Ok (), w')
    ∧ dict_get (get_or_empty (calData (self w')) "Currents") "Ip"
      = Some (calibrated (factor_of (rev entries) "PlasmaRogB")
                (loaded (file_in waves (data_folder root shot) "PlasmaRogB")))
    ∧ (∀ sig, sig ∈ FluxLoops →
         dict_get (get_or_empty (calData (self w')) "FluxLoops") sig
         = Some (calibrated (factor_of (rev entries) sig)
                   (loaded (file_in waves (data_folder root shot) sig))))
    ∧ (∀ sig, sig ∈ BDots →
         dict_get (get_or_empty (calData (self w')) "BDots") sig
         = Some (calibrated (fmul (na_of sig) (factor_of (rev entries) sig))
                   (loaded (file_in waves (data_folder root shot) sig)))).
Proof.
  intros Hroot Hconf Hentries Hwaves Hrog Hcal.
  set (p := data_folder root shot) in *.
  set (w0 := {| machine := system; text_files := texts; wave_files := waves;
                self := init shot; stdout := [] |}).
  (* getFolderPath *)
  set (w1 := {| machine := system; text_files := texts; wave_files := waves;
                self := set_DataPath p (init shot); stdout := [] |}).
  assert (H1 : getFolderPath w0 = (Ok (), w1)) by (by rewrite (getFolderPath_run w0 root)).
  (* LoadRaw *)
  assert (Hfile : ∀ sig, wave_file_of w1 sig = file_in waves p sig) by done.
  set (R := fold_left (load_group w1) (keys (sigs (self w1))) (raw (self w1))).
  pose proof (LoadRaw_exact w1) as H2.
  fold R in H2. set (out2 := (_ ++ concat _)%list) in H2.
  set (w2 := with_raw R out2 w1) in H2.
  specialize (H2 ltac:(by apply Forall_forall, (bool_decide_unpack _))
                 ltac:(by intros q d Hq; apply (Hwaves q d))).
  assert (Hgroups : ∀ g, g ∈ keys (sigs (self w1)) →
            g = "FluxLoops" ∨ g = "BDots" ∨ g = "Currents").
  { intros g Hg%list_elem_of_In. cbn in Hg.
    destruct Hg as [<- | [<- | [<- | []]]]; auto. }
  assert (Hraw : ∀ g, g ∈ keys (sigs (self w1)) →
            dict_get (raw (self w2)) g = Some (get_or_empty R g)).
  { intros g Hg. apply get_or_empty_Some, group_present.
    destruct (Hgroups g Hg) as [-> | [-> | ->]]; by apply (bool_decide_unpack _). }
  assert (Hgrp : ∀ g sig, g ∈ keys (sigs (self w1)) →
            sig ∈ names_of (sigs (self w1)) g →
            dict_get (get_or_empty R g) sig = Some (loaded (file_in waves p sig))).
  { intros g sig Hg Hsig. rewrite <- Hfile. apply loaded_after; [done|by left]. }
  assert (Hkeys : ∀ g sig, g ∈ keys (sigs (self w1)) →
            sig ∈ keys (get_or_empty R g) → sig ∈ names_of (sigs (self w1)) g).
  { intros g sig Hg Hsig. apply keys_after in Hsig as [Hsig|]; [|done].
    exfalso. destruct (Hgroups g Hg) as [-> | [-> | ->]]; by apply elem_of_nil in Hsig. }
  (* LoadCalData *)
  pose proof (LoadCalData_outcome w2 lines Hconf) as H3.
  rewrite Hentries in H3. destruct H3 as (c & H3 & Hc). cbn in Hc.
  set (w3 := with_calFile c w2) in H3.
  assert (Hc' : ∀ name, dict_get c name = dict_get (rev entries) name).
  { intros name. rewrite Hc. by destruct (dict_get (rev entries) name). }
  assert (Hfactor : ∀ name, factor_of c name = factor_of (rev entries) name).
  { intros name. unfold factor_of. by rewrite Hc'. }
  assert (Hentry : ∀ sig, sig ∈ "PlasmaRogB" :: FluxLoops ++ BDots →
            loaded (file_in waves p sig) ≠ NoData → is_Some (dict_get c sig)).
  { intros sig Hsig Hne. rewrite Hc'. apply dict_get_keys, keys_rev, Hcal; [done|].
    destruct (loaded_usable (file_in waves p sig)) as [_ H]; [|by apply H].
    intros d Hd. exact (Hwaves _ d Hd). }
  assert (Husable : ∀ sig, usable (loaded (file_in waves p sig))).
  { intros sig. apply loaded_usable. intros d Hd. exact (Hwaves _ d Hd). }
  (* CalcIp *)
  assert (HgC := Hraw "Currents" ltac:(by apply (bool_decide_unpack _))).
  assert (HsC := Hgrp "Currents" "PlasmaRogB" ltac:(by apply (bool_decide_unpack _))
                   ltac:(by apply (bool_decide_unpack _))).
  assert (HneC : loaded (file_in waves p "PlasmaRogB") ≠ NoData).
  { destruct Hrog as [d Hd]. rewrite Hd. unfold loaded.
    by destruct (Hwaves _ d Hd) as [[x ->] _]. }
  destruct (CleanUp_usable _ (Husable "PlasmaRogB") HneC) as [[out times] HcleanC].
  destruct (Hentry "PlasmaRogB" ltac:(by left) HneC) as [[k unit] HkC].
  pose proof (CalcIp_run w3 _ _ out times k unit [] HgC HsC HcleanC HkC eq_refl) as H4.
  set (ip := {| data := scale k out; time := times |}) in H4.
  set (w4 := with_output _ _ w3) in H4.
  assert (Hip : ip = calibrated (factor_of (rev entries) "PlasmaRogB")
                       (loaded (file_in waves p "PlasmaRogB"))).
  { unfold calibrated. rewrite HcleanC, <- Hfactor. unfold factor_of. by rewrite HkC. }
  (* ProcFL *)
  assert (HgF : dict_get (raw (self w4)) "FluxLoops" = Some (get_or_empty R "FluxLoops")).
  { apply (Hraw "FluxLoops"). by apply (bool_decide_unpack _). }
  pose proof (ProcFL_exact w4 _ [] HgF eq_refl) as H5.
  set (w5 := with_output _ _ w4) in H5.
  assert (HsF : ∀ sig, sig ∈ FluxLoops →
            signal_of (get_or_empty R "FluxLoops") sig = loaded (file_in waves p sig)).
  { intros sig Hsig. unfold signal_of.
    by rewrite (Hgrp "FluxLoops" sig) by (done || by apply (bool_decide_unpack _)). }
  specialize (H5 ltac:(intros sig Hsig%Hkeys; [|by apply (bool_decide_unpack _)];
                       rewrite (HsF sig Hsig); split; [done|];
                       apply Hentry; right; apply elem_of_app; by left)).
  (* ProcBdot *)
  assert (HgB : dict_get (raw (self w5)) "BDots" = Some (get_or_empty R "BDots")).
  { apply (Hraw "BDots"). by apply (bool_decide_unpack _). }
  pose proof (ProcBdot_exact w5 _ [] HgB eq_refl) as H6.
  set (w6 := with_output _ _ w5) in H6.
  assert (HsB : ∀ sig, sig ∈ BDots →
            signal_of (get_or_empty R "BDots") sig = loaded (file_in waves p sig)).
  { intros sig Hsig. unfold signal_of.
    by rewrite (Hgrp "BDots" sig) by (done || by apply (bool_decide_unpack _)). }
  specialize (H6 ltac:(intros sig Hsig%Hkeys; [|by apply (bool_decide_unpack _)];
                       rewrite (HsB sig Hsig); split; [done|];
                       intros Hne; split; [by apply BDots_in_table|];
                       apply Hentry; [|done]; right; apply elem_of_app; by right)).
  (* TestPlot *)
  pose proof (TestPlot_run w6 [("Ip", ip)] ip eq_refl eq_refl) as H7.
  set (w7 := with_output _ _ w6) in H7.
  exists w7. split; [|split; [|split]].
  - unfold run_main, main. fold w0.
    rewrite bind_run, H1, bind_run, H2, bind_run, H3, bind_run, H4, bind_run, H5,
      bind_run, H6. exact H7.
  - by rewrite <- Hip.
  - intros sig Hsig.
    change (get_or_empty (calData (self w7)) "FluxLoops")
      with (fold_left
              (λ c0 s, dict_set c0 s
                 (calibrated (factor_of c s) (signal_of (get_or_empty R "FluxLoops") s)))
              (keys (get_or_empty R "FluxLoops")) []).
    rewrite dict_get_fold_set, bool_decide_eq_true_2.
    + by rewrite Hfactor, HsF.
    + apply dict_get_keys. eexists.
      apply (Hgrp "FluxLoops" sig); [by apply (bool_decide_unpack _)|done].
  - intros sig Hsig.
    change (get_or_empty (calData (self w7)) "BDots")
      with (fold_left
              (λ c0 s, dict_set c0 s
                 (calibrated (fmul (na_of s) (factor_of c s))
                    (signal_of (get_or_empty R "BDots") s)))
              (keys (get_or_empty R "BDots")) []).
    rewrite dict_get_fold_set, bool_decide_eq_true_2.
    + by rewrite Hfactor, HsB.
    + apply dict_get_keys. eexists.
      apply (Hgrp "BDots" sig); [by apply (bool_decide_unpack _)|done].
Qed.


Lemma main_completes_witness :
  ∃ w', run_main "Linux" (λ _, Some das_conf_sample)
          (waves_only ["PlasmaRogB"; "CFL01"]) 12345 = (Ok (), w')
    ∧ dict_get (get_or_empty (calData (self w')) "Currents") "Ip"
      = Some (calibrated (factor_of (rev sample_entries) "PlasmaRogB")
                (loaded (file_in (waves_only ["PlasmaRogB"; "CFL01"])
                           (data_folder ["/mnt"; "Pegasus_Data_Archive"; "p3data"] 12345)
                           "PlasmaRogB")))
    ∧ (∀ sig, sig ∈ FluxLoops →
         dict_get (get_or_empty (calData (self w')) "FluxLoops") sig
         = Some (calibrated (factor_of (rev sample_entries) sig)
                   (loaded (file_in (waves_only ["PlasmaRogB"; "CFL01"])
                              (data_folder ["/mnt"; "Pegasus_Data_Archive"; "p3data"] 12345)
                              sig))))
    ∧ (∀ sig, sig ∈ BDots →
         dict_get (get_or_empty (calData (self w')) "BDots") sig
         = Some (calibrated (fmul (na_of sig) (factor_of (rev sample_entries) sig))
                   (loaded (file_in (waves_only ["PlasmaRogB"; "CFL01"])
                              (data_folder ["/mnt"; "Pegasus_Data_Archive"; "p3data"] 12345)
                              sig)))).
Proof.
  apply (main_completes "Linux" ["/mnt"; "Pegasus_Data_Archive"; "p3data"]
           (λ _, Some das_conf_sample) (waves_only ["PlasmaRogB"; "CFL01"]) 12345
           das_conf_sample sample_entries).
  - reflexivity.
  - reflexivity.
  - vm_compute. reflexivity.
  - intros p d. unfold waves_only. destruct (last p); [|done].
    case_bool_decide; [|done]. intros [= <-]. split; [by eexists|done].
  - vm_compute. by eexists.
  - intros sig Hsig. revert sig Hsig.
    apply (Forall_forall
             (λ sig, is_Some (file_in (waves_only ["PlasmaRogB"; "CFL01"])
                                (data_folder ["/mnt"; "Pegasus_Data_Archive"; "p3data"]
                                   12345) sig)
                     → sig ∈ keys sample_entries)).
    apply (bool_decide_unpack _). vm_compute. reflexivity.
Defined.


(** ** What a calibration block is read as *)

Lemma append_Empty (t : string) : EmptyString +:+ t = t.
Proof. reflexivity. Qed.

Lemma append_String (c : ascii) (s t : string) :
  String c s +:+ t = String c (s +:+ t).
Proof. reflexivity. Qed.

Lemma split_go_blank (cur : list ascii) (s : string) :
  blank s →
  split_go cur s = match cur with [] => [] | _ => [string_of_list_ascii (rev cur)] end.
Proof.
  unfold blank. revert cur. induction s as [|c s IH]; intros cur H; cbn [split_go]; [done|].
  cbn [list_ascii_of_string] in H. apply Forall_cons in H as [-> H].
  rewrite (IH [] H). by rewrite app_nil_r.
Qed.

Lemma split_go_token (cur : list ascii) (tok trail : string) :
  Forall (λ c, isspace c = false) (list_ascii_of_string tok) → blank trail →
  cur ≠ [] ∨ tok ≠ EmptyString →
  split_go cur (tok +:+ trail)
  = [string_of_list_ascii (rev cur ++ list_ascii_of_string tok)].
Proof.
  revert cur. induction tok as [|c tok IH]; intros cur Htok Htrail Hne.
  - rewrite append_Empty. cbn [list_ascii_of_string].
    rewrite split_go_blank, app_nil_r by done.
    destruct cur; [by destruct Hne|done].
  - rewrite append_String. cbn [list_ascii_of_string split_go] in *.
    apply Forall_cons in Htok as [-> Htok].
    rewrite (IH (c :: cur)); [|done|done|by left].
    cbn [rev]. by rewrite <- app_assoc.
Qed.

(** [line.split()[-1]] on a line that ends in a token and blanks. *)
Lemma last_token_line (pre tok trail : string) (sep : ascii) :
  isspace sep = true → token tok → blank trail →
  last_token (pre +:+ String sep (tok +:+ trail)) = Ok tok.
Proof.
  intros Hsep [Hne Htok] Htrail. unfold last_token, py_split.
  generalize (@nil ascii) as cur. induction pre as [|c pre IH]; intros cur.
  - rewrite append_Empty. cbn [split_go]. rewrite Hsep.
    rewrite split_go_token by (done || by right). cbn [rev app].
    apply getlast_Some. by rewrite last_snoc, string_of_list_ascii_of_string.
  - rewrite append_String. cbn [split_go]. destruct (isspace c); [|apply IH].
    specialize (IH []). unfold getlast in *. rewrite last_app.
    by destruct (last (split_go [] _)).
Qed.

Lemma length_lstrip_list (chars : string) (l : list ascii) :
  (length (lstrip_list chars l) ≤ length l)%nat.
Proof.
  induction l as [|c l IH]; cbn [lstrip_list length]; [done|].
  destruct (ascii_in chars c); cbn [length]; lia.
Qed.

Lemma lstrip_list_fixed (chars : string) (l : list ascii) :
  length (lstrip_list chars l) = length l → lstrip_list chars l = l.
Proof.
  destruct l as [|c l]; cbn [lstrip_list length]; [done|].
  destruct (ascii_in chars c); [|done].
  pose proof (length_lstrip_list chars l). lia.
Qed.

Lemma lstrip_list_app (chars : string) (l r : list ascii) :
  l ≠ [] → lstrip_list chars l = l → lstrip_list chars (l ++ r) = l ++ r.
Proof.
  destruct l as [|c l]; [done|]. intros _. cbn [lstrip_list app].
  destruct (ascii_in chars c); [|done].
  intros H. pose proof (length_lstrip_list chars l) as Hl.
  rewrite H in Hl. cbn [length] in Hl. lia.
Qed.

Lemma list_ascii_of_append (s t : string) :
  list_ascii_of_string (s +:+ t) = list_ascii_of_string s ++ list_ascii_of_string t.
Proof.
  induction s as [|c s IH]; [done|].
  rewrite append_String. cbn [list_ascii_of_string app]. by rewrite IH.
Qed.

(** A name between brackets, followed by a line end, is stripped to the name
    when [strip] leaves the name itself alone. *)
Lemma py_strip_bracketed (name : string) :
  py_strip "[]
" name = name →
  py_strip "[]
" ("[" +:+ name +:+ "]
") = name.
Proof.
  intros Hfix. unfold py_strip in *.
  set (chars := "[]
") in *.
  set (L := list_ascii_of_string name) in *.
  assert (HL : rev (lstrip_list chars (rev (lstrip_list chars L))) = L).
  { pose proof (f_equal list_ascii_of_string Hfix) as H.
    by rewrite list_ascii_of_string_of_list_ascii in H. }
  assert (Hlen : length (lstrip_list chars (rev (lstrip_list chars L))) = length L).
  { pose proof (f_equal (@length ascii) HL) as H. by rewrite length_rev in H. }
  pose proof (length_lstrip_list chars L) as H1.
  pose proof (length_lstrip_list chars (rev (lstrip_list chars L))) as H2.
  rewrite length_rev in H2.
  assert (Hl : lstrip_list chars L = L) by (apply lstrip_list_fixed; lia).
  assert (Hr : lstrip_list chars (rev L) = rev L).
  { apply lstrip_list_fixed. rewrite Hl in Hlen. by rewrite Hlen, length_rev. }
  rewrite !list_ascii_of_append. fold L.
  destruct (decide (L = [])) as [E|Hne].
  - rewrite E. cbn. rewrite <- (string_of_list_ascii_of_string name). fold L. by rewrite E.
  - change (list_ascii_of_string "[" ++ L ++ ?r) with ("["%char :: L ++ r).
    cbn [lstrip_list]. change (ascii_in chars "[") with true. cbn match.
    rewrite lstrip_list_app by done.
    rewrite rev_app_distr. cbn [list_ascii_of_string rev app lstrip_list].
    change (ascii_in chars "010") with true. change (ascii_in chars "]") with true.
    cbn match. rewrite Hr, rev_involutive.
    apply string_of_list_ascii_of_string.
Qed.


(** X16. What [LoadCalData] reads from one block: when line 0 is the name
    between brackets, line 3 ends in the token [unit] and line 4 in the token
    [vtok] -- each behind a blank, with only blanks after it -- the block is
    read as the entry of [name] with the factor [float(vtok)] and the unit
    [unit], and fails only if [float] rejects [vtok].  The name is any string
    that [strip('[]\n')] leaves alone; the lines 1, 2, 5 and on, and whatever
    precedes the last token of lines 3 and 4, are not looked at. *)
Theorem block_entry_reads (name unit vtok pu pv tu tv l1 l2 : string)
    (su sv : ascii) (rest : list string) :
  py_strip "[]
" name = name →
  token unit → token vtok → isspace su = true → isspace sv = true →
  blank tu → blank tv →
  block_entry (("[" +:+ name +:+ "]
") :: l1 :: l2 :: (pu +:+ String su (unit +:+ tu))
               :: (pv +:+ String sv (vtok +:+ tv)) :: rest)
  = (val ← py_float vtok; Ok (name, (val, unit))).
Proof.
  intros Hname Hunit Hvtok Hsu Hsv Htu Htv. unfold block_entry.
  cbn [getitem lookup list_lookup mbind result_bind].
  rewrite (last_token_line pv vtok tv sv) by done. cbn [mbind result_bind].
  destruct (py_float vtok) as [val|e]; [|done]. cbn [mbind result_bind].
  rewrite (last_token_line pu unit tu su) by done. cbn [mbind result_bind].
  by rewrite py_strip_bracketed.
Qed.

Lemma block_entry_reads_witness :
  block_entry (("[" +:+ "CFL01" +:+ "]
") :: "gain 1
" :: "offset 0
" :: ("unit" +:+ String " " ("Wb" +:+ "
")) :: ("scale" +:+ String " " ("2.5" +:+ "
")) :: ["comment
"; "
"])
  = (val ← py_float "2.5"; Ok ("CFL01", (val, "Wb"))).
Proof.
  apply (block_entry_reads "CFL01" "Wb" "2.5" "unit" "scale" "
" "
" "gain 1
" "offset 0
" " " " " ["comment
"; "
"]).
  - reflexivity.
  - split; [discriminate|]. repeat constructor.
  - split; [discriminate|]. repeat constructor.
  - reflexivity.
  - reflexivity.
  - repeat constructor.
  - repeat constructor.
Defined.


(** ** The first value CleanUp returns *)

(** The line the loop subtracts, at the time 0: nothing when the end values
    differ by a number, NaN when they differ by NaN or by an infinity. *)
Lemma drift_line_at_zero (aN a0 : fl) (z T : Q) :
  lowest a0 → (z == 0)%Q → ¬ (T == 0)%Q →
  drift_line (fsub aN a0) (Fin T) a0 (Fin z)
  = match fsub aN a0 with Fin _ => a0 | _ => NaN end.
Proof.
  intros Hlow Hz HT. unfold drift_line.
  destruct a0 as [p| | |], aN as [r| | |]; cbn [fsub fmul inf_of];
    rewrite ?(Qeq_bool_true z 0 Hz); try done.
  rewrite fdiv_Fin by done. cbn [fsub]. simpl in Hlow.
  transitivity (Fin (Qred p)); [|by rewrite Hlow].
  apply Fin_Qred_eq. rewrite !Qred_correct, Hz. by field.
Qed.

(** The pass at index 0 writes the first entry, and no later pass does. *)
Lemma remove_drift_first (a times : list fl) (aN a0 t0 tN : fl) :
  length a = length times →
  last a = Some aN → a !! 0%nat = Some a0 →
  times !! 0%nat = Some t0 → last times = Some tN →
  ∃ out, remove_drift a times = Ok out
         ∧ out !! 0%nat = Some (drift_line (fsub aN a0) (fsub tN t0) a0 t0).
Proof.
  intros Hlen HN H0 Ht0 HtN.
  destruct a as [|x0 rest]; [done|]. injection H0 as ->.
  unfold remove_drift. cbn [length seq for_each].
  rewrite (drift_body_reads times _ 0 a0 aN a0 t0 tN t0) by done.
  cbn [mbind result_bind insert list_insert].
  set (v0 := drift_line (fsub aN a0) (fsub tN t0) a0 t0).
  destruct (for_each_drift_written times rest [v0]) as (new & H & _); [done|].
  cbn [length app] in H. rewrite H. by exists (v0 :: new).
Qed.

Lemma offSig_first_lowest (s : signal) (intFlag : bool) (offSig : list fl) (a0 : fl) :
  offSig_of s intFlag = Ok offSig → offSig !! 0%nat = Some a0 →
  lowest a0 ∧ (intFlag = true → a0 = Fin 0).
Proof.
  destruct s as [|dx sig]; [done|]. unfold offSig_of.
  destruct (fancy_index sig _) as [sel|e]; [|done]. cbn [mbind result_bind].
  destruct intFlag.
  - unfold cumtrapz. destruct (map _ sig); [done|].
    intros [= <-] [= <-]. by split.
  - intros [= <-] H0. split; [|done].
    rewrite list_lookup_fmap in H0. destruct (sig !! 0%nat); [|done].
    injection H0 as <-. apply lowest_fsub.
Qed.

(** X17. The drift removal leaves the first value alone.  On a wave with at
    least two samples and a positive sample spacing, whatever the samples: the
    first value [CleanUp] returns is [offSig[0]] -- the first sample less the
    baseline mean, or exactly 0 with integration -- when the end values that
    reach the loop differ by a number, and NaN when they differ by NaN or by
    an infinity. *)
Theorem CleanUp_first_value (dx : Q) (data : list fl) (intFlag : bool)
    (offSig : list fl) (d a0 : fl) :
  (0 < dx)%Q → (2 ≤ length data)%nat →
  offSig_of (Wave (Fin dx) data) intFlag = Ok offSig →
  end_difference offSig = Ok d → offSig !! 0%nat = Some a0 →
  ∃ out,
    CleanUp (Wave (Fin dx) data) intFlag
    = Ok (out, arange_scaled (Fin dx) (length data))
    ∧ out !! 0%nat = Some (match d with Fin _ => a0 | _ => NaN end)
    ∧ (intFlag = true → a0 = Fin 0).
Proof.
  intros Hdx Hn Hoff Hd H0.
  destruct (offSig_first_lowest _ _ _ _ Hoff H0) as [Hlow Hint].
  unfold CleanUp, offSig_of in *.
  set (sigTime := arange_scaled (Fin dx) (length data)) in *.
  destruct (fancy_index data (flatnonzero (baseline_mask sigTime)))
    as [sel|e]; [|done].
  cbn [mbind result_bind] in *.
  set (off0 := map (λ x, fsub x (np_mean sel)) data) in *.
  assert (Hlen0 : length off0 = length sigTime).
  { unfold off0, sigTime. by rewrite length_map, length_arange_scaled. }
  assert ((if intFlag then cumtrapz off0 sigTime (Fin 0) else Ok off0) = Ok offSig
          ∧ length offSig = length sigTime) as [-> Hlen].
  { split; [done|]. destruct intFlag; [|by injection Hoff as <-].
    by rewrite (cumtrapz_length _ _ _ Hlen0 Hoff). }
  cbn [mbind result_bind].
  destruct (time_axis_first dx (length data)) as (z & Ht0 & Hz); [lia|].
  destruct (time_axis_last dx (length data)) as (zN & HtN & HzN); [lia|].
  assert (HzN0 : ¬ (zN == 0)%Q) by (eapply time_axis_span; [done| |done]; lia).
  unfold end_difference, getlast, getitem in Hd. rewrite H0 in Hd.
  destruct (last offSig) as [aN|] eqn:HaN; [|done]. injection Hd as <-.
  destruct (remove_drift_first offSig sigTime aN a0 (Fin z) (Fin zN))
    as (out & -> & Hout); try done.
  exists out. cbn [mbind result_bind]. split; [done|]. split; [|done].
  rewrite Hout. f_equal. cbn [fsub].
  apply drift_line_at_zero; [done|done|by apply span_nonzero].
Qed.

Lemma CleanUp_first_value_witness :
  ∃ out,
    CleanUp (Wave (Fin (4 # 10000)) [Fin 5; Fin 1; Fin 3; Fin 8]) false
    = Ok (out, arange_scaled (Fin (4 # 10000)) (length [Fin 5; Fin 1; Fin 3; Fin 8]))
    ∧ out !! 0%nat = Some (match Fin 3 with Fin _ => Fin 3 | _ => NaN end)
    ∧ (false = true → Fin 3 = Fin 0).
Proof.
  apply (CleanUp_first_value (4 # 10000) [Fin 5; Fin 1; Fin 3; Fin 8] false
           [Fin 3; Fin (-1); Fin 1; Fin 6] (Fin 3) (Fin 3)).
  - reflexivity.
  - simpl. lia.
  - vm_compute. reflexivity.
  - vm_compute. reflexivity.
  - reflexivity.
Defined.
